(** * Virtual dressing room: pose-to-garment alignment and cloth simulation

    A shallow embedding of the TypeScript sources
      - [src/lib/pose.ts], [src/lib/skeleton.ts], [src/lib/garment.ts],
      - [src/hooks/useGarmentRenderer.ts] (the placement part), and
      - [supabase/functions/extract-image/index.ts],
    followed by the properties the design document states about them.

    JavaScript numbers are IEEE 754 binary64 values, so they are embedded as
    Rocq's primitive floats with the same operations and the same rounding.
    Array indices and loop counters stay natural numbers. Strings are
    sequences of code units below 256. *)

From Stdlib Require Import ZArith Lia Bool String Ascii DecimalString.
From Stdlib Require Import Floats.PrimFloat Numbers.Cyclic.Int63.Uint63.
From stdpp Require Import base option list strings gmap.

#[local] Set Warnings "-inexact-float,-register-all".

(** ** Numbers *)

Module Num.

(** A small non-negative integer as a JavaScript number. *)
Definition of_nat (n : nat) : float :=
  PrimFloat.of_uint63 (Uint63.of_Z (Z.of_nat n)).

(** [a > b] of JavaScript: false as soon as one side is NaN. *)
Definition gtb (a b : float) : bool := PrimFloat.ltb b a.

(** [!x] is true on a number exactly for 0, -0 and NaN. *)
Definition falsy (a : float) : bool := PrimFloat.is_zero a || PrimFloat.is_nan a.

(** [Math.max] and [Math.min] on two arguments: NaN is contagious and
    +0 counts as larger than -0. *)
Definition Math_max (a b : float) : float :=
  if PrimFloat.is_nan a || PrimFloat.is_nan b then PrimFloat.nan
  else if PrimFloat.ltb a b then b
  else if PrimFloat.ltb b a then a
  else if PrimFloat.get_sign a then b else a.

Definition Math_min (a b : float) : float :=
  if PrimFloat.is_nan a || PrimFloat.is_nan b then PrimFloat.nan
  else if PrimFloat.ltb a b then a
  else if PrimFloat.ltb b a then b
  else if PrimFloat.get_sign a then a else b.

End Num.

(** ** The part of THREE.Vector3 the program uses

    Every method of the library mutates its receiver and returns it; here the
    receiver's new value is the result. *)

Module Vector3.

Record t : Type := mk { x : float; y : float; z : float }.

(** [new THREE.Vector3()] *)
Definition zero : t := mk 0 0 0.

Definition clone (v : t) : t := mk (x v) (y v) (z v).

(** [this.copy(v)]: the receiver takes the three components of [v]. *)
Definition copy (_this v : t) : t := mk (x v) (y v) (z v).

Definition add (this v : t) : t :=
  mk (x this + x v)%float (y this + y v)%float (z this + z v)%float.

Definition sub (this v : t) : t :=
  mk (x this - x v)%float (y this - y v)%float (z this - z v)%float.

Definition multiplyScalar (this : t) (s : float) : t :=
  mk (x this * s)%float (y this * s)%float (z this * s)%float.

(** [this.addVectors(a, b)] and [this.subVectors(a, b)] overwrite the receiver. *)
Definition addVectors (a b : t) : t :=
  mk (x a + x b)%float (y a + y b)%float (z a + z b)%float.

Definition subVectors (a b : t) : t :=
  mk (x a - x b)%float (y a - y b)%float (z a - z b)%float.

Definition length (v : t) : float :=
  PrimFloat.sqrt (x v * x v + y v * y v + z v * z v)%float.

Definition distanceToSquared (this v : t) : float :=
  let dx := (x this - x v)%float in
  let dy := (y this - y v)%float in
  let dz := (z this - z v)%float in
  (dx * dx + dy * dy + dz * dz)%float.

Definition distanceTo (this v : t) : float :=
  PrimFloat.sqrt (distanceToSquared this v).

(** [divideScalar(s)] is [multiplyScalar(1 / s)];
    [normalize()] is [divideScalar(this.length() || 1)]. *)
Definition divideScalar (this : t) (s : float) : t :=
  multiplyScalar this (1 / s)%float.

Definition normalize (this : t) : t :=
  let l := length this in
  divideScalar this (if Num.falsy l then 1%float else l).

Definition set_x (v : t) (a : float) : t := mk a (y v) (z v).
Definition set_y (v : t) (a : float) : t := mk (x v) a (z v).
Definition set_z (v : t) (a : float) : t := mk (x v) (y v) a.

End Vector3.

(** ** Completion of a statement sequence

    A sequence of statements that mutates a state either runs to its end or
    is left by a thrown TypeError; in both cases the mutations made so far
    stay in the state. *)

Inductive completion (S : Type) : Type :=
| Normal (s : S)
| Throw (s : S).
Arguments Normal {S} s.
Arguments Throw {S} s.

Definition state_of {S : Type} (c : completion S) : S :=
  match c with Normal s => s | Throw s => s end.

Definition andThen {S : Type} (c : completion S) (k : S -> completion S)
  : completion S :=
  match c with Normal s => k s | Throw s => Throw s end.

(** [for (const a of l) body]: the elements in array order, left at the
    first throw. *)
Fixpoint forOf {A S : Type} (body : A -> S -> completion S) (l : list A)
  (s : S) : completion S :=
  match l with
  | [] => Normal s
  | a :: l' => andThen (body a s) (forOf body l')
  end.

(** [for (let iter = 0; iter < n; iter++) body], the body not reading [iter]. *)
Fixpoint forTimes {S : Type} (n : nat) (body : S -> completion S) (s : S)
  : completion S :=
  match n with
  | O => Normal s
  | Datatypes.S n' => andThen (body s) (forTimes n' body)
  end.

(** ** Garment geometry ([src/lib/garment.ts], the three mesh builders) *)

Inductive GarmentType : Type := shirt | pants | skirt.

Module Geometry.

(** The attributes of a THREE.BufferGeometry the program reads: the
    position buffer (item size 3), the uv buffer (item size 2) and the
    triangle index. The normal attribute, which only lighting reads, is left
    out. *)
Record BufferGeometry : Type := mkGeometry {
  attr_position : list float;
  attr_uv : list float;
  index : option (list nat)
}.

(** [new THREE.BufferGeometry()] *)
Definition emptyGeometry : BufferGeometry := mkGeometry [] [] None.

(** Geometries are objects: a heap of them, addressed by allocation order. *)
Definition Heap : Type := list BufferGeometry.

Definition new_BufferGeometry (h : Heap) : nat * Heap :=
  (List.length h, h ++ [emptyGeometry]).

(** [positions.count] and [index.count / 3] *)
Definition vertexCount (g : BufferGeometry) : nat :=
  List.length (attr_position g) / 3.

Definition triangleCount (g : BufferGeometry) : nat :=
  match index g with
  | Some l => List.length l / 3
  | None => 0
  end.

(** The three local arrays every builder fills. *)
Record Arrays : Type := mkArrays {
  vertices : list float;
  indices : list nat;
  uvs : list float
}.

Definition noArrays : Arrays := mkArrays [] [] [].

Definition push_vertices (xs : list float) (b : Arrays) : Arrays :=
  mkArrays (vertices b ++ xs) (indices b) (uvs b).

Definition push_indices (xs : list nat) (b : Arrays) : Arrays :=
  mkArrays (vertices b) (indices b ++ xs) (uvs b).

Definition push_uvs (xs : list float) (b : Arrays) : Arrays :=
  mkArrays (vertices b) (indices b) (uvs b ++ xs).

(** [for (let i = lo; i < hi; i++) body] *)
Definition forRange {S : Type} (lo hi : nat) (body : nat -> S -> S) (s : S) : S :=
  foldl (fun s i => body i s) s (seq lo (hi - lo)).

(** [Math.PI] *)
Definition Math_PI : float := 3.141592653589793%float.

Section Platform.
(** [Math.cos] is implementation-approximated, and a Float32Array rounds
    what is stored in it to binary32: both are taken from the platform. *)
Variable Math_cos : float -> float.
Variable Math_fround : float -> float.

(** [geometry.setAttribute('position', new Float32BufferAttribute(vertices, 3))],
    the same for ['uv'], and [geometry.setIndex(indices)]; every index
    written here is below 65536 and is stored as it is. *)
Definition setAttributes (geometry : nat) (b : Arrays) (h : Heap) : Heap :=
  <[geometry := mkGeometry (Math_fround <$> vertices b)
                           (Math_fround <$> uvs b)
                           (Some (indices b))]> h.

Definition createShirtGeometry (h : Heap) : nat * Heap :=
  let '(geometry, h) := new_BufferGeometry h in
  let torsoWidth := 1.2%float in
  let torsoHeight := 1.0%float in
  let gridX := 12 in
  let gridY := 10 in
  let b :=
    forRange 0 (gridY + 1) (fun y =>
      forRange 0 (gridX + 1) (fun x b =>
        let u := (Num.of_nat x / Num.of_nat gridX)%float in
        let v := (Num.of_nat y / Num.of_nat gridY)%float in
        let xPos := ((u - 0.5) * torsoWidth)%float in
        let yPos := ((0.5 - v) * torsoHeight)%float in
        let zPos := (0.02 + Math_cos ((u - 0.5) * Math_PI) * 0.05)%float in
        push_uvs [u; (1 - v)%float] (push_vertices [xPos; yPos; zPos] b)))
      noArrays in
  let b :=
    forRange 0 gridY (fun y =>
      forRange 0 gridX (fun x b =>
        let a := y * (gridX + 1) + x in
        let b_ := a + 1 in
        let c := a + (gridX + 1) in
        let d := c + 1 in
        push_indices [b_; c; d] (push_indices [a; c; b_] b)))
      b in
  (geometry, setAttributes geometry b h).

Definition createPantsGeometry (h : Heap) : nat * Heap :=
  let '(geometry, h) := new_BufferGeometry h in
  let legWidth := 0.35%float in
  let legHeight := 1.0%float in
  let legSpacing := 0.2%float in
  let gridX := 6 in
  let gridY := 12 in
  (* Left leg *)
  let b :=
    forRange 0 (gridY + 1) (fun y =>
      forRange 0 (gridX + 1) (fun x b =>
        let u := (Num.of_nat x / Num.of_nat gridX)%float in
        let v := (Num.of_nat y / Num.of_nat gridY)%float in
        let taperFactor := (1 - v * 0.2)%float in
        let xPos := ((u - 0.5) * legWidth * taperFactor - legSpacing)%float in
        let yPos := ((0.5 - v) * legHeight - 0.2)%float in
        let zPos := 0.02%float in
        push_uvs [(u * 0.5)%float; (1 - v)%float]
          (push_vertices [xPos; yPos; zPos] b)))
      noArrays in
  (* Right leg *)
  let offset := (gridX + 1) * (gridY + 1) in
  let b :=
    forRange 0 (gridY + 1) (fun y =>
      forRange 0 (gridX + 1) (fun x b =>
        let u := (Num.of_nat x / Num.of_nat gridX)%float in
        let v := (Num.of_nat y / Num.of_nat gridY)%float in
        let taperFactor := (1 - v * 0.2)%float in
        let xPos := ((u - 0.5) * legWidth * taperFactor + legSpacing)%float in
        let yPos := ((0.5 - v) * legHeight - 0.2)%float in
        let zPos := 0.02%float in
        push_uvs [(0.5 + u * 0.5)%float; (1 - v)%float]
          (push_vertices [xPos; yPos; zPos] b)))
      b in
  let b :=
    forRange 0 2 (fun leg =>
      let legOffset := leg * offset in
      forRange 0 gridY (fun y =>
        forRange 0 gridX (fun x b =>
          let a := legOffset + y * (gridX + 1) + x in
          let b_ := a + 1 in
          let c := a + (gridX + 1) in
          let d := c + 1 in
          push_indices [b_; c; d] (push_indices [a; c; b_] b))))
      b in
  (geometry, setAttributes geometry b h).

Definition createSkirtGeometry (h : Heap) : nat * Heap :=
  let '(geometry, h) := new_BufferGeometry h in
  let topWidth := 0.6%float in
  let bottomWidth := 1.0%float in
  let height := 0.7%float in
  let gridX := 14 in
  let gridY := 10 in
  let b :=
    forRange 0 (gridY + 1) (fun y =>
      let v := (Num.of_nat y / Num.of_nat gridY)%float in
      let width := (topWidth + (bottomWidth - topWidth) * v)%float in
      forRange 0 (gridX + 1) (fun x b =>
        let u := (Num.of_nat x / Num.of_nat gridX)%float in
        let xPos := ((u - 0.5) * width)%float in
        let yPos := ((0.5 - v) * height - 0.15)%float in
        let zPos := (0.02 + Math_cos ((u - 0.5) * Math_PI) * 0.03)%float in
        push_uvs [u; (1 - v)%float] (push_vertices [xPos; yPos; zPos] b)))
      noArrays in
  let b :=
    forRange 0 gridY (fun y =>
      forRange 0 gridX (fun x b =>
        let a := y * (gridX + 1) + x in
        let b_ := a + 1 in
        let c := a + (gridX + 1) in
        let d := c + 1 in
        push_indices [b_; c; d] (push_indices [a; c; b_] b)))
      b in
  (geometry, setAttributes geometry b h).

(** The [default] branch of the switch cannot be taken by a value of type
    [GarmentType]. *)
Definition createGarmentGeometry (type : GarmentType) (h : Heap) : nat * Heap :=
  match type with
  | shirt => createShirtGeometry h
  | pants => createPantsGeometry h
  | skirt => createSkirtGeometry h
  end.

(** The geometry a call returns, read from the heap it leaves. *)
Definition created (r : nat * Heap) : option BufferGeometry := r.2 !! r.1.

End Platform.

(** The triangulation rule of the design document for one band of grid
    rows: a grid of [cols] by [rows] cells whose vertices are laid out row
    by row with [stride = cols + 1] vertices per row, starting at row
    [row0] of the vertex array. Cell [(x, y)] gives the triangles
    [(a, c, b)] and [(b, c, d)] with [a = row * stride + x], [b = a + 1],
    [c = a + stride], [d = c + 1], where [row = row0 + y]. *)
Definition cellTriangles (stride row x : nat) : list nat :=
  let a := row * stride + x in
  let b := a + 1 in
  let c := a + stride in
  let d := c + 1 in
  [a; c; b; b; c; d].

Definition gridTriangles (cols rows row0 : nat) : list nat :=
  y ← seq 0 rows; x ← seq 0 cols; cellTriangles (cols + 1) (row0 + y) x.

(** The grid formulas of the design document: vertices, triangles and the
    index list per garment type. The pants are two 6 by 12 grids, the second
    one starting at row 13 of the vertex array. *)
Definition gridVertexCount (type : GarmentType) : nat :=
  match type with
  | shirt => 13 * 11
  | pants => 2 * (7 * 13)
  | skirt => 15 * 11
  end.

Definition gridTriangleCount (type : GarmentType) : nat :=
  match type with
  | shirt => 12 * 10 * 2
  | pants => 2 * (6 * 12 * 2)
  | skirt => 14 * 10 * 2
  end.

Definition gridIndex (type : GarmentType) : list nat :=
  match type with
  | shirt => gridTriangles 12 10 0
  | pants => gridTriangles 6 12 0 ++ gridTriangles 6 12 13
  | skirt => gridTriangles 14 10 0
  end.

End Geometry.

(** ** Cloth physics ([src/lib/garment.ts], class SimpleClothPhysics) *)

Module Cloth.

Record ClothVertex : Type := mkVertex {
  position : Vector3.t;
  previousPosition : Vector3.t;
  velocity : Vector3.t;
  pinned : bool;
  mass : float
}.

Record SpringConstraint : Type := mkConstraint {
  vertexA : nat;
  vertexB : nat;
  restLength : float;
  stiffness : float
}.

(** The two mutable arrays of the object; [gravity], [damping] and
    [maxStretch] are private fields that no method assigns. *)
Record SimpleClothPhysics : Type := mkPhysics {
  vertices : list ClothVertex;
  constraints : list SpringConstraint
}.

Definition gravity : Vector3.t := Vector3.mk 0 (-0.0005) 0.
Definition damping : float := 0.98%float.
Definition maxStretch : float := 1.1%float.

Definition set_position (v : ClothVertex) (p : Vector3.t) : ClothVertex :=
  mkVertex p (previousPosition v) (velocity v) (pinned v) (mass v).

Definition set_pinned (v : ClothVertex) (b : bool) : ClothVertex :=
  mkVertex (position v) (previousPosition v) (velocity v) b (mass v).

(** [pinVertex(index, position)] *)
Definition pinVertex (index : nat) (p : Vector3.t) (s : SimpleClothPhysics)
  : SimpleClothPhysics :=
  match vertices s !! index with
  | Some v =>
      let v1 := set_pinned v true in
      let v2 := set_position v1 (Vector3.copy (position v1) p) in
      mkPhysics (<[index := v2]> (vertices s)) (constraints s)
  | None => s
  end.

(** [unpinVertex(index)] *)
Definition unpinVertex (index : nat) (s : SimpleClothPhysics)
  : SimpleClothPhysics :=
  match vertices s !! index with
  | Some v => mkPhysics (<[index := set_pinned v false]> (vertices s)) (constraints s)
  | None => s
  end.

(** The body of the first loop of [update]. *)
Definition integrateVertex (vertex : ClothVertex) : ClothVertex :=
  if pinned vertex then vertex
  else
    let temp := Vector3.clone (position vertex) in
    let velocity' :=
      Vector3.multiplyScalar
        (Vector3.sub (Vector3.copy (velocity vertex) (position vertex))
                     (previousPosition vertex))
        damping in
    let position1 := Vector3.add (position vertex) velocity' in
    let position2 := Vector3.add position1 gravity in
    let previousPosition' := Vector3.copy (previousPosition vertex) temp in
    mkVertex position2 previousPosition' velocity' (pinned vertex) (mass vertex).

Definition integrate (vs : list ClothVertex) : list ClothVertex :=
  integrateVertex <$> vs.

(** The scalar that [diff] is multiplied by to give [correction]. *)
Definition correctionFactor (distance : float) (c : SpringConstraint) : float :=
  ((distance - restLength c) / distance * 0.5 * stiffness c)%float.

Definition outsideDeadZone (distance : float) (c : SpringConstraint) : bool :=
  Num.gtb distance (restLength c * maxStretch)%float
  || PrimFloat.ltb distance (restLength c * 0.9)%float.

(** The body of the inner loop of [update]. Reading [.position] of a
    missing vertex throws before anything is written. [vertexB] is looked up
    again after [vertexA] was written: with equal indices both names denote
    one object. *)
Definition satisfyConstraint (constraint : SpringConstraint)
  (vs : list ClothVertex) : completion (list ClothVertex) :=
  match vs !! vertexA constraint, vs !! vertexB constraint with
  | Some vA, Some vB =>
      let diff := Vector3.subVectors (position vB) (position vA) in
      let distance := Vector3.length diff in
      if outsideDeadZone distance constraint then
        let correction :=
          Vector3.multiplyScalar diff (correctionFactor distance constraint) in
        let vs1 :=
          if pinned vA then vs
          else <[vertexA constraint :=
                   set_position vA (Vector3.add (position vA) correction)]> vs in
        let vs2 :=
          match vs1 !! vertexB constraint with
          | Some vB' =>
              if pinned vB' then vs1
              else <[vertexB constraint :=
                       set_position vB' (Vector3.sub (position vB') correction)]> vs1
          | None => vs1
          end in
        Normal vs2
      else Normal vs
  | _, _ => Throw vs
  end.

(** [update(deltaTime = 1/60)] *)
Definition update (deltaTime : float) (s : SimpleClothPhysics)
  : completion SimpleClothPhysics :=
  let vs := integrate (vertices s) in
  match forTimes 3 (forOf satisfyConstraint (constraints s)) vs with
  | Normal vs' => Normal (mkPhysics vs' (constraints s))
  | Throw vs' => Throw (mkPhysics vs' (constraints s))
  end.

Definition getVertexCount (s : SimpleClothPhysics) : nat :=
  List.length (vertices s).

(** What a client can do to a physics object between two frames. *)
Inductive call : Type :=
| CallPin (index : nat) (p : Vector3.t)
| CallUnpin (index : nat)
| CallUpdate (deltaTime : float).

(** The state a call leaves behind, whether or not it threw. *)
Definition perform (c : call) (s : SimpleClothPhysics) : SimpleClothPhysics :=
  match c with
  | CallPin i p => pinVertex i p s
  | CallUnpin i => unpinVertex i s
  | CallUpdate dt => state_of (update dt s)
  end.

Definition performAll (cs : list call) (s : SimpleClothPhysics)
  : SimpleClothPhysics :=
  foldl (fun s c => perform c s) s cs.

(** A call that sets the pinned flag of vertex [i]. *)
Definition repins (i : nat) (c : call) : bool :=
  match c with
  | CallPin j _ => Nat.eqb i j
  | CallUnpin j => Nat.eqb i j
  | CallUpdate _ => false
  end.

(** *** The constructor *)

(** [positions.getX(i)], [getY(i)], [getZ(i)] for [i < positions.count]. *)
Definition getXYZ (positions : list float) (i : nat) : Vector3.t :=
  Vector3.mk (nth (3 * i) positions PrimFloat.nan)
             (nth (3 * i + 1) positions PrimFloat.nan)
             (nth (3 * i + 2) positions PrimFloat.nan).

Definition newVertex (pos : Vector3.t) : ClothVertex :=
  mkVertex (Vector3.clone pos) (Vector3.clone pos) Vector3.zero false 1%float.

(** The key [`${a}_${b}`] with the smaller index first, as the pair of the
    two indices. *)
Definition edgeKey (a b : nat) : nat * nat :=
  if a <? b then (a, b) else (b, a).

(** [addEdge(a, b, edgeSet)]; [None] when reading [.position] of a missing
    vertex throws. *)
Definition addEdge (a b : nat) (st : gset (nat * nat) * SimpleClothPhysics)
  : option (gset (nat * nat) * SimpleClothPhysics) :=
  let '(edgeSet, s) := st in
  let key := edgeKey a b in
  if bool_decide (key ∈ edgeSet) then Some st
  else
    let edgeSet := {[ key ]} ∪ edgeSet in
    va ← vertices s !! a;
    vb ← vertices s !! b;
    let restLength := Vector3.distanceTo (position va) (position vb) in
    Some (edgeSet,
          mkPhysics (vertices s)
                    (constraints s ++ [mkConstraint a b restLength 0.5%float])).

(** [for (let i = 0; i < index.count; i += 3)]: an index whose length is
    not a multiple of 3 makes the last round call [addEdge] with
    [undefined], which throws. *)
Fixpoint addTriangles (idx : list nat)
  (st : gset (nat * nat) * SimpleClothPhysics)
  : option (gset (nat * nat) * SimpleClothPhysics) :=
  match idx with
  | [] => Some st
  | a :: b :: c :: rest =>
      st ← addEdge a b st;
      st ← addEdge b c st;
      st ← addEdge c a st;
      addTriangles rest st
  | _ => None
  end.

(** [new SimpleClothPhysics(geometry)]; [None] when the constructor throws. *)
Definition initializeFromGeometry (geometry : Geometry.BufferGeometry)
  : option SimpleClothPhysics :=
  let positions := Geometry.attr_position geometry in
  let count := Geometry.vertexCount geometry in
  let s := mkPhysics ((fun i => newVertex (getXYZ positions i)) <$> seq 0 count) [] in
  match Geometry.index geometry with
  | Some idx => snd <$> addTriangles idx (∅, s)
  | None => Some s
  end.

(** [applyToGeometry(geometry)], on the position buffer of the geometry;
    [Math_fround] is the rounding of the Float32Array written to. *)
Definition applyToGeometry (Math_fround : float -> float)
  (s : SimpleClothPhysics) (positions : list float) : list float :=
  Geometry.forRange 0 (List.length (vertices s) `min` (List.length positions / 3))
    (fun i positions =>
       match vertices s !! i with
       | Some v =>
           <[3 * i + 2 := Math_fround (Vector3.z (position v))]>
             (<[3 * i + 1 := Math_fround (Vector3.y (position v))]>
                (<[3 * i := Math_fround (Vector3.x (position v))]> positions))
       | None => positions
       end)
    positions.

(** *** States a client can observe *)

Inductive reachable : SimpleClothPhysics -> Prop :=
| reachable_new geometry s :
    initializeFromGeometry geometry = Some s -> reachable s
| reachable_call c s :
    reachable s -> reachable (perform c s).

(** Every constraint joins two existing vertices with stiffness 0.5. *)
Definition constraint_ok (n : nat) (c : SpringConstraint) : Prop :=
  vertexA c < n /\ vertexB c < n /\ stiffness c = 0.5%float.

Definition well_formed (s : SimpleClothPhysics) : Prop :=
  Forall (constraint_ok (List.length (vertices s))) (constraints s).

(** Vertex [k] is the pinned vertex [v]. *)
Definition pinned_at (k : nat) (v : ClothVertex) (vs : list ClothVertex) : Prop :=
  vs !! k = Some v /\ pinned v = true.


(** *** The per-tick algorithm in the words of the design document *)

(** Step 1 for a free vertex: [velocity = (position - previousPosition) *
    damping], [previousPosition = position],
    [position = position + velocity + gravity], with damping 0.98 and
    gravity (0, -0.0005, 0). *)
Definition verletStep (v : ClothVertex) : ClothVertex :=
  let velocity' :=
    Vector3.multiplyScalar
      (Vector3.subVectors (position v) (previousPosition v)) 0.98%float in
  mkVertex
    (Vector3.addVectors (Vector3.addVectors (position v) velocity')
                        (Vector3.mk 0 (-0.0005) 0))
    (position v) velocity' (pinned v) (mass v).

(** A vertex is moved by [f] unless it is pinned. *)
Definition moveUnlessPinned (k : nat) (f : Vector3.t -> Vector3.t)
  (vs : list ClothVertex) : list ClothVertex :=
  match vs !! k with
  | Some v => if pinned v then vs else <[k := set_position v (f (position v))]> vs
  | None => vs
  end.

(** The separation vector from A to B, its length, and the displacement:
    the separation scaled by (length error / length), by one half and by the
    stiffness 0.5. *)
Definition separation (vA vB : ClothVertex) : Vector3.t :=
  Vector3.subVectors (position vB) (position vA).

Definition displacement (restLength : float) (vA vB : ClothVertex) : Vector3.t :=
  let d := Vector3.length (separation vA vB) in
  Vector3.multiplyScalar (separation vA vB)
    ((d - restLength) / d * 0.5 * 0.5)%float.

(** Step 2 for one constraint: nothing inside the dead zone; outside it (the
    length above 110% or below 90% of the rest length) A is moved by the
    displacement and B by its opposite. *)
Inductive relaxed (c : SpringConstraint) (vs : list ClothVertex)
  : list ClothVertex -> Prop :=
| relaxed_inside vA vB :
    vs !! vertexA c = Some vA -> vs !! vertexB c = Some vB ->
    PrimFloat.ltb (restLength c * 1.1)%float (Vector3.length (separation vA vB))
      || PrimFloat.ltb (Vector3.length (separation vA vB)) (restLength c * 0.9)%float
      = false ->
    relaxed c vs vs
| relaxed_corrected vA vB :
    vs !! vertexA c = Some vA -> vs !! vertexB c = Some vB ->
    PrimFloat.ltb (restLength c * 1.1)%float (Vector3.length (separation vA vB))
      || PrimFloat.ltb (Vector3.length (separation vA vB)) (restLength c * 0.9)%float
      = true ->
    relaxed c vs
      (moveUnlessPinned (vertexB c)
         (fun p => Vector3.sub p (displacement (restLength c) vA vB))
         (moveUnlessPinned (vertexA c)
            (fun p => Vector3.add p (displacement (restLength c) vA vB)) vs)).

(** One pass: the constraints one after the other, in list order. *)
Inductive relaxationPass
  : list SpringConstraint -> list ClothVertex -> list ClothVertex -> Prop :=
| pass_done vs : relaxationPass [] vs vs
| pass_step c cs vs vs1 vs2 :
    relaxed c vs vs1 -> relaxationPass cs vs1 vs2 ->
    relaxationPass (c :: cs) vs vs2.

(** The velocity a Verlet step reads off a vertex. *)
Definition impliedVelocity (v : ClothVertex) : Vector3.t :=
  Vector3.subVectors (position v) (previousPosition v).

(** Vertex [i] of [vs] is [v] up to its position, which is all that
    relaxation writes. *)
Definition same_but_position (v : ClothVertex) (vs : list ClothVertex) (i : nat)
  : Prop :=
  exists v', vs !! i = Some v' /\ pinned v' = pinned v /\ mass v' = mass v
             /\ previousPosition v' = previousPosition v
             /\ velocity v' = velocity v.

End Cloth.

(** ** Pose landmarks ([src/lib/pose.ts]) *)

Module Pose.

(** The entries of [POSE_LANDMARKS] the program reads. *)
Definition LEFT_SHOULDER : nat := 11.
Definition RIGHT_SHOULDER : nat := 12.
Definition LEFT_ELBOW : nat := 13.
Definition RIGHT_ELBOW : nat := 14.
Definition LEFT_WRIST : nat := 15.
Definition RIGHT_WRIST : nat := 16.
Definition LEFT_HIP : nat := 23.
Definition RIGHT_HIP : nat := 24.
Definition LEFT_KNEE : nat := 25.
Definition RIGHT_KNEE : nat := 26.
Definition LEFT_ANKLE : nat := 27.
Definition RIGHT_ANKLE : nat := 28.

Record PoseLandmark : Type := mkLandmark {
  x : float;
  y : float;
  z : float;
  visibility : option float
}.

Definition getMidpoint (a b : PoseLandmark) : PoseLandmark :=
  mkLandmark ((x a + x b) / 2)%float
             ((y a + y b) / 2)%float
             ((z a + z b) / 2)%float
             (Some (Num.Math_min (default 1%float (visibility a))
                                 (default 1%float (visibility b)))).

Definition getDistance (a b : PoseLandmark) : float :=
  let dx := (x a - x b)%float in
  let dy := (y a - y b)%float in
  let dz := (z a - z b)%float in
  PrimFloat.sqrt (dx * dx + dy * dy + dz * dz)%float.

(** A left and right landmark, either of which may be [undefined]. *)
Record Pair : Type := mkPair {
  left : option PoseLandmark;
  right : option PoseLandmark
}.

Record Centered : Type := mkCentered {
  c_left : PoseLandmark;
  c_right : PoseLandmark;
  center : PoseLandmark
}.

Record Measurements : Type := mkMeasurements {
  torsoLength : float;
  shoulderWidth : float
}.

Record Extracted : Type := mkExtracted {
  shoulders : Centered;
  hips : Centered;
  elbows : Pair;
  wrists : Pair;
  knees : Pair;
  ankles : Pair;
  measurements : Measurements
}.

(** [extractSkeleton(landmarks)]; [None] when [getMidpoint] reads [.x] of a
    missing shoulder or hip and throws. *)
Definition extractSkeleton (landmarks : list PoseLandmark) : option Extracted :=
  let leftElbow := landmarks !! LEFT_ELBOW in
  let rightElbow := landmarks !! RIGHT_ELBOW in
  let leftWrist := landmarks !! LEFT_WRIST in
  let rightWrist := landmarks !! RIGHT_WRIST in
  let leftKnee := landmarks !! LEFT_KNEE in
  let rightKnee := landmarks !! RIGHT_KNEE in
  let leftAnkle := landmarks !! LEFT_ANKLE in
  let rightAnkle := landmarks !! RIGHT_ANKLE in
  leftShoulder ← landmarks !! LEFT_SHOULDER;
  rightShoulder ← landmarks !! RIGHT_SHOULDER;
  let shoulderCenter := getMidpoint leftShoulder rightShoulder in
  leftHip ← landmarks !! LEFT_HIP;
  rightHip ← landmarks !! RIGHT_HIP;
  let hipCenter := getMidpoint leftHip rightHip in
  let torsoLength := getDistance shoulderCenter hipCenter in
  let shoulderWidth := getDistance leftShoulder rightShoulder in
  Some (mkExtracted
          (mkCentered leftShoulder rightShoulder shoulderCenter)
          (mkCentered leftHip rightHip hipCenter)
          (mkPair leftElbow rightElbow)
          (mkPair leftWrist rightWrist)
          (mkPair leftKnee rightKnee)
          (mkPair leftAnkle rightAnkle)
          (mkMeasurements torsoLength shoulderWidth)).

(** [isPoseValid(landmarks)] *)
Definition isPoseValid (landmarks : list PoseLandmark) : bool :=
  forallb
    (fun index =>
       match landmarks !! index with
       | Some landmark => Num.gtb (default 0%float (visibility landmark)) 0.5
       | None => false
       end)
    [LEFT_SHOULDER; RIGHT_SHOULDER; LEFT_HIP; RIGHT_HIP].

End Pose.

(** ** The 3D skeleton ([src/lib/skeleton.ts]) *)

Module Skeleton.

(** THREE.Euler and THREE.Quaternion, as the values they hold. *)
Record Euler : Type := mkEuler {
  e_x : float; e_y : float; e_z : float; e_order : string
}.

Record Quaternion : Type := mkQuaternion {
  q_x : float; q_y : float; q_z : float; q_w : float
}.

Record SkeletonBone : Type := mkBone {
  name : string;
  position : Vector3.t;
  rotation : Euler;
  length : float
}.

Record Arm : Type := mkArm { shoulder : SkeletonBone; elbow : SkeletonBone }.
Record Leg : Type := mkLeg { hip : SkeletonBone; knee : SkeletonBone }.

Record Skeleton3D : Type := mkSkeleton {
  spine : SkeletonBone;
  leftArm : Arm;
  rightArm : Arm;
  leftLeg : Leg;
  rightLeg : Leg
}.

Definition landmarkToVector3 (landmark : Pose.PoseLandmark)
  (width height scale : float) : Vector3.t :=
  Vector3.mk
    ((Pose.x landmark - 0.5) * scale * (width / height))%float
    (- (Pose.y landmark - 0.5) * scale)%float
    (- Pose.z landmark * scale)%float.

Section Rotation.
(** The two conversions of the library that [getRotationBetweenPoints]
    calls. *)
Variable setFromUnitVectors : Vector3.t -> Vector3.t -> Quaternion.
Variable setFromQuaternion : Quaternion -> Euler.

Definition getRotationBetweenPoints (from to : Vector3.t) : Euler :=
  let direction := Vector3.normalize (Vector3.subVectors to from) in
  let defaultDir := Vector3.mk 0 (-1) 0 in
  let quaternion := setFromUnitVectors defaultDir direction in
  setFromQuaternion quaternion.

Definition bone (name : string) (from to : Vector3.t) : SkeletonBone :=
  mkBone name from (getRotationBetweenPoints from to) (Vector3.distanceTo from to).

(** [createSkeleton3D(landmarks, canvasWidth, canvasHeight)]; [None] when
    it throws because one of the twelve landmarks is missing. *)
Definition createSkeleton3D (landmarks : list Pose.PoseLandmark)
  (canvasWidth canvasHeight : float) : option Skeleton3D :=
  skeleton ← Pose.extractSkeleton landmarks;
  let scale := 2%float in
  let toV l := landmarkToVector3 l canvasWidth canvasHeight scale in
  let leftShoulderPos := toV (Pose.c_left (Pose.shoulders skeleton)) in
  let rightShoulderPos := toV (Pose.c_right (Pose.shoulders skeleton)) in
  let leftHipPos := toV (Pose.c_left (Pose.hips skeleton)) in
  let rightHipPos := toV (Pose.c_right (Pose.hips skeleton)) in
  leftElbowPos ← toV <$> Pose.left (Pose.elbows skeleton);
  rightElbowPos ← toV <$> Pose.right (Pose.elbows skeleton);
  leftWristPos ← toV <$> Pose.left (Pose.wrists skeleton);
  rightWristPos ← toV <$> Pose.right (Pose.wrists skeleton);
  leftKneePos ← toV <$> Pose.left (Pose.knees skeleton);
  rightKneePos ← toV <$> Pose.right (Pose.knees skeleton);
  leftAnklePos ← toV <$> Pose.left (Pose.ankles skeleton);
  rightAnklePos ← toV <$> Pose.right (Pose.ankles skeleton);
  let shoulderCenter :=
    Vector3.multiplyScalar (Vector3.addVectors leftShoulderPos rightShoulderPos) 0.5 in
  let hipCenter :=
    Vector3.multiplyScalar (Vector3.addVectors leftHipPos rightHipPos) 0.5 in
  Some (mkSkeleton
          (bone "spine" shoulderCenter hipCenter)
          (mkArm (bone "leftShoulder" leftShoulderPos leftElbowPos)
                 (bone "leftElbow" leftElbowPos leftWristPos))
          (mkArm (bone "rightShoulder" rightShoulderPos rightElbowPos)
                 (bone "rightElbow" rightElbowPos rightWristPos))
          (mkLeg (bone "leftHip" leftHipPos leftKneePos)
                 (bone "leftKnee" leftKneePos leftAnklePos))
          (mkLeg (bone "rightHip" rightHipPos rightKneePos)
                 (bone "rightKnee" rightKneePos rightAnklePos))).
End Rotation.

(** The arithmetic mean of two coordinates, as [getMidpoint] forms it and as
    [addVectors(..).multiplyScalar(0.5)] forms it. *)
Definition halfSum (a b : float) : float := ((a + b) / 2)%float.
Definition sumHalved (a b : float) : float := ((a + b) * 0.5)%float.

Definition midpoint3 (a b : Vector3.t) : Vector3.t :=
  Vector3.mk (sumHalved (Vector3.x a) (Vector3.x b))
             (sumHalved (Vector3.y a) (Vector3.y b))
             (sumHalved (Vector3.z a) (Vector3.z b)).

End Skeleton.


(** ** Placement and anchoring ([src/hooks/useGarmentRenderer.ts]) *)

Module Renderer.

(** The two fields of the garment mesh that placement writes. *)
Record Mesh : Type := mkMesh {
  position : Vector3.t;
  scale : Vector3.t
}.

(** [garmentMeshRef.current] and [physicsRef.current]. *)
Record Refs : Type := mkRefs {
  garmentMesh : option Mesh;
  physics : option Cloth.SimpleClothPhysics
}.

Definition hipPosition (l : Skeleton.Leg) : Vector3.t :=
  Skeleton.position (Skeleton.hip l).

Definition kneePosition (l : Skeleton.Leg) : Vector3.t :=
  Skeleton.position (Skeleton.knee l).

Definition shoulderPosition (a : Skeleton.Arm) : Vector3.t :=
  Skeleton.position (Skeleton.shoulder a).

(** The three branches on [garmentType] that position and scale the mesh. *)
Definition place (garmentType : GarmentType) (skeleton : Skeleton.Skeleton3D)
  (mesh : Mesh) : Mesh :=
  match garmentType with
  | shirt =>
      let shoulderCenter := Vector3.clone (Skeleton.position (Skeleton.spine skeleton)) in
      let hipCenter :=
        Vector3.multiplyScalar
          (Vector3.addVectors (hipPosition (Skeleton.leftLeg skeleton))
                              (hipPosition (Skeleton.rightLeg skeleton))) 0.5 in
      let torsoCenter :=
        Vector3.multiplyScalar (Vector3.addVectors shoulderCenter hipCenter) 0.5 in
      let position := Vector3.copy (position mesh) torsoCenter in
      let position := Vector3.set_z position 0.1 in
      let shoulderDist :=
        Vector3.distanceTo (shoulderPosition (Skeleton.leftArm skeleton))
                           (shoulderPosition (Skeleton.rightArm skeleton)) in
      let torsoHeight := Vector3.distanceTo shoulderCenter hipCenter in
      let position :=
        Vector3.set_y position (Vector3.y position - torsoHeight * 0.08)%float in
      let scaleX := (shoulderDist * 1.55)%float in
      let scaleY := (torsoHeight * 1.55)%float in
      mkMesh position (Vector3.mk scaleX scaleY 1)
  | pants =>
      let hipCenter :=
        Vector3.multiplyScalar
          (Vector3.addVectors (hipPosition (Skeleton.leftLeg skeleton))
                              (hipPosition (Skeleton.rightLeg skeleton))) 0.5 in
      let leftThigh :=
        Vector3.distanceTo (hipPosition (Skeleton.leftLeg skeleton))
                           (kneePosition (Skeleton.leftLeg skeleton)) in
      let rightThigh :=
        Vector3.distanceTo (hipPosition (Skeleton.rightLeg skeleton))
                           (kneePosition (Skeleton.rightLeg skeleton)) in
      let legLength := (Num.Math_max leftThigh rightThigh * 2)%float in
      let position := Vector3.copy (position mesh) hipCenter in
      let position := Vector3.set_y position (Vector3.y position - 0.12)%float in
      let position := Vector3.set_z position 0.1 in
      let hipDist :=
        Vector3.distanceTo (hipPosition (Skeleton.leftLeg skeleton))
                           (hipPosition (Skeleton.rightLeg skeleton)) in
      let scaleX := (hipDist * 2.0)%float in
      let scaleY := (legLength * 1.25)%float in
      mkMesh position (Vector3.mk scaleX scaleY 1)
  | skirt =>
      let hipCenter :=
        Vector3.multiplyScalar
          (Vector3.addVectors (hipPosition (Skeleton.leftLeg skeleton))
                              (hipPosition (Skeleton.rightLeg skeleton))) 0.5 in
      let position := Vector3.copy (position mesh) hipCenter in
      let position := Vector3.set_z position 0.1 in
      let hipDist :=
        Vector3.distanceTo (hipPosition (Skeleton.leftLeg skeleton))
                           (hipPosition (Skeleton.rightLeg skeleton)) in
      let scale := (hipDist * 1.6)%float in
      mkMesh position (Vector3.mk scale scale 1)
  end.

Definition gridWidth (garmentType : GarmentType) : nat :=
  match garmentType with
  | shirt => 13
  | pants => 7
  | skirt => 15
  end.

(** The position vertex [i] of the top row is pinned at. *)
Definition pinPosition (garmentType : GarmentType)
  (skeleton : Skeleton.Skeleton3D) (mesh : Mesh) (i : nat) : Vector3.t :=
  let t := (Num.of_nat i / Num.of_nat (gridWidth garmentType - 1))%float in
  let pinPosition := Vector3.clone (position mesh) in
  match garmentType with
  | shirt =>
      let pinPosition :=
        Vector3.set_x pinPosition
          (Vector3.x (shoulderPosition (Skeleton.leftArm skeleton)) * (1 - t)
           + Vector3.x (shoulderPosition (Skeleton.rightArm skeleton)) * t)%float in
      Vector3.set_y pinPosition
        (Vector3.y (Skeleton.position (Skeleton.spine skeleton)) + 0.1)%float
  | _ =>
      let pinPosition :=
        Vector3.set_x pinPosition
          (Vector3.x (hipPosition (Skeleton.leftLeg skeleton)) * (1 - t)
           + Vector3.x (hipPosition (Skeleton.rightLeg skeleton)) * t)%float in
      Vector3.set_y pinPosition
        (Vector3.y (hipPosition (Skeleton.leftLeg skeleton)))
  end.

(** The pinning loop over the top row. *)
Definition pinTopRow (garmentType : GarmentType)
  (skeleton : Skeleton.Skeleton3D) (mesh : Mesh)
  (physics : Cloth.SimpleClothPhysics) : Cloth.SimpleClothPhysics :=
  let vertexCount := Cloth.getVertexCount physics in
  Geometry.forRange 0 (gridWidth garmentType `min` vertexCount)
    (fun i physics =>
       Cloth.pinVertex i (pinPosition garmentType skeleton mesh i) physics)
    physics.

(** The body of [updateFromSkeleton] once the skeleton is built. *)
Definition alignToSkeleton (garmentType : GarmentType)
  (skeleton : Skeleton.Skeleton3D) (mesh : Mesh)
  (physics : Cloth.SimpleClothPhysics) : Mesh * Cloth.SimpleClothPhysics :=
  let mesh := place garmentType skeleton mesh in
  (mesh, pinTopRow garmentType skeleton mesh physics).

Section Rotation.
Variable setFromUnitVectors : Vector3.t -> Vector3.t -> Skeleton.Quaternion.
Variable setFromQuaternion : Skeleton.Quaternion -> Skeleton.Euler.

(** [updateFromSkeleton(landmarks)]: nothing without a mesh or a physics
    object; a throw of the skeleton builder leaves both as they were. *)
Definition updateFromSkeleton (garmentType : GarmentType)
  (canvasWidth canvasHeight : float) (landmarks : list Pose.PoseLandmark)
  (refs : Refs) : completion Refs :=
  match garmentMesh refs, physics refs with
  | Some mesh, Some phys =>
      match Skeleton.createSkeleton3D setFromUnitVectors setFromQuaternion
              landmarks canvasWidth canvasHeight with
      | Some skeleton =>
          let '(mesh, phys) := alignToSkeleton garmentType skeleton mesh phys in
          Normal (mkRefs (Some mesh) (Some phys))
      | None => Throw refs
      end
  | _, _ => Normal refs
  end.
End Rotation.

(** The pants rule of the design document. *)
Definition hipCenter (skeleton : Skeleton.Skeleton3D) : Vector3.t :=
  Skeleton.midpoint3 (hipPosition (Skeleton.leftLeg skeleton))
                     (hipPosition (Skeleton.rightLeg skeleton)).

Definition hipWidth (skeleton : Skeleton.Skeleton3D) : float :=
  Vector3.distanceTo (hipPosition (Skeleton.leftLeg skeleton))
                     (hipPosition (Skeleton.rightLeg skeleton)).

Definition legLength (skeleton : Skeleton.Skeleton3D) : float :=
  (Num.Math_max
     (Vector3.distanceTo (hipPosition (Skeleton.leftLeg skeleton))
                         (kneePosition (Skeleton.leftLeg skeleton)))
     (Vector3.distanceTo (hipPosition (Skeleton.rightLeg skeleton))
                         (kneePosition (Skeleton.rightLeg skeleton))) * 2)%float.

(** The point at parameter [i / 6] between the x coordinates of the two
    hips, at the height of the left hip and at depth 0.1. *)
Definition hipLinePin (skeleton : Skeleton.Skeleton3D) (i : nat) : Vector3.t :=
  let t := (Num.of_nat i / 6)%float in
  Vector3.mk
    (Vector3.x (hipPosition (Skeleton.leftLeg skeleton)) * (1 - t)
     + Vector3.x (hipPosition (Skeleton.rightLeg skeleton)) * t)%float
    (Vector3.y (hipPosition (Skeleton.leftLeg skeleton)))
    0.1%float.

End Renderer.


(** ** Strings and regular expressions, as the extraction service uses them *)

Module Str.

Definition code (c : ascii) : nat := nat_of_ascii c.

(** White space and line terminators below 256: what [trim] removes and
    what [\s] matches. *)
Definition isSpace (c : ascii) : bool :=
  let n := code c in
  ((9 <=? n) && (n <=? 13)) || (n =? 32) || (n =? 160).

Definition toLower (c : ascii) : ascii :=
  let n := code c in
  if (65 <=? n) && (n <=? 90) then ascii_of_nat (n + 32) else c.

(** Equality of two code units under the flag [i]. *)
Definition eqbCI (a b : ascii) : bool := Ascii.eqb (toLower a) (toLower b).

(** [s.startsWith(p)] *)
Fixpoint startsWith (s p : string) {struct p} : bool :=
  match p, s with
  | EmptyString, _ => true
  | String a p', String b s' => Ascii.eqb a b && startsWith s' p'
  | String _ _, EmptyString => false
  end.

(** [s.includes(p)] *)
Fixpoint includes (s p : string) : bool :=
  startsWith s p
  || match s with
     | EmptyString => false
     | String _ s' => includes s' p
     end.

Fixpoint trimStart (s : string) : string :=
  match s with
  | String c s' => if isSpace c then trimStart s' else s
  | EmptyString => EmptyString
  end.

Fixpoint trimEnd (s : string) : string :=
  match s with
  | EmptyString => EmptyString
  | String c s' =>
      match trimEnd s' with
      | EmptyString => if isSpace c then EmptyString else String c EmptyString
      | t => String c t
      end
  end.

Definition trim (s : string) : string := trimEnd (trimStart s).

(** The first [n] code units of [s]. *)
Fixpoint take (n : nat) (s : string) : string :=
  match n, s with
  | S n', String c s' => String c (take n' s')
  | _, _ => EmptyString
  end.

(** What was read of [s] when [rest] is left of it. *)
Definition consumed (s rest : string) : string :=
  take (String.length s - String.length rest) s.

(** A non-negative integer in decimal, as a template literal prints it. *)
Definition ofNat (n : nat) : string :=
  NilEmpty.string_of_uint (Nat.to_uint n).

End Str.

Module Regex.

(** The fragment of the pattern language the service's patterns are
    written in. Quantifiers are applied to character classes only. *)
Inductive re : Type :=
| Eps
| Chr (p : ascii -> bool)
| Lit (s : string)
| Cat (r1 r2 : re)
| Alt (r1 r2 : re)
| Opt (r : re)
| Star (p : ascii -> bool)
| LazyStar (p : ascii -> bool)
| Group (n : nat) (r : re)
| EndOfInput.

Definition Plus (p : ascii -> bool) : re := Cat (Chr p) (Star p).

Fixpoint catAll (rs : list re) : re :=
  match rs with
  | [] => Eps
  | [r] => r
  | r :: rs' => Cat r (catAll rs')
  end.

Definition captures : Type := list (nat * string).

(** A literal read off the front of the input, ignoring case. *)
Fixpoint readLit (l s : string) {struct l} : option string :=
  match l, s with
  | EmptyString, _ => Some s
  | String a l', String b s' => if Str.eqbCI a b then readLit l' s' else None
  | String _ _, EmptyString => None
  end.

(** Backtracking in the order of the language: the longest run first for
    [*], the shortest first for [*?], the left alternative first. [k] is
    what has to match after. *)
Fixpoint starGreedy {R : Type} (p : ascii -> bool) (s : string)
  (k : string -> option R) : option R :=
  match s with
  | String c s' =>
      if p c then
        match starGreedy p s' k with
        | Some r => Some r
        | None => k s
        end
      else k s
  | EmptyString => k s
  end.

Fixpoint starLazy {R : Type} (p : ascii -> bool) (s : string)
  (k : string -> option R) : option R :=
  match k s with
  | Some r => Some r
  | None =>
      match s with
      | String c s' => if p c then starLazy p s' k else None
      | EmptyString => None
      end
  end.

Fixpoint run {R : Type} (r : re) (s : string) (caps : captures)
  (k : string -> captures -> option R) : option R :=
  match r with
  | Eps => k s caps
  | Chr p =>
      match s with
      | String c s' => if p c then k s' caps else None
      | EmptyString => None
      end
  | Lit l =>
      match readLit l s with
      | Some s' => k s' caps
      | None => None
      end
  | Cat r1 r2 => run r1 s caps (fun s' caps' => run r2 s' caps' k)
  | Alt r1 r2 =>
      match run r1 s caps k with
      | Some x => Some x
      | None => run r2 s caps k
      end
  | Opt r1 =>
      match run r1 s caps k with
      | Some x => Some x
      | None => k s caps
      end
  | Star p => starGreedy p s (fun s' => k s' caps)
  | LazyStar p => starLazy p s (fun s' => k s' caps)
  | Group n r1 =>
      run r1 s caps (fun s' caps' => k s' ((n, Str.consumed s s') :: caps'))
  | EndOfInput =>
      match s with
      | EmptyString => k s caps
      | String _ _ => None
      end
  end.

Record MatchResult : Type := mkMatch {
  m_index : nat;
  m_whole : string;
  m_groups : captures;
  m_rest : string
}.

(** The match at the current position, or else the first one further right. *)
Fixpoint execFrom (r : re) (i : nat) (s : string) : option MatchResult :=
  match run r s [] (fun rest caps => Some (rest, caps)) with
  | Some (rest, caps) => Some (mkMatch i (Str.consumed s rest) caps rest)
  | None =>
      match s with
      | String _ s' => execFrom r (S i) s'
      | EmptyString => None
      end
  end.

(** [s.match(r)] without the flag [g], and [r.test(s)]. *)
Definition exec (r : re) (s : string) : option MatchResult := execFrom r 0 s.

Definition test (r : re) (s : string) : bool :=
  match exec r s with
  | Some _ => true
  | None => false
  end.

(** [match[n]] *)
Fixpoint group (n : nat) (caps : captures) : option string :=
  match caps with
  | [] => None
  | (m, g) :: caps' => if Nat.eqb n m then Some g else group n caps'
  end.

(** [s.match(r)] with the flag [g]: the matched substrings from left to
    right, each search starting where the previous match ended (one further
    after an empty match). The empty list stands for [null]. *)
Fixpoint matchAll (fuel : nat) (r : re) (s : string) : list string :=
  match fuel with
  | O => []
  | S fuel' =>
      match exec r s with
      | None => []
      | Some m =>
          m_whole m ::
          match m_whole m, m_rest m with
          | EmptyString, String _ rest' => matchAll fuel' r rest'
          | EmptyString, EmptyString => []
          | _, rest => matchAll fuel' r rest
          end
      end
  end.

(** [s.replace(r, '')] with the flag [g]. *)
Fixpoint removeAll (fuel : nat) (r : re) (s : string) : string :=
  match fuel with
  | O => s
  | S fuel' =>
      match exec r s with
      | None => s
      | Some m =>
          String.append (Str.take (m_index m) s)
            match m_whole m, m_rest m with
            | EmptyString, String c rest' => String c (removeAll fuel' r rest')
            | EmptyString, EmptyString => EmptyString
            | _, rest => removeAll fuel' r rest
            end
      end
  end.

(** Character classes. *)
Definition space : ascii -> bool := Str.isSpace.
Definition quote (c : ascii) : bool := (Str.code c =? 34) || (Str.code c =? 39).
Definition notQuote (c : ascii) : bool := negb (quote c).
Definition notGt (c : ascii) : bool := negb (Str.code c =? 62).
Definition dot (c : ascii) : bool := negb ((Str.code c =? 10) || (Str.code c =? 13)).
Definition any (_ : ascii) : bool := true.

End Regex.


(** ** The image extraction service
    ([supabase/functions/extract-image/index.ts]) *)

Module Extract.

Local Open Scope string_scope.

(** *** Patterns *)

(** The test for a direct image: a dot, one of six extensions, optionally
    a question mark with the rest of the line, and the end of the input;
    flag [i]. *)
Definition imageExtension : Regex.re :=
  Regex.catAll
    [Regex.Lit ".";
     Regex.Group 1
       (Regex.Alt (Regex.Lit "jpg")
          (Regex.Alt (Regex.Lit "jpeg")
             (Regex.Alt (Regex.Lit "png")
                (Regex.Alt (Regex.Lit "gif")
                   (Regex.Alt (Regex.Lit "webp") (Regex.Lit "avif"))))));
     Regex.Opt (Regex.Group 2 (Regex.Cat (Regex.Lit "?") (Regex.Star Regex.dot)));
     Regex.EndOfInput].

Definition invalidPatterns : list string :=
  ["<"; ">"; "{"; "}"; "background-image"; "url("; "</style"; "<script";
   ".nav-sprite"; ".css"; "sprite"].

Definition validPatterns : list Regex.re :=
  [imageExtension;
   Regex.Lit "images.";
   Regex.Lit ".media-amazon.com";
   Regex.Lit "cdn.";
   Regex.Lit ".cloudinary.com";
   Regex.Lit ".imgix.net"].

(** [<meta\s+ATTR=qVALUEq\s+content=q([^q]+)q], where [q] is the class of
    the two quote characters, and the same with the two attributes in the
    other order. *)
Definition metaThenContent (attr value : string) : Regex.re :=
  Regex.catAll
    [Regex.Lit "<meta"; Regex.Plus Regex.space;
     Regex.Lit attr; Regex.Lit "="; Regex.Chr Regex.quote;
     Regex.Lit value; Regex.Chr Regex.quote; Regex.Plus Regex.space;
     Regex.Lit "content="; Regex.Chr Regex.quote;
     Regex.Group 1 (Regex.Plus Regex.notQuote); Regex.Chr Regex.quote].

Definition contentThenMeta (attr value : string) : Regex.re :=
  Regex.catAll
    [Regex.Lit "<meta"; Regex.Plus Regex.space;
     Regex.Lit "content="; Regex.Chr Regex.quote;
     Regex.Group 1 (Regex.Plus Regex.notQuote); Regex.Chr Regex.quote;
     Regex.Plus Regex.space;
     Regex.Lit attr; Regex.Lit "="; Regex.Chr Regex.quote;
     Regex.Lit value; Regex.Chr Regex.quote].

(** [id=qIDq[^>]+src=q([^q]+)q] *)
Definition srcOfId (id : string) : Regex.re :=
  Regex.catAll
    [Regex.Lit "id="; Regex.Chr Regex.quote; Regex.Lit id; Regex.Chr Regex.quote;
     Regex.Plus Regex.notGt;
     Regex.Lit "src="; Regex.Chr Regex.quote;
     Regex.Group 1 (Regex.Plus Regex.notQuote); Regex.Chr Regex.quote].

Definition ogImage : Regex.re := metaThenContent "property" "og:image".
Definition ogImageReversed : Regex.re := contentThenMeta "property" "og:image".
Definition twitterImage : Regex.re := metaThenContent "name" "twitter:image".
Definition twitterImageReversed : Regex.re := contentThenMeta "name" "twitter:image".
Definition landingImage : Regex.re := srcOfId "landingImage".
Definition imgBlkFront : Regex.re := srcOfId "imgBlkFront".

(** [/data-old-hires=q([^q]+)q/i] *)
Definition dataOldHires : Regex.re :=
  Regex.catAll
    [Regex.Lit "data-old-hires="; Regex.Chr Regex.quote;
     Regex.Group 1 (Regex.Plus Regex.notQuote); Regex.Chr Regex.quote].

(** [/data-a-dynamic-image=q\{q([^q]+)q/i] *)
Definition dataDynamicImage : Regex.re :=
  Regex.catAll
    [Regex.Lit "data-a-dynamic-image="; Regex.Chr Regex.quote; Regex.Lit "{";
     Regex.Chr Regex.quote;
     Regex.Group 1 (Regex.Plus Regex.notQuote); Regex.Chr Regex.quote].

Definition imagePatterns : list Regex.re :=
  [ogImage; ogImageReversed; twitterImage; twitterImageReversed;
   landingImage; imgBlkFront; dataOldHires; dataDynamicImage].

(** [/<script[^>]+type=qapplication\/ld\+jsonq[^>]*>([\s\S]*?)<\/script>/gi] *)
Definition jsonLdScript : Regex.re :=
  Regex.catAll
    [Regex.Lit "<script"; Regex.Plus Regex.notGt;
     Regex.Lit "type="; Regex.Chr Regex.quote;
     Regex.Lit "application/ld+json"; Regex.Chr Regex.quote;
     Regex.Star Regex.notGt; Regex.Lit ">";
     Regex.Group 1 (Regex.LazyStar Regex.any);
     Regex.Lit "</script>"].

(** [/<\/?script[^>]*>/gi] *)
Definition scriptTag : Regex.re :=
  Regex.catAll
    [Regex.Lit "<"; Regex.Opt (Regex.Lit "/"); Regex.Lit "script";
     Regex.Star Regex.notGt; Regex.Lit ">"].

(** *** [isValidImageUrl] *)

Definition isValidImageUrl (urlString : string) : bool :=
  if String.eqb urlString "" then false
  else if negb (Str.startsWith urlString "http://")
          && negb (Str.startsWith urlString "https://")
          && negb (Str.startsWith urlString "//") then false
  else if existsb (fun pattern => Str.includes urlString pattern) invalidPatterns
  then false
  else existsb (fun pattern => Regex.test pattern urlString) validPatterns.

(** *** JSON values and [extractImageFromJson] *)

Inductive JSON : Type :=
| JNull
| JBool (b : bool)
| JNumber (n : float)
| JString (s : string)
| JArray (items : list JSON)
| JObject (fields : list (string * JSON)).

Definition truthy (v : JSON) : bool :=
  match v with
  | JNull => false
  | JBool b => b
  | JNumber n => negb (Num.falsy n)
  | JString s => negb (String.eqb s "")
  | JArray _ => true
  | JObject _ => true
  end.

Fixpoint field (key : string) (fields : list (string * JSON)) : option JSON :=
  match fields with
  | [] => None
  | (k, v) :: fields' => if String.eqb k key then Some v else field key fields'
  end.

(** [data.key] for a value that is not null; [None] is [undefined]. *)
Definition get (data : JSON) (key : string) : option JSON :=
  match data with
  | JObject fields => field key fields
  | _ => None
  end.

(** [v?.url || null] *)
Definition urlOrNull (v : option JSON) : option JSON :=
  match v with
  | Some (JObject fields) =>
      match field "url" fields with
      | Some u => if truthy u then Some u else None
      | None => None
      end
  | _ => None
  end.

(** The part of [extractImageFromJson] that looks at [data.image]:
    [Some r] when one of the first three [if]s returns [r]. *)
Definition fromImage (image : option JSON) : option (option JSON) :=
  match image with
  | Some (JString s) => Some (Some (JString s))
  | Some (JArray (first :: _)) =>
      Some (match first with
            | JString s => Some (JString s)
            | _ => urlOrNull (Some first)
            end)
  | _ =>
      match urlOrNull image with
      | Some u => Some (Some u)
      | None => None
      end
  end.

(** [extractImageFromJson(data)]; [None] is [null]. *)
Fixpoint extractImageFromJson (data : JSON) : option JSON :=
  match data with
  | JObject fields =>
      match fromImage (field "image" fields) with
      | Some r => r
      | None =>
          (fix graph (fs : list (string * JSON)) : option JSON :=
             match fs with
             | [] => None
             | (k, v) :: fs' =>
                 if String.eqb k "@graph" then
                   match v with
                   | JArray items =>
                       (fix each (items : list JSON) : option JSON :=
                          match items with
                          | [] => None
                          | item :: rest =>
                              match extractImageFromJson item with
                              | Some img => if truthy img then Some img else each rest
                              | None => each rest
                              end
                          end) items
                   | _ => None
                   end
                 else graph fs'
             end) fields
      end
  | _ => None
  end.

(** *** The handler *)

Record Response : Type := mkResponse {
  ok : bool;
  status : nat;
  contentType : option string;
  body : string
}.

Inductive FetchResult : Type :=
| Rejected (message : string)
| Resolved (response : Response).

Record ExtractResponse : Type := mkExtractResponse {
  success : bool;
  image_base64 : option string;
  error : option string
}.

Record HttpResponse : Type := mkHttp {
  http_status : nat;
  http_body : option ExtractResponse
}.

(** What [await req.json()] gives: a rejection, or a body whose [url]
    may be missing. *)
Inductive RequestBody : Type :=
| BadJson (message : string)
| Body (url : option string).

Record Request : Type := mkRequest {
  method : string;
  json : RequestBody
}.

Definition pageHeaders : list (string * string) :=
  [("User-Agent",
    "Mozilla/5.0 (Windows NT 10.0; Win64; x64) AppleWebKit/537.36 (KHTML, like Gecko) Chrome/120.0.0.0 Safari/537.36");
   ("Accept",
    "text/html,application/xhtml+xml,application/xml;q=0.9,image/webp,*/*;q=0.8")].

Definition imageHeaders (url : string) : list (string * string) :=
  [("User-Agent", "Mozilla/5.0 (Windows NT 10.0; Win64; x64) AppleWebKit/537.36");
   ("Accept", "image/*");
   ("Referer", url)].

(** How one round of the loop over [imagePatterns] ends. *)
Inductive Round : Type :=
| Continue
| Break (imageUrl : string)
| Throws.

Section World.
(** The network, [JSON.parse], [new URL(_).origin] and [btoa] are the
    platform's; [None] stands for a thrown exception. *)
Variable fetch : string -> list (string * string) -> FetchResult.
Variable JSON_parse : string -> option JSON.
Variable origin : string -> option string.
Variable btoa : string -> string.

(** The body of the loop over [imagePatterns]. *)
Definition tryPattern (url html : string) (pattern : Regex.re) : Round :=
  match Regex.exec pattern html with
  | Some m =>
      match Regex.group 1 (Regex.m_groups m) with
      | Some g =>
          if String.eqb g "" then Continue
          else
            let candidateUrl := Str.trim g in
            if negb (isValidImageUrl candidateUrl) then Continue
            else
              let resolved :=
                if Str.startsWith candidateUrl "//" then
                  Some (String.append "https:" candidateUrl)
                else if Str.startsWith candidateUrl "/" then
                  match origin url with
                  | Some o => Some (String.append o candidateUrl)
                  | None => None
                  end
                else Some candidateUrl in
              match resolved with
              | None => Throws
              | Some candidateUrl =>
                  if isValidImageUrl candidateUrl then Break candidateUrl
                  else Continue
              end
      | None => Continue
      end
  | None => Continue
  end.

(** The loop: the value of [imageUrl] after it, or [None] when it threw. *)
Fixpoint scanPatterns (url html : string) (patterns : list Regex.re)
  : option string :=
  match patterns with
  | [] => Some url
  | pattern :: rest =>
      match tryPattern url html pattern with
      | Continue => scanPatterns url html rest
      | Break imageUrl => Some imageUrl
      | Throws => None
      end
  end.

(** The body of the loop over the JSON-LD scripts: the image it finds. *)
Definition tryJsonLd (jsonScript : string) : option string :=
  let jsonContent :=
    Regex.removeAll (S (String.length jsonScript)) scriptTag jsonScript in
  match JSON_parse jsonContent with
  | Some jsonData =>
      match extractImageFromJson jsonData with
      | Some (JString extractedImage) =>
          if negb (String.eqb extractedImage "") && isValidImageUrl extractedImage
          then Some extractedImage
          else None
      | _ => None
      end
  | None => None
  end.

Fixpoint scanJsonLd (url : string) (scripts : list string) : string :=
  match scripts with
  | [] => url
  | jsonScript :: rest =>
      match tryJsonLd jsonScript with
      | Some imageUrl => imageUrl
      | None => scanJsonLd url rest
      end
  end.

(** The scripts the JSON-LD step reads. *)
Definition jsonLdBlocks (html : string) : list string :=
  Regex.matchAll (S (String.length html)) jsonLdScript html.

(** The statements between [const html = ...] and the end of the inner
    [try]. *)
Definition imageFromHtml (url html : string) : string :=
  match scanPatterns url html imagePatterns with
  | Some imageUrl =>
      if String.eqb imageUrl url then scanJsonLd url (jsonLdBlocks html)
      else imageUrl
  | None => url
  end.

(** The value of [imageUrl] when the image is fetched. *)
Definition selectImageUrl (url : string) : string :=
  let isDirectImage := Regex.test imageExtension url in
  if isDirectImage then url
  else
    match fetch url pageHeaders with
    | Resolved pageResponse =>
        if ok pageResponse then imageFromHtml url (body pageResponse)
        else url
    | Rejected _ => url
    end.

Definition jsonResponse (status : nat) (r : ExtractResponse) : HttpResponse :=
  mkHttp status (Some r).

Definition failure (message : string) : ExtractResponse :=
  mkExtractResponse false None (Some message).

(** The handler passed to [Deno.serve]. *)
Definition serve (req : Request) : HttpResponse :=
  if String.eqb (method req) "OPTIONS" then mkHttp 200 None
  else
    match json req with
    | BadJson message => jsonResponse 500 (failure message)
    | Body None => jsonResponse 400 (failure "URL is required")
    | Body (Some url) =>
        if String.eqb url "" then jsonResponse 400 (failure "URL is required")
        else
          let imageUrl := selectImageUrl url in
          match fetch imageUrl (imageHeaders url) with
          | Rejected message => jsonResponse 500 (failure message)
          | Resolved imageResponse =>
              if negb (ok imageResponse) then
                jsonResponse 400
                  (failure (String.append "Failed to fetch image: "
                              (Str.ofNat (status imageResponse))))
              else
                let contentType :=
                  match contentType imageResponse with
                  | Some t => if String.eqb t "" then "image/jpeg" else t
                  | None => "image/jpeg"
                  end in
                let base64 := btoa (body imageResponse) in
                let dataUrl :=
                  String.append "data:"
                    (String.append contentType
                       (String.append ";base64," base64)) in
                jsonResponse 200 (mkExtractResponse true (Some dataUrl) None)
          end
    end.

End World.

(** The candidate a pattern finds in a page: the trimmed first group of
    its leftmost match. *)
Definition candidate (pattern : Regex.re) (html : string) : option string :=
  match Regex.exec pattern html with
  | Some m =>
      match Regex.group 1 (Regex.m_groups m) with
      | Some g => if String.eqb g "" then None else Some (Str.trim g)
      | None => None
      end
  | None => None
  end.

(** A root-relative reference: one leading slash, not two. *)
Definition rootRelative (s : string) : bool :=
  Str.startsWith s "/" && negb (Str.startsWith s "//").

(** A candidate that passed the validation, with the scheme put in front
    of a protocol-relative one. *)
Definition withScheme (c : string) : string :=
  if Str.startsWith c "//" then String.append "https:" c else c.

End Extract.


(** ** Further notions the properties are stated with *)

(** A statement sequence that runs to its end. *)
Definition completes {S : Type} (c : completion S) : Prop :=
  exists s, c = Normal s.

Module ClothShape.

(** A constraint that joins two existing vertices of a cloth with [n]
    vertices. *)
Definition in_range (n : nat) (c : Cloth.SpringConstraint) : Prop :=
  Cloth.vertexA c < n /\ Cloth.vertexB c < n.

(** The vertex the constructor makes of a point. *)
Definition atRest (p : Vector3.t) : Cloth.ClothVertex :=
  Cloth.mkVertex p p (Vector3.mk 0 0 0) false 1%float.

(** The points of a position buffer, three numbers each. *)
Definition points (positions : list float) : list Vector3.t :=
  (fun i => Cloth.getXYZ positions i) <$> seq 0 (List.length positions / 3).

(** The three edges of every triangle of an index, in the order in which
    the constructor visits them. *)
Fixpoint triangleEdges (idx : list nat) : list (nat * nat) :=
  match idx with
  | a :: b :: c :: rest => (a, b) :: (b, c) :: (c, a) :: triangleEdges rest
  | _ => []
  end.

(** The unordered pair of the endpoints of a constraint. *)
Definition keyOf (c : Cloth.SpringConstraint) : nat * nat :=
  Cloth.edgeKey (Cloth.vertexA c) (Cloth.vertexB c).

Definition edgeKeyOf (e : nat * nat) : nat * nat := Cloth.edgeKey e.1 e.2.

(** What the constructor stores for an edge: the distance between its two
    endpoints in [vs] as the rest length, and stiffness 0.5. *)
Definition measured (vs : list Cloth.ClothVertex) (c : Cloth.SpringConstraint)
  : Prop :=
  exists va vb,
    vs !! Cloth.vertexA c = Some va /\ vs !! Cloth.vertexB c = Some vb
    /\ Cloth.restLength c
       = Vector3.distanceTo (Cloth.position va) (Cloth.position vb)
    /\ Cloth.stiffness c = 0.5%float.

(** What holds of the edge set and the physics object while the constructor
    visits the triangles, [es] being the edges visited so far: the vertices
    are [V], the set holds the keys of the edges visited, which are the keys
    of the constraints, each once, and every constraint is measured. *)
Definition building (V : list Cloth.ClothVertex) (es : list (nat * nat))
  (st : gset (nat * nat) * Cloth.SimpleClothPhysics) : Prop :=
  Cloth.vertices st.2 = V
  /\ (forall k, k ∈ st.1 <-> k ∈ edgeKeyOf <$> es)
  /\ (forall k, k ∈ st.1 <-> k ∈ keyOf <$> Cloth.constraints st.2)
  /\ NoDup (keyOf <$> Cloth.constraints st.2)
  /\ Forall (measured V) (Cloth.constraints st.2).

(** The three numbers [applyToGeometry] stores for a vertex. *)
Definition stored (Math_fround : float -> float) (v : Cloth.ClothVertex)
  : list float :=
  [Math_fround (Vector3.x (Cloth.position v));
   Math_fround (Vector3.y (Cloth.position v));
   Math_fround (Vector3.z (Cloth.position v))].

End ClothShape.


Module GarmentShape.

(** The edges of a grid of [cols] by [rows] cells triangulated cell by cell:
    the horizontal ones, the vertical ones and one diagonal per cell. *)
Definition gridEdges (cols rows : nat) : nat :=
  cols * (rows + 1) + (cols + 1) * rows + cols * rows.

Definition gridEdgeCount (type : GarmentType) : nat :=
  match type with
  | shirt => gridEdges 12 10
  | pants => 2 * gridEdges 6 12
  | skirt => gridEdges 14 10
  end.

(** The first vertex of the right leg of the pants. *)
Definition rightLeg : nat := 7 * 13.

(** Both endpoints of a constraint lie in the same leg. *)
Definition withinOneLeg (c : Cloth.SpringConstraint) : Prop :=
  Cloth.vertexA c < rightLeg <-> Cloth.vertexB c < rightLeg.

Definition withinOneLegb (c : Cloth.SpringConstraint) : bool :=
  Bool.eqb (Cloth.vertexA c <? rightLeg) (Cloth.vertexB c <? rightLeg).

End GarmentShape.


(** ** The two loops that drive the mirror
    ([usePoseDetection], [VirtualMirror], [useGarmentRenderer]) *)

Module Frames.

(** The canvas size [VirtualMirror] fixes. *)
Definition canvasWidth : float := 640%float.
Definition canvasHeight : float := 480%float.

Section Rotation.
Variable setFromUnitVectors : Vector3.t -> Vector3.t -> Skeleton.Quaternion.
Variable setFromQuaternion : Skeleton.Quaternion -> Skeleton.Euler.

(** The callback registered with [pose.onResults], as far as the garment
    is concerned: [results?.poseLandmarks] may be missing, and a frame goes
    on to [updateFromSkeleton] only if [isPoseValid] accepts it. *)
Definition onResults (garmentType : GarmentType)
  (poseLandmarks : option (list Pose.PoseLandmark)) (refs : Renderer.Refs)
  : completion Renderer.Refs :=
  match poseLandmarks with
  | Some landmarks =>
      if Pose.isPoseValid landmarks then
        Renderer.updateFromSkeleton setFromUnitVectors setFromQuaternion
          garmentType canvasWidth canvasHeight landmarks refs
      else Normal refs
  | None => Normal refs
  end.
End Rotation.

(** The physics part of one round of [animate]: with a mesh and a physics
    object, [update()] and then [applyToGeometry] on the position buffer of
    the mesh; a throw of [update()] leaves the buffer as it is. *)
Definition animate (Math_fround : float -> float) (refs : Renderer.Refs)
  (positions : list float) : completion (Renderer.Refs * list float) :=
  match Renderer.garmentMesh refs, Renderer.physics refs with
  | Some mesh, Some physics =>
      match Cloth.update (1 / 60)%float physics with
      | Normal physics' =>
          Normal (Renderer.mkRefs (Some mesh) (Some physics'),
                  Cloth.applyToGeometry Math_fround physics' positions)
      | Throw physics' =>
          Throw (Renderer.mkRefs (Some mesh) (Some physics'), positions)
      end
  | _, _ => Normal (refs, positions)
  end.

End Frames.

(** ** The placement rules for the shirt and the skirt, in closed form *)

Module Placement.

Definition shoulderCenter (skeleton : Skeleton.Skeleton3D) : Vector3.t :=
  Skeleton.position (Skeleton.spine skeleton).

Definition torsoHeight (skeleton : Skeleton.Skeleton3D) : float :=
  Vector3.distanceTo (shoulderCenter skeleton) (Renderer.hipCenter skeleton).

Definition shoulderWidth (skeleton : Skeleton.Skeleton3D) : float :=
  Vector3.distanceTo
    (Renderer.shoulderPosition (Skeleton.leftArm skeleton))
    (Renderer.shoulderPosition (Skeleton.rightArm skeleton)).

Definition torsoCenter (skeleton : Skeleton.Skeleton3D) : Vector3.t :=
  Skeleton.midpoint3 (shoulderCenter skeleton) (Renderer.hipCenter skeleton).

(** The anchor of vertex [i] of the shirt: x between the two shoulders at
    [i / 12], 0.1 above the spine position, at depth 0.1. *)
Definition shoulderLinePin (skeleton : Skeleton.Skeleton3D) (i : nat)
  : Vector3.t :=
  let t := (Num.of_nat i / 12)%float in
  Vector3.mk
    (Vector3.x (Renderer.shoulderPosition (Skeleton.leftArm skeleton)) * (1 - t)
     + Vector3.x (Renderer.shoulderPosition (Skeleton.rightArm skeleton)) * t)%float
    (Vector3.y (shoulderCenter skeleton) + 0.1)%float
    0.1%float.

(** The anchor of vertex [i] of the skirt: x between the two hips at
    [i / 14], at the height of the left hip, at depth 0.1. *)
Definition skirtPin (skeleton : Skeleton.Skeleton3D) (i : nat) : Vector3.t :=
  let t := (Num.of_nat i / 14)%float in
  Vector3.mk
    (Vector3.x (Renderer.hipPosition (Skeleton.leftLeg skeleton)) * (1 - t)
     + Vector3.x (Renderer.hipPosition (Skeleton.rightLeg skeleton)) * t)%float
    (Vector3.y (Renderer.hipPosition (Skeleton.leftLeg skeleton)))
    0.1%float.

(** The indices [isPoseValid] looks at. *)
Definition required : list nat :=
  [Pose.LEFT_SHOULDER; Pose.RIGHT_SHOULDER; Pose.LEFT_HIP; Pose.RIGHT_HIP].

End Placement.


Module Selection.

(** The address the first pattern with a valid candidate stands for, if
    there is one. *)
Fixpoint firstValid (html : string) (patterns : list Regex.re) : option string :=
  match patterns with
  | [] => None
  | pattern :: rest =>
      match Extract.candidate pattern html with
      | Some c =>
          if Extract.isValidImageUrl c then Some (Extract.withScheme c)
          else firstValid html rest
      | None => firstValid html rest
      end
  end.

(** A result of [extractImageFromJson] that the [@graph] loop passes over. *)
Definition passedOver (r : option Extract.JSON) : Prop :=
  match r with
  | Some img => Extract.truthy img = false
  | None => True
  end.

(** The first truthy image among the results for the items of [@graph]. *)
Fixpoint firstTruthy (results : list (option Extract.JSON)) : option Extract.JSON :=
  match results with
  | [] => None
  | Some img :: rest => if Extract.truthy img then Some img else firstTruthy rest
  | None :: rest => firstTruthy rest
  end.


End Selection.


(** ** Sample inputs *)

Module Samples.

(** One triangle in the plane z = 0. *)
Definition triangle : Geometry.BufferGeometry :=
  Geometry.mkGeometry [0; 0; 0; 1; 0; 0; 0; 1; 0]%float [] (Some [0; 1; 2]).

(** The physics state the constructor builds for it: three free vertices
    and the three edges 0-1, 1-2, 2-0. *)
Definition triangleCloth : Cloth.SimpleClothPhysics :=
  let v p := Cloth.mkVertex p p Vector3.zero false 1%float in
  Cloth.mkPhysics
    [v (Vector3.mk 0 0 0); v (Vector3.mk 1 0 0); v (Vector3.mk 0 1 0)]
    [Cloth.mkConstraint 0 1 1%float 0.5%float;
     Cloth.mkConstraint 1 2 (PrimFloat.sqrt 2) 0.5%float;
     Cloth.mkConstraint 2 0 1%float 0.5%float].

(** A frame of 33 landmarks of a person standing upright, facing the
    camera, the right hip slightly lower than the left. *)
Definition standing : list Pose.PoseLandmark :=
  (fun i =>
     let lm x y := Pose.mkLandmark x y 0 (Some 0.9%float) in
     match i with
     | 11 => lm 0.6 0.3 | 12 => lm 0.4 0.3
     | 13 => lm 0.65 0.45 | 14 => lm 0.35 0.45
     | 15 => lm 0.66 0.6 | 16 => lm 0.34 0.6
     | 23 => lm 0.57 0.6 | 24 => lm 0.43 0.62
     | 25 => lm 0.57 0.8 | 26 => lm 0.43 0.8
     | 27 => lm 0.57 0.95 | 28 => lm 0.43 0.95
     | _ => lm 0.5 0.1
     end%float) <$> seq 0 33.

(** A stand-in for the library's rotation conversions, which no placement
    rule reads. *)
Definition noQuaternion (_ _ : Vector3.t) : Skeleton.Quaternion :=
  Skeleton.mkQuaternion 0 0 0 1.

Definition noEuler (_ : Skeleton.Quaternion) : Skeleton.Euler :=
  Skeleton.mkEuler 0 0 0 "XYZ"%string.

(** The skeleton of a 4:3 canvas with the hips at (0.2, -0.2) and
    (-0.2, -0.25) and the knees 0.4 below the left hip. *)
Definition pt (x y : float) : Vector3.t := Vector3.mk x y 0.

Definition boneOf (name : string) (from to : Vector3.t) : Skeleton.SkeletonBone :=
  Skeleton.bone noQuaternion noEuler name from to.

Definition standingSkeleton : Skeleton.Skeleton3D :=
  Skeleton.mkSkeleton
    (boneOf "spine" (pt 0 0.4) (pt 0 (-0.225)))
    (Skeleton.mkArm (boneOf "leftShoulder" (pt 0.25 0.4) (pt 0.4 0.1))
                    (boneOf "leftElbow" (pt 0.4 0.1) (pt 0.4 (-0.2))))
    (Skeleton.mkArm (boneOf "rightShoulder" (pt (-0.25) 0.4) (pt (-0.4) 0.1))
                    (boneOf "rightElbow" (pt (-0.4) 0.1) (pt (-0.4) (-0.2))))
    (Skeleton.mkLeg (boneOf "leftHip" (pt 0.2 (-0.2)) (pt 0.2 (-0.6)))
                    (boneOf "leftKnee" (pt 0.2 (-0.6)) (pt 0.2 (-0.9))))
    (Skeleton.mkLeg (boneOf "rightHip" (pt (-0.2) (-0.25)) (pt (-0.2) (-0.6)))
                    (boneOf "rightKnee" (pt (-0.2) (-0.6)) (pt (-0.2) (-0.9)))).

(** A mesh at the origin with unit scale. *)
Definition restMesh : Renderer.Mesh :=
  Renderer.mkMesh Vector3.zero (Vector3.mk 1 1 1).

(** The triangle with its first corner pinned where it is, and with all
    three corners pinned. *)
Definition anchoredTriangle : Cloth.SimpleClothPhysics :=
  Cloth.pinVertex 0 (Vector3.mk 0 0 0) triangleCloth.

Definition pinnedTriangle : Cloth.SimpleClothPhysics :=
  Cloth.pinVertex 2 (Vector3.mk 0 1 0)
    (Cloth.pinVertex 1 (Vector3.mk 1 0 0) anchoredTriangle).

(** The standing frame with the left shoulder hidden. *)
Definition shoulderHidden : list Pose.PoseLandmark :=
  <[Pose.LEFT_SHOULDER := Pose.mkLandmark 0.6 0.3 0 (Some 0.2%float)]> standing.

(** A platform on which every coordinate is already a 32-bit float. *)
Definition exact (x : float) : float := x.

(** *** Pages for the extraction service *)

Local Open Scope string_scope.

(** The double quote, which JSON needs. *)
Definition dquote : string := String (ascii_of_nat 34) EmptyString.

Definition shopUrl : string := "https://shop.example.com/item/42".

(** The page of the design document's scenario. *)
Definition ogPage : string :=
  "<html><head><title>Shirt</title>"
  +:+ "<meta property='og:image' content='https://img.example.com/p.png'>"
  +:+ "<meta name='twitter:image' content='https://img.example.com/t.png'>"
  +:+ "</head><body></body></html>".

(** A page whose Open Graph image is given relative to the site root. *)
Definition rootRelativePage : string :=
  "<html><head>"
  +:+ "<meta property='og:image' content='/images/shirt.png'>"
  +:+ "</head><body></body></html>".

(** An image page that names itself as its Open Graph image and carries a
    JSON-LD block with another image. *)
Definition viewerUrl : string := "https://images.example.com/view/42".

Definition jsonLdText : string :=
  "{" +:+ dquote +:+ "image" +:+ dquote +:+ ":" +:+ dquote
  +:+ "https://cdn.example.com/other.png" +:+ dquote +:+ "}".

Definition viewerPage : string :=
  "<html><head>"
  +:+ "<meta property='og:image' content='https://images.example.com/view/42'>"
  +:+ "<script type='application/ld+json'>" +:+ jsonLdText +:+ "</script>"
  +:+ "</head><body></body></html>".

(** A network that serves [html] at [pageUrl], a PNG at every address under
    example.com that is not the page, and nothing else. *)
Definition network (pageUrl html : string) (url : string)
  (_ : list (string * string)) : Extract.FetchResult :=
  if String.eqb url pageUrl then
    Extract.Resolved (Extract.mkResponse true 200 (Some "text/html") html)
  else if Str.includes url ".example.com/" then
    Extract.Resolved (Extract.mkResponse true 200 (Some "image/png") "PNG")
  else Extract.Rejected "error sending request".

(** A parser that knows the one JSON text of the samples. *)
Definition parse (text : string) : option Extract.JSON :=
  if String.eqb text jsonLdText then
    Some (Extract.JObject
            [("image", Extract.JString "https://cdn.example.com/other.png")])
  else None.



Definition graphJsonLdText : string :=
  "{" +:+ dquote +:+ "@graph" +:+ dquote +:+ ":[{" +:+ dquote +:+ "@type"
  +:+ dquote +:+ ":" +:+ dquote +:+ "WebSite" +:+ dquote +:+ "},{" +:+ dquote
  +:+ "image" +:+ dquote +:+ ":" +:+ dquote +:+ "//cdn.example.com/other.png"
  +:+ dquote +:+ "}]}".

Definition graphFields : list (string * Extract.JSON) :=
  [("@graph",
    Extract.JArray
      [Extract.JObject [("@type", Extract.JString "WebSite")];
       Extract.JObject [("image", Extract.JString "//cdn.example.com/other.png")]])].


(** A parser that knows the JSON text of the catalogue page. *)
Definition parseGraph (text : string) : option Extract.JSON :=
  if String.eqb text graphJsonLdText then Some (Extract.JObject graphFields)
  else None.

(** Scheme, host and port of an absolute URL: what precedes the first
    slash after the scheme's two. *)
Fixpoint upToSlash (s : string) : string :=
  match s with
  | String c s' => if Ascii.eqb c "/" then EmptyString else String c (upToSlash s')
  | EmptyString => EmptyString
  end.

Definition originOf (url : string) : option string :=
  if Str.startsWith url "https://" then
    Some ("https://" +:+ upToSlash (String.substring 8 (String.length url) url))
  else if Str.startsWith url "http://" then
    Some ("http://" +:+ upToSlash (String.substring 7 (String.length url) url))
  else None.

(** The base64 text of the sample image body. *)
Definition encode (bytes : string) : string :=
  if String.eqb bytes "PNG" then "UE5H" else "".

End Samples.

(* ===================================================================== *)
(** * Properties *)

(** ** Loops and completions *)

Section Loops.
Context {A S : Type}.

Lemma forOf_invariant (P : S -> Prop) (body : A -> S -> completion S) l s :
  (forall a s0, P s0 -> P (state_of (body a s0))) ->
  P s -> P (state_of (forOf body l s)).
Proof.
  intros Hbody. revert s.
  induction l as [|a l IH]; intros s Hs; simpl; [exact Hs|].
  specialize (Hbody a s Hs).
  destruct (body a s) as [s1|s1]; simpl in *; auto.
Qed.

Lemma forTimes_invariant (P : S -> Prop) (body : S -> completion S) n s :
  (forall s0, P s0 -> P (state_of (body s0))) ->
  P s -> P (state_of (forTimes n body s)).
Proof.
  intros Hbody. revert s.
  induction n as [|n IH]; intros s Hs; simpl; [exact Hs|].
  specialize (Hbody s Hs).
  destruct (body s) as [s1|s1]; simpl in *; auto.
Qed.

End Loops.

(** ** Cloth physics *)

Section ClothFacts.
Import Cloth.

Lemma integrate_keeps_pinned k v vs :
  pinned_at k v vs -> pinned_at k v (integrate vs).
Proof.
  intros [Hk Hp]. split; [|exact Hp].
  unfold integrate. rewrite list_lookup_fmap, Hk. simpl.
  unfold integrateVertex. by rewrite Hp.
Qed.

(** Writing to a vertex that is not pinned leaves every pinned one alone. *)
Lemma insert_keeps_pinned k v vs j w0 w :
  pinned_at k v vs -> vs !! j = Some w0 -> pinned w0 = false ->
  pinned_at k v (<[j := w]> vs).
Proof.
  intros [Hk Hp] Hj Hw0. split; [|exact Hp].
  rewrite list_lookup_insert_ne; [exact Hk|].
  intros Heq. rewrite Heq, Hk in Hj. congruence.
Qed.

Lemma satisfyConstraint_keeps_pinned c k v vs :
  pinned_at k v vs -> pinned_at k v (state_of (satisfyConstraint c vs)).
Proof.
  intros Hpin. unfold satisfyConstraint.
  destruct (vs !! vertexA c) as [vA|] eqn:HA; [|exact Hpin].
  destruct (vs !! vertexB c) as [vB|] eqn:HB; [|exact Hpin].
  destruct (outsideDeadZone _ c); [|exact Hpin]. simpl.
  set (corr := Vector3.multiplyScalar _ _).
  set (vs1 := if pinned vA then vs else _).
  assert (Hvs1 : pinned_at k v vs1).
  { subst vs1. destruct (pinned vA) eqn:HpA; [exact Hpin|].
    by eapply insert_keeps_pinned. }
  destruct (vs1 !! vertexB c) as [vB'|] eqn:HB'; [|exact Hvs1].
  destruct (pinned vB') eqn:HpB; [exact Hvs1|].
  by eapply insert_keeps_pinned.
Qed.

Lemma update_keeps_pinned dt k v s :
  pinned_at k v (vertices s) ->
  pinned_at k v (vertices (state_of (update dt s))).
Proof.
  intros Hpin. unfold update.
  assert (H : pinned_at k v (state_of
    (forTimes 3 (forOf satisfyConstraint (constraints s))
       (integrate (vertices s))))).
  { apply (forTimes_invariant (pinned_at k v)).
    - intros vs Hvs. apply (forOf_invariant (pinned_at k v)); [|exact Hvs].
      intros c vs0. apply satisfyConstraint_keeps_pinned.
    - by apply integrate_keeps_pinned. }
  by destruct (forTimes 3 _ _).
Qed.

Lemma pinVertex_lookup_ne i j p s :
  i <> j -> vertices (pinVertex i p s) !! j = vertices s !! j.
Proof.
  intros Hne. unfold pinVertex.
  destruct (vertices s !! i); [|done]. simpl.
  by rewrite list_lookup_insert_ne.
Qed.

Lemma unpinVertex_lookup_ne i j s :
  i <> j -> vertices (unpinVertex i s) !! j = vertices s !! j.
Proof.
  intros Hne. unfold unpinVertex.
  destruct (vertices s !! i); [|done]. simpl.
  by rewrite list_lookup_insert_ne.
Qed.

Lemma perform_keeps_pinned c k v s :
  repins k c = false ->
  pinned_at k v (vertices s) -> pinned_at k v (vertices (perform c s)).
Proof.
  intros Hc [Hk Hp]. destruct c as [j p|j|dt]; simpl in *.
  - apply Nat.eqb_neq in Hc. split; [|exact Hp].
    rewrite pinVertex_lookup_ne; [exact Hk|congruence].
  - apply Nat.eqb_neq in Hc. split; [|exact Hp].
    rewrite unpinVertex_lookup_ne; [exact Hk|congruence].
  - by apply update_keeps_pinned.
Qed.

Lemma performAll_keeps_pinned cs k v s :
  forallb (fun c => negb (repins k c)) cs = true ->
  pinned_at k v (vertices s) -> pinned_at k v (vertices (performAll cs s)).
Proof.
  revert s. induction cs as [|c cs IH]; intros s Hcs Hpin; simpl; [exact Hpin|].
  simpl in Hcs. apply andb_true_iff in Hcs as [Hc Hcs].
  apply negb_true_iff in Hc.
  apply IH; [exact Hcs|]. by apply perform_keeps_pinned.
Qed.

Lemma pinVertex_pinned_at i p s v :
  vertices s !! i = Some v ->
  pinned_at i (mkVertex p (previousPosition v) (velocity v) true (mass v))
    (vertices (pinVertex i p s)).
Proof.
  intros Hi. unfold pinVertex. rewrite Hi. simpl. split; [|done].
  rewrite list_lookup_insert_eq; [|by eapply lookup_lt_Some].
  by destruct p.
Qed.

(** C1. Pinning invariant: once [pinVertex(i, p)] has been called on a
    vertex in range, the position of vertex [i] is exactly [p] after any
    sequence of calls that contains any number of [update()] calls (with
    any [deltaTime], whether or not they throw) and any pin or unpin of
    other vertices, as long as no [pinVertex(i, _)] or [unpinVertex(i)] is
    among them; the vertex also stays pinned. *)
Theorem pinVertex_position_invariant (s : SimpleClothPhysics) (i : nat)
    (p : Vector3.t) (cs : list call) :
  i < List.length (vertices s) ->
  forallb (fun c => negb (repins i c)) cs = true ->
  exists v, vertices (performAll cs (pinVertex i p s)) !! i = Some v
            /\ position v = p /\ pinned v = true.
Proof.
  intros Hi Hcs.
  destruct (lookup_lt_is_Some_2 _ _ Hi) as [v0 Hv0].
  pose proof (pinVertex_pinned_at i p s v0 Hv0) as Hpin.
  apply (performAll_keeps_pinned cs) in Hpin; [|exact Hcs].
  destruct Hpin as [Hk Hp]. eexists. split; [exact Hk|]. by split.
Qed.
End ClothFacts.

Section ClothAlgorithm.
Import Cloth.

Lemma integrate_length vs : List.length (integrate vs) = List.length vs.
Proof. unfold integrate. apply length_fmap. Qed.

Lemma integrateVertex_free v :
  pinned v = false -> integrateVertex v = verletStep v.
Proof.
  intros Hp. unfold integrateVertex, verletStep. rewrite Hp.
  destruct v as [[px py pz] [qx qy qz] vel pin m]. reflexivity.
Qed.

Lemma integrate_lookup vs i v :
  vs !! i = Some v ->
  integrate vs !! i = Some (if pinned v then v else verletStep v).
Proof.
  intros Hi. unfold integrate. rewrite list_lookup_fmap, Hi. simpl. f_equal.
  destruct (pinned v) eqn:Hp.
  - unfold integrateVertex. by rewrite Hp.
  - by apply integrateVertex_free.
Qed.

(** Moving a vertex changes neither its flag nor its mass, and nothing of
    any other vertex. *)
Lemma moveUnlessPinned_lookup k f vs j v :
  vs !! j = Some v ->
  exists v', moveUnlessPinned k f vs !! j = Some v'
             /\ pinned v' = pinned v /\ mass v' = mass v
             /\ previousPosition v' = previousPosition v
             /\ velocity v' = velocity v
             /\ (j <> k \/ pinned v = true -> v' = v).
Proof.
  intros Hj. unfold moveUnlessPinned.
  destruct (vs !! k) as [w|] eqn:Hk; [|by exists v].
  destruct (pinned w) eqn:Hw; [by exists v|].
  destruct (decide (j = k)) as [->|Hne].
  - rewrite Hj in Hk. injection Hk as <-.
    exists (set_position v (f (position v))).
    rewrite list_lookup_insert_eq; [|by eapply lookup_lt_Some].
    repeat split; try done. intros [?|?]; congruence.
  - exists v. by rewrite list_lookup_insert_ne.
Qed.

(** The loop body does to a constraint with stiffness 0.5 between two
    existing vertices what the design document says, and does not throw. *)
Lemma satisfyConstraint_relaxed c vs :
  constraint_ok (List.length vs) c ->
  exists vs', satisfyConstraint c vs = Normal vs'
              /\ relaxed c vs vs' /\ List.length vs' = List.length vs.
Proof.
  intros (HA & HB & Hst).
  destruct (lookup_lt_is_Some_2 _ _ HA) as [vA HvA].
  destruct (lookup_lt_is_Some_2 _ _ HB) as [vB HvB].
  unfold satisfyConstraint. rewrite HvA, HvB.
  destruct (outsideDeadZone _ c) eqn:Hout.
  - eexists. split; [reflexivity|]. split.
    + replace (Vector3.multiplyScalar _ (correctionFactor _ c))
        with (displacement (restLength c) vA vB)
        by (unfold displacement, correctionFactor, separation; by rewrite Hst).
      pose proof (relaxed_corrected c vs vA vB HvA HvB Hout) as Hr.
      unfold moveUnlessPinned at 2 in Hr. rewrite HvA in Hr.
      unfold moveUnlessPinned in Hr. exact Hr.
    + set (vs1 := if pinned vA then vs else _).
      assert (Hl : List.length vs1 = List.length vs).
      { subst vs1. destruct (pinned vA); [done|]. apply length_insert. }
      destruct (vs1 !! vertexB c) as [vB'|]; [|done].
      destruct (pinned vB'); [done|]. by rewrite length_insert.
  - exists vs. split; [reflexivity|]. split; [|done].
    by eapply relaxed_inside.
Qed.

Lemma forOf_relaxationPass cs n vs :
  Forall (constraint_ok n) cs -> List.length vs = n ->
  exists vs', forOf satisfyConstraint cs vs = Normal vs'
              /\ relaxationPass cs vs vs' /\ List.length vs' = n.
Proof.
  intros Hcs. revert vs.
  induction Hcs as [|c cs Hc _ IH]; intros vs Hn; simpl.
  - exists vs. repeat split; [constructor | done].
  - rewrite <- Hn in Hc.
    destruct (satisfyConstraint_relaxed c vs Hc) as (vs1 & -> & Hr & Hl).
    simpl. destruct (IH vs1) as (vs2 & Hrun & Hpass & Hl2); [congruence|].
    exists vs2. repeat split; [done | | done].
    by econstructor.
Qed.

Lemma relaxed_lookup c vs vs' j v :
  relaxed c vs vs' -> vs !! j = Some v ->
  exists v', vs' !! j = Some v'
             /\ pinned v' = pinned v /\ mass v' = mass v
             /\ (pinned v = true -> v' = v).
Proof.
  intros Hr Hj. destruct Hr as [vA vB _ _ _ | vA vB _ _ _].
  - by exists v.
  - destruct (moveUnlessPinned_lookup (vertexA c)
      (fun p => Vector3.add p (displacement (restLength c) vA vB)) vs j v Hj)
      as (v1 & Hv1 & Hp1 & Hm1 & _ & _ & Hsame1).
    destruct (moveUnlessPinned_lookup (vertexB c)
      (fun p => Vector3.sub p (displacement (restLength c) vA vB)) _ j v1 Hv1)
      as (v2 & Hv2 & Hp2 & Hm2 & _ & _ & Hsame2).
    exists v2. repeat split; [done | congruence | congruence |].
    intros Hp. rewrite Hsame2, Hsame1; auto. right. congruence.
Qed.

Lemma relaxationPass_lookup cs vs vs' j v :
  relaxationPass cs vs vs' -> vs !! j = Some v ->
  exists v', vs' !! j = Some v'
             /\ pinned v' = pinned v /\ mass v' = mass v
             /\ (pinned v = true -> v' = v).
Proof.
  intros Hpass. revert v.
  induction Hpass as [vs|c cs vs vs1 vs2 Hr _ IH]; intros v Hj.
  - by exists v.
  - destruct (relaxed_lookup c vs vs1 j v Hr Hj) as (v1 & Hv1 & Hp1 & Hm1 & Hs1).
    destruct (IH v1 Hv1) as (v2 & Hv2 & Hp2 & Hm2 & Hs2).
    exists v2. repeat split; [done | congruence | congruence |].
    intros Hp. rewrite Hs2, Hs1; auto. congruence.
Qed.
End ClothAlgorithm.

Section ClothStates.
Import Cloth.

Lemma addEdge_well_formed a b E s E' s' :
  addEdge a b (E, s) = Some (E', s') ->
  well_formed s -> well_formed s' /\ vertices s' = vertices s.
Proof.
  unfold addEdge. case_bool_decide; [by intros [= <- <-]|].
  destruct (vertices s !! a) as [va|] eqn:Ha; [|done]. simpl.
  destruct (vertices s !! b) as [vb|] eqn:Hb; [|done]. simpl.
  intros [= <- <-] Hwf. split; [|done].
  unfold well_formed in *. simpl. apply Forall_app. split; [exact Hwf|].
  apply Forall_singleton. repeat split; simpl; by eapply lookup_lt_Some.
Qed.

#[local] Arguments addEdge : simpl never.

Lemma addTriangles_well_formed n : forall idx st st',
  List.length idx <= n ->
  addTriangles idx st = Some st' ->
  well_formed st.2 -> well_formed st'.2 /\ vertices st'.2 = vertices st.2.
Proof.
  induction n as [|n IH]; intros idx st st' Hlen.
  - destruct idx; [|simpl in Hlen; lia]. by intros [= <-].
  - destruct idx as [|a [|b [|c rest]]]; simpl; try done.
    + by intros [= <-].
    + destruct st as [E s].
      destruct (addEdge a b (E, s)) as [[E1 s1]|] eqn:H1; [|done]. simpl.
      destruct (addEdge b c (E1, s1)) as [[E2 s2]|] eqn:H2; [|done]. simpl.
      destruct (addEdge c a (E2, s2)) as [[E3 s3]|] eqn:H3; [|done]. simpl.
      intros Hrest Hwf.
      destruct (addEdge_well_formed _ _ _ _ _ _ H1 Hwf) as [Hwf1 Hv1].
      destruct (addEdge_well_formed _ _ _ _ _ _ H2 Hwf1) as [Hwf2 Hv2].
      destruct (addEdge_well_formed _ _ _ _ _ _ H3 Hwf2) as [Hwf3 Hv3].
      destruct (IH rest (E3, s3) st') as [Hwf' Hv']; [simpl in Hlen; lia|done|done|].
      split; [done|]. simpl in *. congruence.
Qed.

Lemma initializeFromGeometry_well_formed geometry s :
  initializeFromGeometry geometry = Some s -> well_formed s.
Proof.
  unfold initializeFromGeometry.
  destruct (Geometry.index geometry) as [idx|].
  - destruct (addTriangles idx _) as [st'|] eqn:Hadd; [|done].
    intros [= <-].
    eapply (addTriangles_well_formed _ idx _ st' (le_n _)) in Hadd as [Hwf _];
      [done|]. by apply Forall_nil.
  - intros [= <-]. by apply Forall_nil.
Qed.

Lemma satisfyConstraint_length c vs :
  List.length (state_of (satisfyConstraint c vs)) = List.length vs.
Proof.
  unfold satisfyConstraint.
  destruct (vs !! vertexA c) as [vA|]; [|done].
  destruct (vs !! vertexB c) as [vB|]; [|done].
  destruct (outsideDeadZone _ c); [|done]. simpl.
  set (vs1 := if pinned vA then vs else _).
  assert (Hl : List.length vs1 = List.length vs).
  { subst vs1. destruct (pinned vA); [done|]. apply length_insert. }
  destruct (vs1 !! vertexB c) as [vB'|]; [|done].
  destruct (pinned vB'); [done|]. by rewrite length_insert.
Qed.

Lemma update_frame dt s :
  constraints (state_of (update dt s)) = constraints s
  /\ List.length (vertices (state_of (update dt s))) = List.length (vertices s).
Proof.
  unfold update.
  assert (H : List.length (state_of
    (forTimes 3 (forOf satisfyConstraint (constraints s))
       (integrate (vertices s)))) = List.length (vertices s)).
  { apply (forTimes_invariant (fun vs => List.length vs = List.length (vertices s))).
    - intros vs Hvs.
      apply (forOf_invariant (fun vs => List.length vs = List.length (vertices s)));
        [|exact Hvs].
      intros c vs0 <-. apply satisfyConstraint_length.
    - apply integrate_length. }
  by destruct (forTimes 3 _ _).
Qed.

Lemma perform_frame c s :
  constraints (perform c s) = constraints s
  /\ List.length (vertices (perform c s)) = List.length (vertices s).
Proof.
  destruct c as [i p|i|dt]; simpl.
  - unfold pinVertex. destruct (vertices s !! i); [|done]. simpl.
    by rewrite length_insert.
  - unfold unpinVertex. destruct (vertices s !! i); [|done]. simpl.
    by rewrite length_insert.
  - apply update_frame.
Qed.

Lemma reachable_well_formed s : reachable s -> well_formed s.
Proof.
  induction 1 as [geometry s Hnew|c s _ IH].
  - by eapply initializeFromGeometry_well_formed.
  - unfold well_formed in *.
    destruct (perform_frame c s) as [-> ->]. exact IH.
Qed.

(** No call changes the constraints: at any time they are the list the
    constructor built, in the order in which [addEdge] pushed them. *)
Lemma reachable_constraints s :
  reachable s ->
  exists geometry s0,
    initializeFromGeometry geometry = Some s0
    /\ constraints s = constraints s0
    /\ List.length (vertices s) = List.length (vertices s0).
Proof.
  induction 1 as [geometry s Hnew|c s _ (geometry & s0 & Hnew & Hc & Hl)].
  - by exists geometry, s.
  - exists geometry, s0. destruct (perform_frame c s) as [-> ->]. done.
Qed.

(** Three passes of the relaxation, and a normal completion, on a state
    whose constraints are in range with stiffness 0.5. *)
Lemma update_well_formed dt s :
  well_formed s ->
  exists vs1 vs2 vs3,
    relaxationPass (constraints s) (integrate (vertices s)) vs1
    /\ relaxationPass (constraints s) vs1 vs2
    /\ relaxationPass (constraints s) vs2 vs3
    /\ update dt s = Normal (mkPhysics vs3 (constraints s)).
Proof.
  intros Hwf. unfold well_formed in Hwf. unfold update. simpl.
  destruct (forOf_relaxationPass _ _ (integrate (vertices s)) Hwf)
    as (vs1 & -> & Hp1 & Hl1); [apply integrate_length|]. simpl.
  destruct (forOf_relaxationPass _ _ vs1 Hwf Hl1) as (vs2 & -> & Hp2 & Hl2). simpl.
  destruct (forOf_relaxationPass _ _ vs2 Hwf Hl2) as (vs3 & -> & Hp3 & Hl3). simpl.
  by exists vs1, vs2, vs3.
Qed.

(** C2. On every state a client can reach, [update()] completes normally
    and its second phase is exactly three relaxation passes over the
    constraints in their list order (the order in which [addEdge] pushed
    them), starting from the integrated vertices. Each step of a pass
    leaves the vertices alone when the length between the endpoints is
    within [90%, 110%] of the rest length, and otherwise adds to A's
    position the separation vector scaled by (length error / length) * 0.5
    * 0.5 and subtracts the same vector from B's position, a pinned endpoint
    not being written. No pass changes a pinned vertex. *)
Theorem update_three_relaxation_passes (dt : float) (s : SimpleClothPhysics) :
  reachable s ->
  exists vs1 vs2 vs3,
    relaxationPass (constraints s) (integrate (vertices s)) vs1
    /\ relaxationPass (constraints s) vs1 vs2
    /\ relaxationPass (constraints s) vs2 vs3
    /\ update dt s = Normal (mkPhysics vs3 (constraints s))
    /\ forall k v, pinned_at k v (vertices s) ->
         pinned_at k v vs1 /\ pinned_at k v vs2 /\ pinned_at k v vs3.
Proof.
  intros Hr. apply reachable_well_formed in Hr.
  destruct (update_well_formed dt s Hr) as (vs1 & vs2 & vs3 & H1 & H2 & H3 & Hu).
  exists vs1, vs2, vs3. repeat split; try done.
  all: destruct H as [Hk Hp];
    pose proof (integrate_keeps_pinned k v _ (conj Hk Hp)) as [Hk0 _];
    destruct (relaxationPass_lookup _ _ _ k v H1 Hk0) as (v1 & Hv1 & _ & _ & Hs1);
    rewrite (Hs1 Hp) in Hv1; try done;
    destruct (relaxationPass_lookup _ _ _ k v H2 Hv1) as (v2 & Hv2 & _ & _ & Hs2);
    rewrite (Hs2 Hp) in Hv2; try done;
    destruct (relaxationPass_lookup _ _ _ k v H3 Hv2) as (v3 & Hv3 & _ & _ & Hs3);
    rewrite (Hs3 Hp) in Hv3; done.
Qed.
End ClothStates.

Section ClothClaims.
Import Cloth.

Lemma triangleCloth_constructed :
  initializeFromGeometry Samples.triangle = Some Samples.triangleCloth.
Proof. vm_compute. reflexivity. Qed.

(** The loop body either leaves the vertices as they are or moves A and
    then B, each unless pinned. *)
Lemma satisfyConstraint_cases c vs :
  state_of (satisfyConstraint c vs) = vs
  \/ exists f g,
       state_of (satisfyConstraint c vs)
       = moveUnlessPinned (vertexB c) g (moveUnlessPinned (vertexA c) f vs).
Proof.
  unfold satisfyConstraint.
  destruct (vs !! vertexA c) as [vA|] eqn:HA; [|by left].
  destruct (vs !! vertexB c) as [vB|] eqn:HB; [|by left].
  destruct (outsideDeadZone _ c); [|by left].
  right. set (corr := Vector3.multiplyScalar _ _).
  exists (fun p => Vector3.add p corr), (fun p => Vector3.sub p corr).
  simpl. unfold moveUnlessPinned at 2. rewrite HA. reflexivity.
Qed.

Lemma satisfyConstraint_same_but_position c v vs i :
  same_but_position v vs i ->
  same_but_position v (state_of (satisfyConstraint c vs)) i.
Proof.
  intros (v1 & Hv1 & Hp & Hm & Hq & Hw).
  destruct (satisfyConstraint_cases c vs) as [->|(f & g & ->)]; [by exists v1|].
  destruct (moveUnlessPinned_lookup (vertexA c) f vs i v1 Hv1)
    as (v2 & Hv2 & ? & ? & ? & ? & _).
  destruct (moveUnlessPinned_lookup (vertexB c) g _ i v2 Hv2)
    as (v3 & Hv3 & ? & ? & ? & ? & _).
  exists v3. repeat split; congruence.
Qed.

(** C3. The first phase of [update()] replaces every free vertex by its
    Verlet step: velocity = (position - previousPosition) * 0.98,
    previousPosition = the old position, position = (old position +
    velocity) + (0, -0.0005, 0), mass and flag as they were; a pinned vertex
    is not written. The [deltaTime] argument has no influence on the
    result. With no constraints the integrated vertices are the result of
    [update()]; with constraints, what the relaxation passes leave of a
    vertex has the velocity, previous position, mass and flag the
    integration gave it. *)
Theorem update_integration_phase (dt : float) (s : SimpleClothPhysics)
    (i : nat) (v : ClothVertex) :
  vertices s !! i = Some v ->
  integrate (vertices s) !! i = Some (if pinned v then v else verletStep v)
  /\ (forall dt', update dt' s = update dt s)
  /\ (constraints s = [] ->
      update dt s = Normal (mkPhysics (integrate (vertices s)) []))
  /\ same_but_position (if pinned v then v else verletStep v)
       (vertices (state_of (update dt s))) i.
Proof.
  intros Hi. pose proof (integrate_lookup _ _ _ Hi) as Hint.
  split; [exact Hint|]. split; [reflexivity|]. split.
  - intros Hnil. unfold update. rewrite Hnil. reflexivity.
  - set (w := if pinned v then v else verletStep v) in *.
    assert (H : same_but_position w (state_of
      (forTimes 3 (forOf satisfyConstraint (constraints s))
         (integrate (vertices s)))) i).
    { apply (forTimes_invariant (fun vs => same_but_position w vs i)).
      - intros vs Hvs.
        apply (forOf_invariant (fun vs => same_but_position w vs i)); [|exact Hvs].
        intros c vs0. apply satisfyConstraint_same_but_position.
      - by exists w. }
    unfold update. by destruct (forTimes 3 _ _).
Qed.

(** C10 (as the code has it). [unpinVertex(i)] writes the pinned flag of
    vertex [i] and nothing else: position, previous position, velocity and
    mass of the vertex, every other vertex and the constraints are as
    before. [pinVertex] does not write the previous position either, so a
    vertex pinned at [p] and then freed is integrated by the next
    [update()] from position [p] with the velocity
    (p - previousPosition) * 0.98, the previous position being the one it
    had before it was pinned. *)
Theorem unpinVertex_frame (s : SimpleClothPhysics) (i : nat) (v : ClothVertex) :
  vertices s !! i = Some v ->
  vertices (unpinVertex i s) !! i
    = Some (mkVertex (position v) (previousPosition v) (velocity v) false (mass v))
  /\ (forall j, j <> i -> vertices (unpinVertex i s) !! j = vertices s !! j)
  /\ List.length (vertices (unpinVertex i s)) = List.length (vertices s)
  /\ constraints (unpinVertex i s) = constraints s
  /\ forall p,
       integrate (vertices (unpinVertex i (pinVertex i p s))) !! i
       = Some (verletStep
                 (mkVertex p (previousPosition v) (velocity v) false (mass v))).
Proof.
  intros Hi. pose proof (lookup_lt_Some _ _ _ Hi) as Hlt.
  assert (Hun : forall s0 v0, vertices s0 !! i = Some v0 ->
    vertices (unpinVertex i s0) !! i
    = Some (mkVertex (position v0) (previousPosition v0) (velocity v0)
              false (mass v0))).
  { intros s0 v0 H0. unfold unpinVertex. rewrite H0. simpl.
    rewrite list_lookup_insert_eq; [done|by eapply lookup_lt_Some]. }
  split; [by apply Hun|]. split.
  { intros j Hj. apply unpinVertex_lookup_ne. congruence. }
  split.
  { unfold unpinVertex. rewrite Hi. simpl. apply length_insert. }
  split.
  { unfold unpinVertex. by rewrite Hi. }
  intros p. destruct (pinVertex_pinned_at i p s v Hi) as [Hpin _].
  rewrite (integrate_lookup _ _ _ (Hun _ _ Hpin)). reflexivity.
Qed.
End ClothClaims.

(** *** Sample states *)

(** Vertex 0 of the triangle stays at (3, 1, 0) through three ticks while
    vertex 1 is pinned and vertex 2 is freed. *)
Lemma pinVertex_position_invariant_witness :
  exists v,
    Cloth.vertices
      (Cloth.performAll
         [Cloth.CallUpdate 0.016; Cloth.CallPin 1 (Vector3.mk 2 2 2);
          Cloth.CallUpdate 0.016; Cloth.CallUnpin 2; Cloth.CallUpdate 0.016]
         (Cloth.pinVertex 0 (Vector3.mk 3 1 0) Samples.triangleCloth)) !! 0
    = Some v
    /\ Cloth.position v = Vector3.mk 3 1 0 /\ Cloth.pinned v = true.
Proof.
  apply (pinVertex_position_invariant Samples.triangleCloth 0 (Vector3.mk 3 1 0)).
  - simpl. lia.
  - reflexivity.
Defined.

(** A tick of the triangle with vertex 0 pinned away from its place. *)
Lemma update_three_relaxation_passes_witness :
  let s := Cloth.pinVertex 0 (Vector3.mk 3 1 0) Samples.triangleCloth in
  exists vs1 vs2 vs3,
    Cloth.relaxationPass (Cloth.constraints s) (Cloth.integrate (Cloth.vertices s)) vs1
    /\ Cloth.relaxationPass (Cloth.constraints s) vs1 vs2
    /\ Cloth.relaxationPass (Cloth.constraints s) vs2 vs3
    /\ Cloth.update 0.016 s = Normal (Cloth.mkPhysics vs3 (Cloth.constraints s))
    /\ forall k v, Cloth.pinned_at k v (Cloth.vertices s) ->
         Cloth.pinned_at k v vs1 /\ Cloth.pinned_at k v vs2 /\ Cloth.pinned_at k v vs3.
Proof.
  intros s.
  apply (update_three_relaxation_passes 0.016 s).
  apply (Cloth.reachable_call (Cloth.CallPin 0 (Vector3.mk 3 1 0))).
  apply (Cloth.reachable_new Samples.triangle).
  vm_compute. reflexivity.
Defined.

(** Vertex 1 of the triangle at rest. *)
Lemma update_integration_phase_witness :
  let s := Samples.triangleCloth in
  let v := Cloth.mkVertex (Vector3.mk 1 0 0) (Vector3.mk 1 0 0) Vector3.zero false 1 in
  Cloth.integrate (Cloth.vertices s) !! 1
    = Some (if Cloth.pinned v then v else Cloth.verletStep v)
  /\ (forall dt', Cloth.update dt' s = Cloth.update 0.016 s)
  /\ (Cloth.constraints s = [] ->
      Cloth.update 0.016 s
      = Normal (Cloth.mkPhysics (Cloth.integrate (Cloth.vertices s)) []))
  /\ Cloth.same_but_position (if Cloth.pinned v then v else Cloth.verletStep v)
       (Cloth.vertices (state_of (Cloth.update 0.016 s))) 1.
Proof.
  intros s v.
  apply (update_integration_phase 0.016 s 1 v).
  reflexivity.
Defined.

(** Vertex 0 of the triangle, pinned at (3, 1, 0) and freed. *)
Lemma unpinVertex_frame_witness :
  let s := Cloth.pinVertex 0 (Vector3.mk 3 1 0) Samples.triangleCloth in
  let v := Cloth.mkVertex (Vector3.mk 3 1 0) (Vector3.mk 0 0 0) Vector3.zero true 1 in
  Cloth.vertices (Cloth.unpinVertex 0 s) !! 0
    = Some (Cloth.mkVertex (Cloth.position v) (Cloth.previousPosition v)
              (Cloth.velocity v) false (Cloth.mass v))
  /\ (forall j, j <> 0 ->
        Cloth.vertices (Cloth.unpinVertex 0 s) !! j = Cloth.vertices s !! j)
  /\ List.length (Cloth.vertices (Cloth.unpinVertex 0 s))
     = List.length (Cloth.vertices s)
  /\ Cloth.constraints (Cloth.unpinVertex 0 s) = Cloth.constraints s
  /\ forall p,
       Cloth.integrate
         (Cloth.vertices (Cloth.unpinVertex 0 (Cloth.pinVertex 0 p s))) !! 0
       = Some (Cloth.verletStep
                 (Cloth.mkVertex p (Cloth.previousPosition v) (Cloth.velocity v)
                    false (Cloth.mass v))).
Proof.
  intros s v.
  apply (unpinVertex_frame s 0 v).
  reflexivity.
Defined.

(** C10, the part that fails: the vertex at the origin of the sample
    triangle, pinned at (1, 0, 0) and freed again, still has the origin as
    its previous position; its implied velocity is (1, 0, 0), and the next
    [update()] gives it the velocity (0.98, 0, 0) instead of none. *)
Lemma unpinned_vertex_has_implied_velocity :
  let s := Cloth.unpinVertex 0
             (Cloth.pinVertex 0 (Vector3.mk 1 0 0) Samples.triangleCloth) in
  (exists v, Cloth.vertices s !! 0 = Some v
             /\ Cloth.position v = Vector3.mk 1 0 0
             /\ Cloth.impliedVelocity v = Vector3.mk 1 0 0
             /\ Cloth.impliedVelocity v <> Vector3.zero)
  /\ (exists v', Cloth.vertices (state_of (Cloth.update 0.016 s)) !! 0 = Some v'
                 /\ Cloth.velocity v' = Vector3.mk 0.98 0 0
                 /\ Cloth.velocity v' <> Vector3.zero).
Proof.
  split.
  - eexists. split; [vm_compute; reflexivity|]. vm_compute.
    repeat split; discriminate.
  - eexists. split; [vm_compute; reflexivity|]. vm_compute.
    repeat split; discriminate.
Qed.

(** ** Garment geometry *)

Section GeometryFacts.
Import Geometry.
Variable Math_cos : float -> float.
Variable Math_fround : float -> float.

(** Allocating a geometry and setting its attributes appends one object to
    the heap and touches no other. *)
Lemma new_then_setAttributes (b : Arrays) (h : Heap) :
  setAttributes Math_fround (List.length h) b (h ++ [emptyGeometry])
  = h ++ [mkGeometry (Math_fround <$> vertices b) (Math_fround <$> uvs b)
            (Some (indices b))].
Proof.
  unfold setAttributes.
  induction h as [|g0 h IH]; simpl; [reflexivity|].
  f_equal. exact IH.
Qed.

(** Every builder returns a fresh reference to a geometry whose content
    does not depend on the heap it was called in. *)
Lemma createGarmentGeometry_alloc (type : GarmentType) :
  exists g, forall h,
    createGarmentGeometry Math_cos Math_fround type h = (List.length h, h ++ [g]).
Proof.
  destruct type; eexists; intros h; simpl;
    unfold createShirtGeometry, createPantsGeometry, createSkirtGeometry;
    simpl; rewrite new_then_setAttributes; reflexivity.
Qed.

Lemma created_alloc (h : Heap) (g : BufferGeometry) :
  created (List.length h, h ++ [g]) = Some g.
Proof.
  change (created (List.length h, h ++ [g])) with ((h ++ [g]) !! List.length h).
  by apply list_lookup_middle.
Qed.
(** C4. Whatever the heap and the platform's cosine and rounding, the
    geometry built for a garment type has the vertex and triangle counts of
    the grid formulas (shirt 13 * 11 = 143 and 12 * 10 * 2 = 240, pants
    2 * (7 * 13) = 182 and 2 * (6 * 12 * 2) = 288, skirt 15 * 11 = 165 and
    14 * 10 * 2 = 280), two uv coordinates per vertex, and an index that
    lists, cell by cell and row by row, the triangles (a, c, b) and
    (b, c, d) with a = row * stride + x, b = a + 1, c = a + stride,
    d = c + 1; for the pants the rows of the second leg start at row 13. *)
Theorem createGarmentGeometry_grid (type : GarmentType) (h : Heap) :
  exists g,
    created (createGarmentGeometry Math_cos Math_fround type h) = Some g
    /\ vertexCount g = gridVertexCount type
    /\ triangleCount g = gridTriangleCount type
    /\ index g = Some (gridIndex type)
    /\ List.length (attr_uv g) = 2 * gridVertexCount type
    /\ (gridVertexCount type, gridTriangleCount type)
       = match type with
         | shirt => (143, 240)
         | pants => (182, 288)
         | skirt => (165, 280)
         end.
Proof.
  destruct type; eexists; (split; [
    unfold createGarmentGeometry, createShirtGeometry, createPantsGeometry,
      createSkirtGeometry;
    cbn [new_BufferGeometry]; rewrite new_then_setAttributes;
    apply created_alloc |]);
    repeat split; vm_compute; reflexivity.
Qed.

(** C9. The geometry factory is a function of the garment type alone: called
    in any two heaps it returns geometries with the same position, uv and
    index arrays. Called twice in a row it returns two different objects,
    and the second call leaves the first geometry as it was. *)
Theorem createGarmentGeometry_pure (type : GarmentType) (h h' : Heap) :
  let first := createGarmentGeometry Math_cos Math_fround type h in
  let other := createGarmentGeometry Math_cos Math_fround type h' in
  let second := createGarmentGeometry Math_cos Math_fround type first.2 in
  exists g,
    created first = Some g /\ created other = Some g
    /\ created second = Some g
    /\ second.1 <> first.1
    /\ second.2 !! first.1 = Some g.
Proof.
  destruct (createGarmentGeometry_alloc type) as [g Hg].
  intros first other second. subst first other second.
  rewrite !Hg. cbn [fst snd].
  exists g. rewrite !created_alloc. repeat split.
  - rewrite length_app. simpl. lia.
  - rewrite <- app_assoc. by apply list_lookup_middle.
Qed.
(** The first vertex of the shirt is its top left corner, and its first
    cell joins the vertices 0, 1 of the first row and 13, 14 of the second. *)
Example shirt_first_cell :
  exists g,
    created (createShirtGeometry Math_cos Math_fround []) = Some g
    /\ take 2 (attr_position g) = [Math_fround (-0.6); Math_fround 0.5]%float
    /\ take 2 (attr_uv g) = [Math_fround 0; Math_fround 1]%float
    /\ take 6 <$> index g = Some [0; 13; 1; 1; 13; 14].
Proof. eexists. repeat split; vm_compute; reflexivity. Qed.

(** The first cell of the right leg of the pants starts at vertex 91. *)
Example pants_second_leg_first_cell :
  exists g,
    created (createPantsGeometry Math_fround []) = Some g
    /\ (take 6 ∘ drop 432) <$> index g = Some [91; 98; 92; 92; 98; 99].
Proof. eexists. repeat split; vm_compute; reflexivity. Qed.

End GeometryFacts.

(** ** Skeleton builder *)

Section SkeletonFacts.
Import Skeleton.
Variable setFromUnitVectors : Vector3.t -> Vector3.t -> Quaternion.
Variable setFromQuaternion : Quaternion -> Euler.

Lemma lookup_in_frame (landmarks : list Pose.PoseLandmark) (i : nat) :
  List.length landmarks = 33 -> i < 33 -> is_Some (landmarks !! i).
Proof. intros Hlen Hi. apply lookup_lt_is_Some_2. lia. Qed.

(** Name landmark [i] of a full frame. *)
Ltac frame_landmark Hlen i l H :=
  let Hs := fresh in
  pose proof (lookup_in_frame _ i Hlen) as Hs;
  destruct Hs as [l H]; [vm_compute; lia|].

Lemma extractSkeleton_total (landmarks : list Pose.PoseLandmark) :
  List.length landmarks = 33 ->
  exists lS rS lH rH,
    landmarks !! Pose.LEFT_SHOULDER = Some lS
    /\ landmarks !! Pose.RIGHT_SHOULDER = Some rS
    /\ landmarks !! Pose.LEFT_HIP = Some lH
    /\ landmarks !! Pose.RIGHT_HIP = Some rH
    /\ exists extracted,
         Pose.extractSkeleton landmarks = Some extracted
         /\ Pose.shoulders extracted
            = Pose.mkCentered lS rS (Pose.getMidpoint lS rS)
         /\ Pose.hips extracted
            = Pose.mkCentered lH rH (Pose.getMidpoint lH rH)
         /\ Pose.elbows extracted
            = Pose.mkPair (landmarks !! Pose.LEFT_ELBOW) (landmarks !! Pose.RIGHT_ELBOW)
         /\ Pose.wrists extracted
            = Pose.mkPair (landmarks !! Pose.LEFT_WRIST) (landmarks !! Pose.RIGHT_WRIST)
         /\ Pose.knees extracted
            = Pose.mkPair (landmarks !! Pose.LEFT_KNEE) (landmarks !! Pose.RIGHT_KNEE)
         /\ Pose.ankles extracted
            = Pose.mkPair (landmarks !! Pose.LEFT_ANKLE) (landmarks !! Pose.RIGHT_ANKLE).
Proof.
  intros Hlen.
  frame_landmark Hlen Pose.LEFT_SHOULDER lS HlS.
  frame_landmark Hlen Pose.RIGHT_SHOULDER rS HrS.
  frame_landmark Hlen Pose.LEFT_HIP lH HlH.
  frame_landmark Hlen Pose.RIGHT_HIP rH HrH.
  exists lS, rS, lH, rH. repeat (split; [assumption|]).
  unfold Pose.extractSkeleton. rewrite HlS, HrS, HlH, HrH. simpl.
  eexists. split; [reflexivity|]. simpl. repeat split.
Qed.

(** The gate of the pose source is enough for [extractSkeleton]: a frame it
    accepts has the four landmarks the two midpoints are formed from. *)
Lemma isPoseValid_extractSkeleton (landmarks : list Pose.PoseLandmark) :
  Pose.isPoseValid landmarks = true ->
  exists lS rS lH rH extracted,
    landmarks !! Pose.LEFT_SHOULDER = Some lS
    /\ landmarks !! Pose.RIGHT_SHOULDER = Some rS
    /\ landmarks !! Pose.LEFT_HIP = Some lH
    /\ landmarks !! Pose.RIGHT_HIP = Some rH
    /\ Pose.extractSkeleton landmarks = Some extracted
    /\ Pose.center (Pose.shoulders extracted) = Pose.getMidpoint lS rS
    /\ Pose.center (Pose.hips extracted) = Pose.getMidpoint lH rH.
Proof.
  unfold Pose.isPoseValid. cbn [forallb]. intros H.
  repeat (apply andb_true_iff in H as [? H]).
  destruct (landmarks !! Pose.LEFT_SHOULDER) as [lS|] eqn:HlS; [|discriminate].
  destruct (landmarks !! Pose.RIGHT_SHOULDER) as [rS|] eqn:HrS; [|discriminate].
  destruct (landmarks !! Pose.LEFT_HIP) as [lH|] eqn:HlH; [|discriminate].
  destruct (landmarks !! Pose.RIGHT_HIP) as [rH|] eqn:HrH; [|discriminate].
  exists lS, rS, lH, rH. eexists. repeat (split; [reflexivity|]).
  unfold Pose.extractSkeleton. rewrite HlS, HrS, HlH, HrH. simpl.
  repeat split.
Qed.

(** C5. For every frame of 33 landmarks the skeleton builder does not
    throw, and both centers are coordinate-wise means of the left and right
    point: in landmark space each coordinate of the shoulder center and of
    the hip center is (left + right) / 2, and after the 3D conversion the
    spine position is ((left + right) * 0.5) of the two converted shoulder
    positions, the spine length being the distance from there to the same
    mean of the two converted hip positions. *)
Theorem centers_are_midpoints (landmarks : list Pose.PoseLandmark)
    (canvasWidth canvasHeight : float) :
  List.length landmarks = 33 ->
  exists extracted skeleton,
    Pose.extractSkeleton landmarks = Some extracted
    /\ createSkeleton3D setFromUnitVectors setFromQuaternion
         landmarks canvasWidth canvasHeight = Some skeleton
    /\ (let s := Pose.shoulders extracted in
        Pose.x (Pose.center s) = halfSum (Pose.x (Pose.c_left s)) (Pose.x (Pose.c_right s))
        /\ Pose.y (Pose.center s) = halfSum (Pose.y (Pose.c_left s)) (Pose.y (Pose.c_right s))
        /\ Pose.z (Pose.center s) = halfSum (Pose.z (Pose.c_left s)) (Pose.z (Pose.c_right s)))
    /\ (let s := Pose.hips extracted in
        Pose.x (Pose.center s) = halfSum (Pose.x (Pose.c_left s)) (Pose.x (Pose.c_right s))
        /\ Pose.y (Pose.center s) = halfSum (Pose.y (Pose.c_left s)) (Pose.y (Pose.c_right s))
        /\ Pose.z (Pose.center s) = halfSum (Pose.z (Pose.c_left s)) (Pose.z (Pose.c_right s)))
    /\ landmarks !! Pose.LEFT_SHOULDER = Some (Pose.c_left (Pose.shoulders extracted))
    /\ landmarks !! Pose.RIGHT_SHOULDER = Some (Pose.c_right (Pose.shoulders extracted))
    /\ landmarks !! Pose.LEFT_HIP = Some (Pose.c_left (Pose.hips extracted))
    /\ landmarks !! Pose.RIGHT_HIP = Some (Pose.c_right (Pose.hips extracted))
    /\ position (shoulder (leftArm skeleton))
       = landmarkToVector3 (Pose.c_left (Pose.shoulders extracted))
           canvasWidth canvasHeight 2
    /\ position (shoulder (rightArm skeleton))
       = landmarkToVector3 (Pose.c_right (Pose.shoulders extracted))
           canvasWidth canvasHeight 2
    /\ position (hip (leftLeg skeleton))
       = landmarkToVector3 (Pose.c_left (Pose.hips extracted))
           canvasWidth canvasHeight 2
    /\ position (hip (rightLeg skeleton))
       = landmarkToVector3 (Pose.c_right (Pose.hips extracted))
           canvasWidth canvasHeight 2
    /\ position (spine skeleton)
       = midpoint3 (position (shoulder (leftArm skeleton)))
                   (position (shoulder (rightArm skeleton)))
    /\ length (spine skeleton)
       = Vector3.distanceTo (position (spine skeleton))
           (midpoint3 (position (hip (leftLeg skeleton)))
                      (position (hip (rightLeg skeleton)))).
Proof.
  intros Hlen.
  destruct (extractSkeleton_total landmarks Hlen)
    as (lS & rS & lH & rH & HlS & HrS & HlH & HrH & ex & Hex & Hsh & Hhip
        & Helb & Hwr & Hkn & Hank).
  frame_landmark Hlen Pose.LEFT_ELBOW a1 H1.
  frame_landmark Hlen Pose.RIGHT_ELBOW a2 H2.
  frame_landmark Hlen Pose.LEFT_WRIST a3 H3.
  frame_landmark Hlen Pose.RIGHT_WRIST a4 H4.
  frame_landmark Hlen Pose.LEFT_KNEE a5 H5.
  frame_landmark Hlen Pose.RIGHT_KNEE a6 H6.
  frame_landmark Hlen Pose.LEFT_ANKLE a7 H7.
  frame_landmark Hlen Pose.RIGHT_ANKLE a8 H8.
  exists ex. eexists. split; [exact Hex|]. split.
  { unfold createSkeleton3D. rewrite Hex. simpl.
    rewrite Helb, Hwr, Hkn, Hank. simpl.
    rewrite H1, H2, H3, H4, H5, H6, H7, H8. simpl. reflexivity. }
  rewrite Hsh, Hhip. simpl. repeat split; assumption.
Qed.
End SkeletonFacts.

(** ** Placement *)

Section PlacementFacts.
Import Renderer.

Lemma forRange_S {S : Type} (n : nat) (body : nat -> S -> S) (s : S) :
  Geometry.forRange 0 (Datatypes.S n) body s = body n (Geometry.forRange 0 n body s).
Proof.
  unfold Geometry.forRange. rewrite !Nat.sub_0_r, seq_S, foldl_app. reflexivity.
Qed.

(** Pinning the vertices [0 .. n-1] one after the other pins each of those
    in range where the loop says and touches nothing else. *)
Lemma pin_loop (f : nat -> Vector3.t) (physics : Cloth.SimpleClothPhysics) (n : nat) :
  let physics' :=
    Geometry.forRange 0 n (fun i p => Cloth.pinVertex i (f i) p) physics in
  Cloth.constraints physics' = Cloth.constraints physics
  /\ List.length (Cloth.vertices physics') = List.length (Cloth.vertices physics)
  /\ (forall i, n <= i -> Cloth.vertices physics' !! i = Cloth.vertices physics !! i)
  /\ (forall i v0, i < n -> Cloth.vertices physics !! i = Some v0 ->
        Cloth.vertices physics' !! i
        = Some (Cloth.mkVertex (f i) (Cloth.previousPosition v0)
                  (Cloth.velocity v0) true (Cloth.mass v0))).
Proof.
  induction n as [|n IH]; simpl.
  - repeat split; try done. intros; lia.
  - rewrite forRange_S. destruct IH as (Hc & Hl & Hge & Hlt).
    set (p := Geometry.forRange 0 n _ physics) in *.
    destruct (perform_frame (Cloth.CallPin n (f n)) p) as [Hc' Hl'].
    simpl in Hc', Hl'. split; [congruence|]. split; [congruence|]. split.
    + intros i Hi. rewrite pinVertex_lookup_ne by lia. apply Hge. lia.
    + intros i v0 Hi Hv0. destruct (decide (i = n)) as [->|Hne].
      * assert (Hp : Cloth.vertices p !! n = Some v0) by (rewrite Hge; [done|lia]).
        by destruct (pinVertex_pinned_at n (f n) p v0 Hp) as [-> _].
      * rewrite pinVertex_lookup_ne by lia. apply Hlt; [lia|done].
Qed.

(** C6. For every skeleton, placing the pants puts the mesh origin at the
    midpoint of the two hip positions lowered by 0.12 at depth 0.1, and
    scales it by (hip width * 2.0, leg length * 1.25, 1), the hip width
    being the distance between the hips and the leg length twice the larger
    of the two hip-to-knee distances. Each of the first 7 vertices [i] the
    physics object has is then pinned at the point whose x is interpolated
    between the x coordinates of the left and right hip at [t = i / 6], at
    the height of the left hip and depth 0.1; the other vertices and the
    constraints are not touched. *)
Theorem pants_placement (skeleton : Skeleton.Skeleton3D) (mesh : Mesh)
    (physics : Cloth.SimpleClothPhysics) (i : nat) :
  i < 7 -> i < Cloth.getVertexCount physics ->
  let result := alignToSkeleton pants skeleton mesh physics in
  position result.1
    = Vector3.mk (Vector3.x (hipCenter skeleton))
        (Vector3.y (hipCenter skeleton) - 0.12)%float 0.1%float
  /\ scale result.1
     = Vector3.mk (hipWidth skeleton * 2.0)%float
         (legLength skeleton * 1.25)%float 1%float
  /\ (exists v, Cloth.vertices result.2 !! i = Some v
                /\ Cloth.pinned v = true
                /\ Cloth.position v = hipLinePin skeleton i)
  /\ (forall j, 7 <= j -> Cloth.vertices result.2 !! j = Cloth.vertices physics !! j)
  /\ Cloth.constraints result.2 = Cloth.constraints physics.
Proof.
  intros Hi Hcount result.
  split; [reflexivity|]. split; [reflexivity|].
  subst result. unfold alignToSkeleton. cbn [snd].
  set (mesh' := place pants skeleton mesh).
  unfold pinTopRow.
  destruct (pin_loop (pinPosition pants skeleton mesh') physics
              (gridWidth pants `min` Cloth.getVertexCount physics))
    as (Hc & _ & Hge & Hlt).
  split; [|split; [|exact Hc]].
  - destruct (lookup_lt_is_Some_2 _ _ Hcount) as [v0 Hv0].
    eexists. split.
    { apply (Hlt i v0); [|exact Hv0].
      change (gridWidth pants) with 7. unfold Cloth.getVertexCount in *. lia. }
    split; reflexivity.
  - intros j Hj. apply Hge. change (gridWidth pants) with 7. lia.
Qed.
End PlacementFacts.

(** The skeleton of the standing frame on a 640 by 480 canvas. *)
Lemma centers_are_midpoints_witness :
  exists extracted skeleton,
    Pose.extractSkeleton Samples.standing = Some extracted
    /\ Skeleton.createSkeleton3D Samples.noQuaternion Samples.noEuler
         Samples.standing 640 480 = Some skeleton
    /\ Pose.x (Pose.center (Pose.shoulders extracted)) = 0.5%float
    /\ Pose.y (Pose.center (Pose.hips extracted)) = 0.61%float
    /\ Skeleton.position (Skeleton.spine skeleton)
       = Skeleton.midpoint3
           (Skeleton.position (Skeleton.shoulder (Skeleton.leftArm skeleton)))
           (Skeleton.position (Skeleton.shoulder (Skeleton.rightArm skeleton))).
Proof.
  destruct (centers_are_midpoints Samples.noQuaternion Samples.noEuler
              Samples.standing 640 480)
    as (ex & sk & Hex & Hsk & _ & _ & _ & _ & _ & _ & _ & _ & _ & _ & Hspine & _).
  - reflexivity.
  - exists ex, sk. split; [exact Hex|]. split; [exact Hsk|].
    split; [|split; [|exact Hspine]].
    + vm_compute in Hex. injection Hex as <-. vm_compute. reflexivity.
    + vm_compute in Hex. injection Hex as <-. vm_compute. reflexivity.
Defined.

(** The pants on the standing skeleton: vertex 2 of the triangle is pinned
    a third of the way from the left to the right hip. *)
Lemma pants_placement_witness :
  let result :=
    Renderer.alignToSkeleton pants Samples.standingSkeleton Samples.restMesh
      Samples.triangleCloth in
  Renderer.position result.1 = Vector3.mk 0 (-0.34499999999999997) 0.1
  /\ Renderer.scale result.1
     = Vector3.mk 0.80622577482985502 0.99999999999999989 1
  /\ exists v, Cloth.vertices result.2 !! 2 = Some v
               /\ Cloth.pinned v = true
               /\ Cloth.position v = Renderer.hipLinePin Samples.standingSkeleton 2.
Proof.
  destruct (pants_placement Samples.standingSkeleton Samples.restMesh
              Samples.triangleCloth 2) as (Hp & Hs & Hv & _ & _).
  - lia.
  - unfold Cloth.getVertexCount. simpl. lia.
  - intros result. split; [|split; [|exact Hv]].
    + subst result. rewrite Hp. vm_compute. reflexivity.
    + subst result. rewrite Hs. vm_compute. reflexivity.
Defined.

(** ** The image extraction service *)

Section ExtractFacts.
Import Extract.
Variable fetch : string -> list (string * string) -> FetchResult.
Variable JSON_parse : string -> option JSON.
Variable origin : string -> option string.
Variable btoa : string -> string.

(** A string that starts with one slash only fails the scheme test of
    [isValidImageUrl]. *)
#[local] Arguments Ascii.eqb : simpl never.

Lemma rootRelative_not_valid (c : string) :
  rootRelative c = true -> isValidImageUrl c = false.
Proof.
  unfold rootRelative. intros H. apply andb_true_iff in H as [H1 H2].
  apply negb_true_iff in H2.
  destruct c as [|a c]; [discriminate|].
  assert (Ha : a = "/"%char).
  { simpl in H1. rewrite andb_true_r in H1. symmetry. by apply Ascii.eqb_eq. }
  subst a. unfold isValidImageUrl.
  replace (String.eqb (String "/" c) "") with false by reflexivity.
  replace (Str.startsWith (String "/" c) "http://") with false by reflexivity.
  replace (Str.startsWith (String "/" c) "https://") with false by reflexivity.
  rewrite H2. reflexivity.
Qed.

Lemma tryPattern_no_candidate (url html : string) (pattern : Regex.re) :
  candidate pattern html = None -> tryPattern origin url html pattern = Continue.
Proof.
  unfold candidate, tryPattern.
  destruct (Regex.exec pattern html) as [m|]; [|done].
  destruct (Regex.group 1 (Regex.m_groups m)) as [g|]; [|done].
  by destruct (String.eqb g "").
Qed.

(** What the loop body does with the candidate of a pattern. *)
Lemma tryPattern_candidate (url html : string) (pattern : Regex.re) (c : string) :
  candidate pattern html = Some c ->
  tryPattern origin url html pattern
  = if negb (isValidImageUrl c) then Continue
    else
      match (if Str.startsWith c "//" then Some (String.append "https:" c)
             else if Str.startsWith c "/" then
                    match origin url with
                    | Some o => Some (String.append o c)
                    | None => None
                    end
                  else Some c) with
      | None => Throws
      | Some r => if isValidImageUrl r then Break r else Continue
      end.
Proof.
  unfold candidate, tryPattern.
  destruct (Regex.exec pattern html) as [m|]; [|done].
  destruct (Regex.group 1 (Regex.m_groups m)) as [g|]; [|done].
  destruct (String.eqb g ""); [done|]. by intros [= <-].
Qed.

(** C7 (what the code does instead). A root-relative candidate never
    reaches the branch that would prefix the origin of the page: it fails
    the first validation, the round of its pattern ends with [continue],
    and the loop goes on with the remaining patterns as if the pattern had
    found nothing. This holds whatever [new URL(url).origin] is. *)
Theorem root_relative_candidate_skipped (url html : string)
    (pattern : Regex.re) (rest : list Regex.re) (c : string) :
  candidate pattern html = Some c ->
  rootRelative c = true ->
  tryPattern origin url html pattern = Continue
  /\ scanPatterns origin url html (pattern :: rest)
     = scanPatterns origin url html rest.
Proof.
  intros Hc Hroot.
  assert (Hround : tryPattern origin url html pattern = Continue).
  { rewrite (tryPattern_candidate url html pattern c Hc).
    by rewrite (rootRelative_not_valid c Hroot). }
  split; [exact Hround|]. simpl. by rewrite Hround.
Qed.
(** *** Searching in a longer string *)

Lemma execFrom_found (r : Regex.re) (s : string) : forall i j,
  is_Some (Regex.execFrom r i s) -> is_Some (Regex.execFrom r j s).
Proof.
  induction s as [|a s IH]; intros i j; simpl;
    destruct (Regex.run r _ [] _) as [[rest caps]|]; try done.
  apply IH.
Qed.

(** A pattern found in a string is found in every extension to the left. *)
Lemma test_cons (r : Regex.re) (a : ascii) (s : string) :
  Regex.test r s = true -> Regex.test r (String a s) = true.
Proof.
  unfold Regex.test, Regex.exec. intros H.
  assert (Hs : is_Some (Regex.execFrom r 0 s)).
  { destruct (Regex.execFrom r 0 s); [eauto|discriminate]. }
  apply (execFrom_found r s 0 1) in Hs. simpl.
  destruct (Regex.run r _ [] _) as [[rest caps]|]; [done|].
  by destruct Hs as [m ->].
Qed.

Lemma existsb_test_cons (a : ascii) (s : string) (rs : list Regex.re) :
  existsb (fun r => Regex.test r s) rs = true ->
  existsb (fun r => Regex.test r (String a s)) rs = true.
Proof.
  induction rs as [|r rs IH]; simpl; [done|].
  intros H. apply orb_true_iff in H as [H|H]; apply orb_true_iff.
  - left. by apply test_cons.
  - right. by apply IH.
Qed.

(** A protocol-relative address that passes the validation still passes
    it with the scheme in front: the final validation of the loop cannot
    reject it. *)
Lemma protocol_relative_stays_valid (c : string) :
  Str.startsWith c "//" = true ->
  isValidImageUrl c = true ->
  isValidImageUrl (String.append "https:" c) = true.
Proof.
  intros Hs. destruct c as [|a c]; [discriminate|].
  destruct c as [|b c].
  { simpl in Hs. rewrite andb_false_r in Hs. discriminate. }
  assert (Hab : a = "/"%char /\ b = "/"%char).
  { simpl in Hs. rewrite andb_true_r in Hs.
    apply andb_true_iff in Hs as [Ha Hb].
    split; symmetry; by apply Ascii.eqb_eq. }
  destruct Hab as [-> ->]. unfold isValidImageUrl.
  replace (String.eqb (String "/" (String "/" c)) "") with false by reflexivity.
  replace (String.eqb (String.append "https:" (String "/" (String "/" c))) "")
    with false by reflexivity.
  rewrite Hs.
  replace (Str.startsWith (String.append "https:" (String "/" (String "/" c)))
             "https://") with true by reflexivity.
  rewrite !andb_false_r.
  replace (existsb (fun pattern =>
             Str.includes (String.append "https:" (String "/" (String "/" c)))
               pattern) invalidPatterns)
    with (existsb (fun pattern =>
             Str.includes (String "/" (String "/" c)) pattern) invalidPatterns)
    by (vm_compute; reflexivity).
  destruct (existsb _ invalidPatterns); [discriminate|].
  intros H. change (String.append "https:" (String "/" (String "/" c)))
    with (String "h" (String "t" (String "t" (String "p" (String "s"
           (String ":" (String "/" (String "/" c)))))))).
  by do 6 apply existsb_test_cons.
Qed.

(** *** The Open Graph image *)

Lemma tryPattern_valid_candidate (url html : string) (pattern : Regex.re)
    (c : string) :
  candidate pattern html = Some c ->
  isValidImageUrl c = true ->
  tryPattern origin url html pattern = Break (withScheme c).
Proof.
  intros Hc Hv. rewrite (tryPattern_candidate url html pattern c Hc), Hv.
  unfold withScheme. cbn [negb].
  destruct (Str.startsWith c "//") eqn:Hs.
  - by rewrite (protocol_relative_stays_valid c Hs Hv).
  - destruct (Str.startsWith c "/") eqn:Hs1.
    + assert (Hr : rootRelative c = true) by (unfold rootRelative; by rewrite Hs1, Hs).
      apply rootRelative_not_valid in Hr. congruence.
    + by rewrite Hv.
Qed.

(** Where the claim about the Open Graph image holds: on a page that is not
    a direct image, was fetched with a 2xx status and whose first Open Graph
    tag carries a valid address other than the address of the page itself,
    that address (with the scheme in front, if it lacks one) is the image
    fetched, whatever the other tags and the JSON-LD blocks of the page
    say. *)
Lemma og_image_selected (url c : string) (page : Response) :
  Regex.test imageExtension url = false ->
  fetch url pageHeaders = Resolved page ->
  ok page = true ->
  candidate ogImage (body page) = Some c ->
  isValidImageUrl c = true ->
  withScheme c <> url ->
  selectImageUrl fetch JSON_parse origin url = withScheme c.
Proof.
  intros Hdirect Hfetch Hok Hc Hv Hne.
  unfold selectImageUrl. rewrite Hdirect, Hfetch, Hok.
  unfold imageFromHtml, imagePatterns. cbn [scanPatterns].
  rewrite (tryPattern_valid_candidate url (body page) ogImage c Hc Hv).
  destruct (String.eqb_spec (withScheme c) url); [contradiction|reflexivity].
Qed.

(** The same for a tag that gives [content] before [property], on a page
    without a tag of the first form. *)
Lemma og_image_reversed_selected (url c : string) (page : Response) :
  Regex.test imageExtension url = false ->
  fetch url pageHeaders = Resolved page ->
  ok page = true ->
  candidate ogImage (body page) = None ->
  candidate ogImageReversed (body page) = Some c ->
  isValidImageUrl c = true ->
  withScheme c <> url ->
  selectImageUrl fetch JSON_parse origin url = withScheme c.
Proof.
  intros Hdirect Hfetch Hok Hnone Hc Hv Hne.
  unfold selectImageUrl. rewrite Hdirect, Hfetch, Hok.
  unfold imageFromHtml, imagePatterns. cbn [scanPatterns].
  rewrite (tryPattern_no_candidate url (body page) ogImage Hnone).
  rewrite (tryPattern_valid_candidate url (body page) ogImageReversed c Hc Hv).
  destruct (String.eqb_spec (withScheme c) url); [contradiction|reflexivity].
Qed.

(** The success response carries the declared content type of the image. *)
Lemma serve_data_url (url t : string) (image : Response) :
  url <> ""%string ->
  fetch (selectImageUrl fetch JSON_parse origin url) (imageHeaders url)
    = Resolved image ->
  ok image = true ->
  contentType image = Some t -> t <> ""%string ->
  serve fetch JSON_parse origin btoa (mkRequest "POST" (Body (Some url)))
  = mkHttp 200
      (Some (mkExtractResponse true
               (Some (String.append "data:"
                        (String.append t
                           (String.append ";base64," (btoa (body image))))))
               None)).
Proof.
  intros Hurl Hfetch Hok Ht Hne. unfold serve. cbn [method json].
  replace (String.eqb "POST" "OPTIONS") with false by reflexivity.
  destruct (String.eqb_spec url ""); [contradiction|].
  rewrite Hfetch, Hok, Ht. cbn [negb].
  destruct (String.eqb_spec t ""); [contradiction|reflexivity].
Qed.

End ExtractFacts.

(** C7 at a page whose Open Graph image is /images/shirt.png: the
    candidate is skipped, and the address fetched as the image is the page
    itself, not https://shop.example.com/images/shirt.png, although that
    address passes the validation. *)
Lemma root_relative_candidate_skipped_witness :
  Extract.candidate Extract.ogImage Samples.rootRelativePage
    = Some "/images/shirt.png"%string
  /\ Extract.tryPattern Samples.originOf Samples.shopUrl
       Samples.rootRelativePage Extract.ogImage = Extract.Continue
  /\ Extract.selectImageUrl
       (Samples.network Samples.shopUrl Samples.rootRelativePage)
       Samples.parse Samples.originOf Samples.shopUrl
     = Samples.shopUrl
  /\ Samples.originOf Samples.shopUrl = Some "https://shop.example.com"%string
  /\ Extract.isValidImageUrl "https://shop.example.com/images/shirt.png" = true.
Proof.
  destruct (root_relative_candidate_skipped Samples.originOf Samples.shopUrl
              Samples.rootRelativePage Extract.ogImage [] "/images/shirt.png")
    as [Hround _].
  - vm_compute. reflexivity.
  - vm_compute. reflexivity.
  - split; [vm_compute; reflexivity|]. split; [exact Hround|].
    repeat split; vm_compute; reflexivity.
Defined.

(** C8 (where the code departs from it). The page at
    https://images.example.com/view/42 names that same address as its Open
    Graph image, which is a valid candidate, and carries a JSON-LD block
    with another image. The loop over the patterns ends with the Open Graph
    address in [imageUrl]; being equal to [url] it is taken for "nothing
    found", the JSON-LD block is read, and its image is the one fetched.
    With a JSON-LD block that does not parse the Open Graph address is
    fetched: the result depends on the JSON-LD block. *)
Theorem og_image_naming_the_page_defers_to_json_ld :
  Regex.test Extract.imageExtension Samples.viewerUrl = false
  /\ Extract.candidate Extract.ogImage Samples.viewerPage = Some Samples.viewerUrl
  /\ Extract.isValidImageUrl Samples.viewerUrl = true
  /\ Extract.scanPatterns Samples.originOf Samples.viewerUrl Samples.viewerPage
       Extract.imagePatterns = Some Samples.viewerUrl
  /\ Extract.selectImageUrl
       (Samples.network Samples.viewerUrl Samples.viewerPage)
       Samples.parse Samples.originOf Samples.viewerUrl
     = "https://cdn.example.com/other.png"%string
  /\ Extract.selectImageUrl
       (Samples.network Samples.viewerUrl Samples.viewerPage)
       (fun _ => None) Samples.originOf Samples.viewerUrl
     = Samples.viewerUrl.
Proof. repeat split; vm_compute; reflexivity. Qed.

(** The scenario of the design document, where the claim holds: the Open
    Graph image is fetched and the response starts with the declared content
    type of the image. *)
Example og_scenario :
  Extract.selectImageUrl (Samples.network Samples.shopUrl Samples.ogPage)
    Samples.parse Samples.originOf Samples.shopUrl
  = "https://img.example.com/p.png"%string
  /\ Extract.serve (Samples.network Samples.shopUrl Samples.ogPage)
       Samples.parse Samples.originOf Samples.encode
       (Extract.mkRequest "POST" (Extract.Body (Some Samples.shopUrl)))
     = Extract.mkHttp 200
         (Some (Extract.mkExtractResponse true
                  (Some "data:image/png;base64,UE5H"%string) None)).
Proof.
  split.
  - apply (og_image_selected _ Samples.parse Samples.originOf Samples.shopUrl
             "https://img.example.com/p.png"
             (Extract.mkResponse true 200 (Some "text/html"%string) Samples.ogPage));
      try (vm_compute; reflexivity).
    vm_compute. discriminate.
  - vm_compute. reflexivity.
Qed.

(** ** Worked examples *)

Example Math_max_examples :
  Num.Math_max 0.4 0.35 = 0.4%float
  /\ Num.Math_max PrimFloat.nan 1 = PrimFloat.nan
  /\ Num.Math_max (-0) 0 = 0%float
  /\ Num.Math_min (-0) 0 = (-0)%float.
Proof. repeat split; vm_compute; reflexivity. Qed.

Example distanceTo_3_4_5 :
  Vector3.distanceTo (Vector3.mk 0 0 0) (Vector3.mk 3 4 0) = 5%float
  /\ Vector3.normalize (Vector3.mk 0 0 0) = Vector3.mk 0 0 0
  /\ Vector3.normalize (Vector3.mk 0 (-2) 0) = Vector3.mk 0 (-1) 0.
Proof. repeat split; vm_compute; reflexivity. Qed.

(** One tick on the triangle at rest: every vertex falls by the gravity of
    one tick and no constraint leaves its dead zone. *)
Example triangle_first_tick :
  Cloth.position <$> Cloth.vertices (state_of (Cloth.update 0.016 Samples.triangleCloth))
  = [Vector3.mk 0 (-0.0005) 0; Vector3.mk 1 (-0.0005) 0; Vector3.mk 0 0.9995 0].
Proof. vm_compute. reflexivity. Qed.

(** A stretched edge: with vertex 1 pinned at (3, 0, 0) the free vertex 0
    is pulled toward it by a quarter of the length error in each pass. *)
Example stretched_edge_is_corrected :
  let s := Cloth.pinVertex 1 (Vector3.mk 3 0 0) Samples.triangleCloth in
  Cloth.satisfyConstraint (Cloth.mkConstraint 0 1 1 0.5) (Cloth.vertices s)
  = Normal
      (<[0 := Cloth.mkVertex (Vector3.mk 0.5 0 0) (Vector3.mk 0 0 0)
                Vector3.zero false 1]> (Cloth.vertices s)).
Proof. vm_compute. reflexivity. Qed.

Example isValidImageUrl_examples :
  Extract.isValidImageUrl "https://img.example.com/p.png" = true
  /\ Extract.isValidImageUrl "//cdn.example.com/p" = true
  /\ Extract.isValidImageUrl "/images/p.png" = false
  /\ Extract.isValidImageUrl "https://example.com/sprite.png" = false
  /\ Extract.isValidImageUrl "https://example.com/photo" = false
  /\ Extract.isValidImageUrl "data:image/png;base64,AAAA" = false.
Proof. repeat split; vm_compute; reflexivity. Qed.

Example pattern_examples :
  Regex.test Extract.imageExtension "https://a.example/c.JPG?w=300" = true
  /\ Regex.test Extract.imageExtension "https://a.example/c.jpg/view" = false
  /\ Extract.candidate Extract.ogImage Samples.ogPage
     = Some "https://img.example.com/p.png"%string
  /\ Extract.candidate Extract.twitterImage Samples.ogPage
     = Some "https://img.example.com/t.png"%string
  /\ Extract.candidate Extract.ogImageReversed Samples.ogPage = None
  /\ Extract.candidate Extract.landingImage
       "<img alt='' id='landingImage' class='a' src=' //m.media-amazon.com/i/1 '>"
     = Some "//m.media-amazon.com/i/1"%string.
Proof. repeat split; vm_compute; reflexivity. Qed.

Example extractImageFromJson_examples :
  Extract.extractImageFromJson
    (Extract.JObject [("image"%string, Extract.JArray
                         [Extract.JObject [("url"%string, Extract.JString "u")]])])
  = Some (Extract.JString "u")
  /\ Extract.extractImageFromJson
       (Extract.JObject
          [("@graph"%string,
            Extract.JArray
              [Extract.JNull;
               Extract.JObject [("name"%string, Extract.JString "n")];
               Extract.JObject [("image"%string, Extract.JString "g")]])])
     = Some (Extract.JString "g")
  /\ Extract.extractImageFromJson
       (Extract.JArray [Extract.JObject [("image"%string, Extract.JString "a")]])
     = None.
Proof. repeat split; vm_compute; reflexivity. Qed.

(* ===================================================================== *)
(** * Further properties of the code *)

(** ** Cloth physics: what no call changes *)

Section ClothInvariants.
Import Cloth.

Lemma update_same_but_position dt s i v :
  vertices s !! i = Some v ->
  same_but_position (integrateVertex v) (vertices (state_of (update dt s))) i.
Proof.
  intros Hi.
  assert (H : same_but_position (integrateVertex v) (state_of
    (forTimes 3 (forOf satisfyConstraint (constraints s))
       (integrate (vertices s)))) i).
  { apply (forTimes_invariant (fun vs => same_but_position (integrateVertex v) vs i)).
    - intros vs Hvs.
      apply (forOf_invariant (fun vs => same_but_position (integrateVertex v) vs i));
        [|exact Hvs].
      intros c vs0. apply satisfyConstraint_same_but_position.
    - exists (integrateVertex v). unfold integrate.
      by rewrite list_lookup_fmap, Hi. }
  unfold update. by destruct (forTimes 3 _ _).
Qed.

Lemma integrateVertex_mass v : mass (integrateVertex v) = mass v.
Proof. unfold integrateVertex. by destruct (pinned v). Qed.

Lemma perform_mass c s i v :
  vertices s !! i = Some v ->
  exists v', vertices (perform c s) !! i = Some v' /\ mass v' = mass v.
Proof.
  intros Hi. destruct c as [j p|j|dt]; simpl.
  - unfold pinVertex. destruct (vertices s !! j) as [w|] eqn:Hj; [|by exists v].
    simpl. destruct (decide (j = i)) as [->|Hne].
    + rewrite list_lookup_insert_eq by (by eapply lookup_lt_Some).
      eexists. split; [reflexivity|]. simpl. congruence.
    + exists v. by rewrite list_lookup_insert_ne.
  - unfold unpinVertex. destruct (vertices s !! j) as [w|] eqn:Hj; [|by exists v].
    simpl. destruct (decide (j = i)) as [->|Hne].
    + rewrite list_lookup_insert_eq by (by eapply lookup_lt_Some).
      eexists. split; [reflexivity|]. simpl. congruence.
    + exists v. by rewrite list_lookup_insert_ne.
  - destruct (update_same_but_position dt s i v Hi) as (v' & Hv' & _ & Hm & _).
    exists v'. split; [exact Hv'|]. by rewrite Hm, integrateVertex_mass.
Qed.

(** X1. Physics only repositions: after any sequence of [pinVertex],
    [unpinVertex] and [update] calls, throwing or not, the cloth has the
    same number of vertices, the same constraints in the same order, and
    every vertex has the mass it had. *)
Theorem calls_keep_shape (cs : list call) (s : SimpleClothPhysics)
    (i : nat) (v : ClothVertex) :
  vertices s !! i = Some v ->
  constraints (performAll cs s) = constraints s
  /\ getVertexCount (performAll cs s) = getVertexCount s
  /\ exists v', vertices (performAll cs s) !! i = Some v' /\ mass v' = mass v.
Proof.
  revert s v. induction cs as [|c cs IH]; intros s v Hi; simpl.
  - repeat split. by exists v.
  - destruct (perform_mass c s i v Hi) as (v1 & Hv1 & Hm1).
    destruct (IH (perform c s) v1 Hv1) as (Hc & Hn & v' & Hv' & Hm).
    destruct (perform_frame c s) as [Hc1 Hl1].
    split; [congruence|]. split.
    + unfold getVertexCount in *. congruence.
    + exists v'. split; [exact Hv'|congruence].
Qed.

(** X2. The pin calls as an algebra: an index at or beyond the vertex
    count is ignored by both calls; a second pin of the same vertex overrides
    the first; unpinning twice is unpinning once; pins of two different
    vertices commute. *)
Theorem pin_unpin_algebra (s : SimpleClothPhysics) (i k : nat) (p q : Vector3.t) :
  pinVertex (getVertexCount s + k) p s = s
  /\ unpinVertex (getVertexCount s + k) s = s
  /\ pinVertex i q (pinVertex i p s) = pinVertex i q s
  /\ unpinVertex i (unpinVertex i s) = unpinVertex i s
  /\ pinVertex i p (pinVertex (i + S k) q s)
     = pinVertex (i + S k) q (pinVertex i p s).
Proof.
  assert (Hge : vertices s !! (getVertexCount s + k) = None).
  { apply lookup_ge_None_2. unfold getVertexCount. lia. }
  split; [|split; [|split; [|split]]].
  - unfold pinVertex. by rewrite Hge.
  - unfold unpinVertex. by rewrite Hge.
  - unfold pinVertex. destruct (vertices s !! i) as [v|] eqn:Hi; simpl.
    + rewrite list_lookup_insert_eq by (by eapply lookup_lt_Some). simpl.
      by rewrite list_insert_insert_eq.
    + by rewrite Hi.
  - unfold unpinVertex. destruct (vertices s !! i) as [v|] eqn:Hi; simpl.
    + rewrite list_lookup_insert_eq by (by eapply lookup_lt_Some). simpl.
      by rewrite list_insert_insert_eq.
    + by rewrite Hi.
  - set (j := i + S k). assert (Hne : i <> j) by (subst j; lia).
    unfold pinVertex.
    destruct (vertices s !! i) as [v|] eqn:Hi;
      destruct (vertices s !! j) as [w|] eqn:Hj; simpl.
    + rewrite (list_lookup_insert_ne _ j i) by congruence.
      rewrite (list_lookup_insert_ne _ i j) by congruence.
      rewrite Hi, Hj. simpl. f_equal. by apply list_insert_insert_ne.
    + rewrite Hi. simpl. rewrite list_lookup_insert_ne by congruence.
      by rewrite Hj.
    + rewrite list_lookup_insert_ne by congruence. by rewrite Hi.
    + by rewrite ?Hi, ?Hj.
Qed.

(** X3. A cloth whose vertices are all pinned does not move: [update()]
    returns the vertices it was given. *)
Theorem fully_pinned_is_fixed (dt : float) (s : SimpleClothPhysics) :
  Forall (fun v => pinned v = true) (vertices s) ->
  vertices (state_of (update dt s)) = vertices s.
Proof.
  intros Hall. destruct (update_frame dt s) as [_ Hl].
  apply list_eq. intros i.
  destruct (vertices s !! i) as [v|] eqn:Hi.
  - assert (Hp : pinned v = true).
    { rewrite Forall_lookup in Hall. by eapply Hall. }
    by destruct (update_keeps_pinned dt i v s (conj Hi Hp)) as [-> _].
  - apply lookup_ge_None. apply lookup_ge_None in Hi. lia.
Qed.
(** When the loop body throws. *)
Lemma satisfyConstraint_completes c vs :
  completes (satisfyConstraint c vs) <-> ClothShape.in_range (List.length vs) c.
Proof.
  unfold ClothShape.in_range, satisfyConstraint. split.
  - intros [vs' H].
    destruct (vs !! vertexA c) as [vA|] eqn:HA; [|discriminate].
    destruct (vs !! vertexB c) as [vB|] eqn:HB; [|discriminate].
    split; by eapply lookup_lt_Some.
  - intros [HA HB].
    destruct (lookup_lt_is_Some_2 _ _ HA) as [vA ->].
    destruct (lookup_lt_is_Some_2 _ _ HB) as [vB ->].
    destruct (outsideDeadZone _ c); by eexists.
Qed.

Lemma forOf_satisfyConstraint_completes cs : forall vs,
  completes (forOf satisfyConstraint cs vs)
  <-> Forall (ClothShape.in_range (List.length vs)) cs.
Proof.
  induction cs as [|c cs IH]; intros vs; simpl.
  - split; [intros _; constructor|intros _; by eexists].
  - rewrite Forall_cons, <- satisfyConstraint_completes.
    pose proof (satisfyConstraint_length c vs) as Hl.
    destruct (satisfyConstraint c vs) as [vs1|vs1]; simpl in *.
    + rewrite IH, Hl. split; [intros H; split; [by eexists|done]|by intros [_ H]].
    + split; [intros [? ?]; discriminate|intros [[? ?] _]; discriminate].
Qed.

Lemma update_completes_helper (dt : float) (s : SimpleClothPhysics) :
  completes (update dt s)
  <-> Forall (ClothShape.in_range (getVertexCount s)) (constraints s).
Proof.
  unfold update, getVertexCount.
  rewrite <- (integrate_length (vertices s)).
  set (vs := integrate (vertices s)). cbn [forTimes].
  set (pass := forOf satisfyConstraint (constraints s)).
  pose proof (forOf_satisfyConstraint_completes (constraints s)) as Hpass.
  fold pass in Hpass.
  assert (Hlen : forall vs0, List.length (state_of (pass vs0)) = List.length vs0).
  { intros vs0. subst pass.
    apply (forOf_invariant (fun vs1 => List.length vs1 = List.length vs0)); [|done].
    intros c vs1 <-. apply satisfyConstraint_length. }
  split.
  - intros [s' H]. apply Hpass.
    destruct (pass vs) as [vs1|vs1]; [by eexists|discriminate].
  - intros Hall. pose proof Hall as H1. apply Hpass in H1 as [vs1 H1].
    pose proof (Hlen vs) as L1. rewrite H1 in *. simpl in *.
    pose proof Hall as H2. rewrite <- L1 in H2. apply Hpass in H2 as [vs2 H2].
    pose proof (Hlen vs1) as L2. rewrite H2 in *. simpl in *.
    pose proof Hall as H3. rewrite <- L1, <- L2 in H3. apply Hpass in H3 as [vs3 H3].
    rewrite H3. simpl. by eexists.
Qed.

(** X4. [update()] throws exactly when some constraint names a vertex the
    cloth does not have; with all constraints in range it runs to its end,
    whatever the positions are, and then so does every later [update()]. *)
Theorem update_completes_iff (dt dt' : float) (s : SimpleClothPhysics) :
  (completes (update dt s)
   <-> Forall (ClothShape.in_range (getVertexCount s)) (constraints s))
  /\ (completes (update dt s) ->
      completes (update dt' (state_of (update dt s)))).
Proof.
  split; [apply update_completes_helper|].
  intros H. apply update_completes_helper.
  destruct (update_frame dt s) as [Hc Hl].
  unfold getVertexCount. rewrite Hc, Hl.
  by apply update_completes_helper in H.
Qed.
End ClothInvariants.

(** ** Cloth physics: the constructor *)

Section ClothConstructor.
Import Cloth.
Import ClothShape.

#[local] Arguments addEdge : simpl never.

Lemma edgeKey_inv a b c d :
  edgeKey a b = edgeKey c d -> (a = c /\ b = d) \/ (a = d /\ b = c).
Proof.
  unfold edgeKey.
  destruct (a <? b) eqn:Hab; destruct (c <? d) eqn:Hcd; intros [= -> ->]; auto.
Qed.

Lemma building_key_in_range V es st a b :
  building V es st -> edgeKey a b ∈ st.1 ->
  a < List.length V /\ b < List.length V.
Proof.
  intros (_ & _ & Hkeys & _ & Hm) Hin.
  apply Hkeys in Hin. apply list_elem_of_fmap in Hin as (c & Hc & Hcin).
  rewrite Forall_forall in Hm. destruct (Hm c Hcin) as (va & vb & HA & HB & _).
  apply lookup_lt_Some in HA. apply lookup_lt_Some in HB.
  destruct (edgeKey_inv _ _ _ _ Hc) as [[-> ->]|[-> ->]]; auto.
Qed.

Lemma addEdge_building V es st a b st' :
  building V es st -> addEdge a b st = Some st' ->
  building V (es ++ [(a, b)]) st'.
Proof.
  intros Hb Hadd. pose proof Hb as (HV & Hes & Hkeys & Hnd & Hm).
  destruct st as [E s]. unfold addEdge in Hadd. simpl in *.
  assert (Hsnoc : forall k,
    k ∈ ClothShape.edgeKeyOf <$> (es ++ [(a, b)])
    <-> k ∈ E \/ k = edgeKey a b).
  { intros k. rewrite fmap_app, elem_of_app, <- Hes. simpl.
    rewrite list_elem_of_singleton. reflexivity. }
  case_bool_decide as Hin.
  - injection Hadd as <-. unfold building. simpl.
    split; [done|]. split; [|exact (conj Hkeys (conj Hnd Hm))].
    intros k. rewrite Hsnoc. split; [by left|]. by intros [Hk| ->].
  - destruct (vertices s !! a) as [va|] eqn:Ha; [|discriminate]. simpl in Hadd.
    destruct (vertices s !! b) as [vb|] eqn:Hb'; [|discriminate]. simpl in Hadd.
    injection Hadd as <-. unfold building. simpl.
    split; [done|]. split; [|split; [|split]].
    + intros k. rewrite Hsnoc, elem_of_union, elem_of_singleton.
      split; intros [H|H]; auto.
    + intros k. rewrite fmap_app, elem_of_app. simpl.
      rewrite list_elem_of_singleton, elem_of_union, elem_of_singleton, <- Hkeys.
      change (keyOf (mkConstraint a b
                (Vector3.distanceTo (position va) (position vb)) 0.5))
        with (edgeKey a b).
      split; intros [H|H]; auto.
    + rewrite fmap_app. apply NoDup_app. split; [done|]. split.
      * intros k Hk Hk'. simpl in Hk'. apply list_elem_of_singleton in Hk'.
        subst k. apply Hkeys in Hk. done.
      * simpl. apply NoDup_singleton.
    + apply Forall_app. split; [done|]. apply Forall_singleton.
      exists va, vb. simpl. rewrite <- HV. done.
Qed.

Lemma addEdge_is_Some V es st a b :
  building V es st ->
  is_Some (addEdge a b st) <-> a < List.length V /\ b < List.length V.
Proof.
  intros Hb. pose proof Hb as (HV & _).
  destruct st as [E s]. unfold addEdge. simpl in *.
  case_bool_decide as Hin.
  - split; [intros _|by eauto].
    by apply (building_key_in_range V es (E, s)).
  - rewrite <- HV. split.
    + intros [st' H].
      destruct (vertices s !! a) as [va|] eqn:Ha; [|discriminate]. simpl in H.
      destruct (vertices s !! b) as [vb|] eqn:Hb'; [|discriminate].
      split; by eapply lookup_lt_Some.
    + intros [Ha Hb'].
      destruct (lookup_lt_is_Some_2 _ _ Ha) as [va ->].
      destruct (lookup_lt_is_Some_2 _ _ Hb') as [vb ->]. simpl. eauto.
Qed.

Lemma addTriangles_building V n : forall idx es st,
  List.length idx <= n -> building V es st ->
  match addTriangles idx st with
  | Some st' =>
      building V (es ++ ClothShape.triangleEdges idx) st'
      /\ Forall (fun i => i < List.length V) idx
      /\ (3 | List.length idx)
  | None =>
      ~ (Forall (fun i => i < List.length V) idx /\ (3 | List.length idx))
  end.
Proof.
  induction n as [|n IH]; intros idx es st Hlen Hb.
  - destruct idx; [|simpl in Hlen; lia]. simpl. rewrite app_nil_r.
    split; [done|split; [constructor|by exists 0]].
  - destruct idx as [|a [|b [|c rest]]]; simpl.
    + rewrite app_nil_r. split; [done|split; [constructor|by exists 0]].
    + intros [_ [k Hk]]. simpl in Hk. lia.
    + intros [_ [k Hk]]. simpl in Hk. lia.
    + pose proof (addEdge_is_Some V es st a b Hb) as H1.
      destruct (addEdge a b st) as [st1|] eqn:E1; simpl.
      2:{ intros [Hall _]. inversion Hall as [|? ? Ha Hall']; subst.
          inversion Hall' as [|? ? Hb' _]; subst.
          destruct H1 as [_ H1]. destruct H1 as [? ?]; [done|discriminate]. }
      pose proof (addEdge_building V es st a b st1 Hb E1) as Hb1.
      pose proof (addEdge_is_Some V _ st1 b c Hb1) as H2.
      destruct (addEdge b c st1) as [st2|] eqn:E2; simpl.
      2:{ intros [Hall _]. inversion Hall as [|? ? Ha Hall']; subst.
          inversion Hall' as [|? ? Hb' Hall'']; subst.
          inversion Hall'' as [|? ? Hc _]; subst.
          destruct H2 as [_ H2]. destruct H2 as [? ?]; [done|discriminate]. }
      pose proof (addEdge_building V _ st1 b c st2 Hb1 E2) as Hb2.
      pose proof (addEdge_is_Some V _ st2 c a Hb2) as H3.
      destruct (addEdge c a st2) as [st3|] eqn:E3; simpl.
      2:{ intros [Hall _]. inversion Hall as [|? ? Ha Hall']; subst.
          inversion Hall' as [|? ? Hb' Hall'']; subst.
          inversion Hall'' as [|? ? Hc _]; subst.
          destruct H3 as [_ H3]. destruct H3 as [? ?]; [done|discriminate]. }
      pose proof (addEdge_building V _ st2 c a st3 Hb2 E3) as Hb3.
      destruct H1 as [H1 _], H2 as [H2 _], H3 as [H3 _].
      destruct H1 as [Ha Hb']; [by eauto|]. destruct H2 as [_ Hc]; [by eauto|].
      assert (Hrest : List.length rest <= n) by (simpl in Hlen; lia).
      specialize (IH rest _ st3 Hrest Hb3).
      assert (Hdiv : (3 | List.length rest)
                     <-> (3 | List.length (a :: b :: c :: rest))).
      { simpl. split; intros [k Hk]; [exists (S k)|exists (k - 1)]; lia. }
      destruct (addTriangles rest st3) as [st'|].
      * destruct IH as (Hbr & Hall & Hd). split; [|split].
        -- by rewrite <- !app_assoc in Hbr.
        -- by repeat constructor.
        -- by apply Hdiv.
      * intros [Hall Hd]. apply IH. split; [|by apply Hdiv].
        inversion Hall as [|? ? _ Hall']; subst.
        inversion Hall' as [|? ? _ Hall'']; subst.
        by inversion Hall'' as [|? ? _ ?]; subst.
Qed.

Lemma initial_building positions :
  building (ClothShape.atRest <$> ClothShape.points positions) []
    (∅, mkPhysics ((fun i => newVertex (getXYZ positions i))
                     <$> seq 0 (List.length positions / 3)) []).
Proof.
  unfold building. simpl. split; [|split; [|split; [|split]]].
  - unfold ClothShape.points. rewrite <- list_fmap_compose. reflexivity.
  - intros k. simpl. split; intros H; [by apply elem_of_empty in H|by inversion H].
  - intros k. simpl. split; intros H; [by apply elem_of_empty in H|by inversion H].
  - constructor.
  - constructor.
Qed.

Lemma initializeFromGeometry_vertices (geometry : Geometry.BufferGeometry)
    (s : SimpleClothPhysics) :
  initializeFromGeometry geometry = Some s ->
  vertices s
  = ClothShape.atRest <$> ClothShape.points (Geometry.attr_position geometry).
Proof.
  unfold initializeFromGeometry, Geometry.vertexCount. intros Hinit.
  destruct (Geometry.index geometry) as [idx|].
  - pose proof (addTriangles_building _ (List.length idx) idx [] _ (le_n _)
                  (initial_building (Geometry.attr_position geometry))) as H.
    destruct (addTriangles idx _) as [st'|]; [|discriminate].
    injection Hinit as <-. by destruct H as ((HV & _) & _).
  - injection Hinit as <-. simpl. unfold ClothShape.points.
    by rewrite <- list_fmap_compose.
Qed.


End ClothConstructor.

(** ** Cloth physics: writing the positions back *)

Section ClothBuffer.
Import Cloth.
Variable Math_fround : float -> float.

Lemma write_loop (s : SimpleClothPhysics) (positions : list float) (n : nat) :
  n <= List.length (vertices s) -> 3 * n <= List.length positions ->
  let r := Geometry.forRange 0 n
    (fun i positions =>
       match vertices s !! i with
       | Some v =>
           <[3 * i + 2 := Math_fround (Vector3.z (position v))]>
             (<[3 * i + 1 := Math_fround (Vector3.y (position v))]>
                (<[3 * i := Math_fround (Vector3.x (position v))]> positions))
       | None => positions
       end) positions in
  List.length r = List.length positions
  /\ (forall i v, i < n -> vertices s !! i = Some v ->
        r !! (3 * i) = Some (Math_fround (Vector3.x (position v)))
        /\ r !! (3 * i + 1) = Some (Math_fround (Vector3.y (position v)))
        /\ r !! (3 * i + 2) = Some (Math_fround (Vector3.z (position v))))
  /\ (forall k, 3 * n <= k -> r !! k = positions !! k).
Proof.
  induction n as [|n IH]; intros Hn Hlen; simpl.
  - split; [done|]. split; [intros; lia|done].
  - rewrite forRange_S. destruct IH as (Hl & Hset & Hrest); [lia|lia|].
    set (r := Geometry.forRange 0 n _ positions) in *.
    destruct (lookup_lt_is_Some_2 (vertices s) n) as [w Hw]; [lia|].
    rewrite Hw. split; [by rewrite !length_insert|]. split.
    + intros i v Hi Hv. destruct (decide (i = n)) as [->|Hne].
      * rewrite Hw in Hv. injection Hv as <-.
        rewrite !list_lookup_insert_ne by lia.
        rewrite (list_lookup_insert_ne _ (3 * n + 2) (3 * n + 1)) by lia.
        rewrite !list_lookup_insert_eq by (rewrite ?length_insert; lia).
        done.
      * rewrite !list_lookup_insert_ne by lia. apply Hset; [lia|done].
    + intros k Hk. rewrite !list_lookup_insert_ne by lia. apply Hrest. lia.
Qed.

Lemma applyToGeometry_stored (s : SimpleClothPhysics) (positions : list float)
    (i : nat) (v : ClothVertex) :
  vertices s !! i = Some v ->
  i < List.length positions / 3 ->
  List.length (applyToGeometry Math_fround s positions) = List.length positions
  /\ take 3 (drop (3 * i) (applyToGeometry Math_fround s positions))
     = ClothShape.stored Math_fround v.
Proof.
  intros Hv Hi. unfold applyToGeometry.
  set (n := List.length (vertices s) `min` (List.length positions / 3)).
  assert (Hdiv : 3 * (List.length positions / 3) <= List.length positions)
    by (apply Nat.Div0.mul_div_le).
  destruct (write_loop s positions n) as (Hl & Hset & _); [lia|lia|].
  split; [exact Hl|].
  destruct (Hset i v) as (Hx & Hy & Hz);
    [apply lookup_lt_Some in Hv; lia|done|].
  apply list_eq. intros k. unfold ClothShape.stored.
  destruct k as [|[|[|k]]].
  - rewrite lookup_take_lt, lookup_drop, Nat.add_0_r by lia. exact Hx.
  - rewrite lookup_take_lt, lookup_drop by lia. exact Hy.
  - rewrite lookup_take_lt, lookup_drop by lia. exact Hz.
  - rewrite lookup_take_ge by lia. reflexivity.
Qed.


(** X8. Round trip with the constructor: a physics object built from a
    geometry and written back before any call leaves a position buffer of
    whole points as it was, provided the buffer holds numbers the rounding
    keeps (as a Float32Array does). *)
Theorem construct_then_apply (geometry : Geometry.BufferGeometry)
    (s : SimpleClothPhysics) :
  initializeFromGeometry geometry = Some s ->
  (3 | List.length (Geometry.attr_position geometry)) ->
  Forall (fun x => Math_fround x = x) (Geometry.attr_position geometry) ->
  applyToGeometry Math_fround s (Geometry.attr_position geometry)
  = Geometry.attr_position geometry.
Proof.
  intros Hinit [m Hm] Hround.
  set (positions := Geometry.attr_position geometry) in *.
  pose proof (initializeFromGeometry_vertices geometry s Hinit) as Hvs.
  fold positions in Hvs.
  assert (Hcount : List.length positions / 3 = m)
    by (rewrite Hm; apply Nat.div_mul; lia).
  assert (Hn : List.length (vertices s) = m).
  { rewrite Hvs. unfold ClothShape.points.
    by rewrite !length_fmap, length_seq. }
  unfold applyToGeometry. rewrite Hn, Hcount, Nat.min_id.
  destruct (write_loop s positions m) as (Hl & Hset & _); [lia|lia|].
  set (r := Geometry.forRange 0 m _ positions) in *.
  apply list_eq. intros k.
  destruct (decide (k < List.length positions)) as [Hk|Hk].
  2:{ rewrite !lookup_ge_None_2 by lia. reflexivity. }
  assert (Hi : k / 3 < m) by (apply Nat.Div0.div_lt_upper_bound; lia).
  assert (Hv : vertices s !! (k / 3)
               = Some (ClothShape.atRest (getXYZ positions (k / 3)))).
  { rewrite Hvs. unfold ClothShape.points.
    rewrite !list_lookup_fmap, lookup_seq_lt by lia. reflexivity. }
  destruct (Hset _ _ Hi Hv) as (Hx & Hy & Hz).
  unfold ClothShape.atRest, getXYZ in Hx, Hy, Hz.
  cbn [position Vector3.x Vector3.y Vector3.z] in Hx, Hy, Hz.
  assert (Hnth : forall j, j < List.length positions ->
            Some (Math_fround (nth j positions PrimFloat.nan)) = positions !! j).
  { intros j Hj. destruct (lookup_lt_is_Some_2 positions j Hj) as [x Hxj].
    rewrite (nth_lookup_Some _ _ _ _ Hxj), Hxj. f_equal.
    rewrite Forall_lookup in Hround. by eapply Hround. }
  pose proof (Nat.div_mod_eq k 3) as Hk3.
  pose proof (Nat.mod_upper_bound k 3 ltac:(lia)) as Hmod.
  destruct (k mod 3) as [|[|[|?]]] eqn:Hr; try lia.
  - replace k with (3 * (k / 3)) at 1 2 by lia.
    rewrite Hx. replace k with (3 * (k / 3)) at 3 by lia. apply Hnth. lia.
  - replace k with (3 * (k / 3) + 1) at 1 2 by lia.
    rewrite Hy. replace k with (3 * (k / 3) + 1) at 3 by lia. apply Hnth. lia.
  - replace k with (3 * (k / 3) + 2) at 1 2 by lia.
    rewrite Hz. replace k with (3 * (k / 3) + 2) at 3 by lia. apply Hnth. lia.
Qed.
End ClothBuffer.

(** ** The garment meshes as cloth *)

Section GarmentCloth.
Variable Math_cos : float -> float.
Variable Math_fround : float -> float.

Lemma created_in_any_heap (type : GarmentType) (h : Geometry.Heap) :
  Geometry.created (Geometry.createGarmentGeometry Math_cos Math_fround type h)
  = Geometry.created (Geometry.createGarmentGeometry Math_cos Math_fround type []).
Proof.
  destruct (createGarmentGeometry_alloc Math_cos Math_fround type) as [g Hg].
  rewrite !Hg. by rewrite !created_alloc.
Qed.

Lemma Forall_of_forallb {A : Type} (P : A -> Prop) (f : A -> bool) (l : list A) :
  (forall x, f x = true -> P x) -> forallb f l = true -> Forall P l.
Proof.
  intros Hf Hall. apply Forall_forall. intros x Hx.
  apply Hf. rewrite forallb_forall in Hall. apply Hall.
  by apply list_elem_of_In.
Qed.

(** X9. The constructor accepts every mesh the factory builds: for each
    garment type it returns a cloth with one free vertex per grid vertex and
    one constraint per grid edge (horizontal, vertical and one diagonal per
    cell: 382 for the shirt, 468 for the pants, 444 for the skirt), all of
    them between existing vertices, so that [update()] never throws on it;
    and the vertices the renderer pins, 0 to gridWidth - 1, exist. *)
Theorem garment_cloth (type : GarmentType) (h : Geometry.Heap) :
  exists g s,
    Geometry.created (Geometry.createGarmentGeometry Math_cos Math_fround type h)
      = Some g
    /\ Cloth.initializeFromGeometry g = Some s
    /\ Cloth.getVertexCount s = Geometry.gridVertexCount type
    /\ List.length (Cloth.constraints s) = GarmentShape.gridEdgeCount type
    /\ GarmentShape.gridEdgeCount type
       = match type with shirt => 382 | pants => 468 | skirt => 444 end
    /\ Renderer.gridWidth type <= Cloth.getVertexCount s
    /\ (forall dt, completes (Cloth.update dt s)).
Proof.
  rewrite created_in_any_heap.
  assert (H : exists g s,
    Geometry.created (Geometry.createGarmentGeometry Math_cos Math_fround type [])
      = Some g
    /\ Cloth.initializeFromGeometry g = Some s
    /\ Cloth.getVertexCount s = Geometry.gridVertexCount type
    /\ List.length (Cloth.constraints s) = GarmentShape.gridEdgeCount type
    /\ GarmentShape.gridEdgeCount type
       = match type with shirt => 382 | pants => 468 | skirt => 444 end
    /\ Renderer.gridWidth type <= Cloth.getVertexCount s).
  { destruct type; eexists; eexists;
      (split; [vm_compute; reflexivity|]);
      (split; [vm_compute; reflexivity|]);
      (split; [vm_compute; reflexivity|]);
      (split; [vm_compute; reflexivity|]);
      (split; [vm_compute; reflexivity|]);
      vm_compute; lia. }
  destruct H as (g & s & Hg & Hs & Hn & Hc & He & Hw).
  exists g, s. repeat (split; [assumption|]).
  intros dt. pose proof (reachable_well_formed s (Cloth.reachable_new g s Hs)) as Hwf.
  destruct (update_well_formed dt s Hwf) as (vs1 & vs2 & vs3 & _ & _ & _ & ->).
  by eexists.
Qed.

(** X10. The two legs of the pants are separate pieces of cloth: no
    constraint joins a vertex of the left leg (0 to 90) to one of the right
    leg (91 to 181). The renderer pins the vertices 0 to 6 only, which lie in
    the left leg. *)
Theorem pants_legs_are_separate (h : Geometry.Heap) :
  exists g s,
    Geometry.created (Geometry.createGarmentGeometry Math_cos Math_fround pants h)
      = Some g
    /\ Cloth.initializeFromGeometry g = Some s
    /\ Forall GarmentShape.withinOneLeg (Cloth.constraints s)
    /\ Renderer.gridWidth pants <= GarmentShape.rightLeg
    /\ GarmentShape.rightLeg + Renderer.gridWidth pants <= Cloth.getVertexCount s.
Proof.
  rewrite created_in_any_heap.
  eexists. eexists.
  split; [vm_compute; reflexivity|].
  split; [vm_compute; reflexivity|].
  split; [|split; vm_compute; lia].
  apply (Forall_of_forallb _ GarmentShape.withinOneLegb).
  - intros c. unfold GarmentShape.withinOneLegb, GarmentShape.withinOneLeg.
    intros Hc. apply Bool.eqb_prop in Hc.
    by rewrite <- !Nat.ltb_lt, Hc.
  - vm_compute. reflexivity.
Qed.
End GarmentCloth.

(** ** The skeleton builder: when it throws *)

Section SkeletonErrors.
Import Skeleton.
Variable setFromUnitVectors : Vector3.t -> Vector3.t -> Quaternion.
Variable setFromQuaternion : Quaternion -> Euler.

Lemma createSkeleton3D_short (landmarks : list Pose.PoseLandmark) (w h : float) :
  List.length landmarks < 29 ->
  createSkeleton3D setFromUnitVectors setFromQuaternion landmarks w h = None.
Proof.
  intros Hlen.
  assert (H28 : landmarks !! Pose.RIGHT_ANKLE = None).
  { apply lookup_ge_None_2. unfold Pose.RIGHT_ANKLE. lia. }
  unfold createSkeleton3D, Pose.extractSkeleton. rewrite H28.
  destruct (landmarks !! Pose.LEFT_SHOULDER); [|done].
  destruct (landmarks !! Pose.RIGHT_SHOULDER); [|done].
  destruct (landmarks !! Pose.LEFT_HIP); [|done].
  destruct (landmarks !! Pose.RIGHT_HIP); [|done]. simpl.
  destruct (landmarks !! Pose.LEFT_ELBOW); [|done].
  destruct (landmarks !! Pose.RIGHT_ELBOW); [|done].
  destruct (landmarks !! Pose.LEFT_WRIST); [|done].
  destruct (landmarks !! Pose.RIGHT_WRIST); [|done].
  destruct (landmarks !! Pose.LEFT_KNEE); [|done].
  destruct (landmarks !! Pose.RIGHT_KNEE); [|done].
  by destruct (landmarks !! Pose.LEFT_ANKLE).
Qed.

Lemma createSkeleton3D_long (landmarks : list Pose.PoseLandmark) (w h : float) :
  29 <= List.length landmarks ->
  is_Some (createSkeleton3D setFromUnitVectors setFromQuaternion landmarks w h).
Proof.
  intros Hlen. unfold createSkeleton3D, Pose.extractSkeleton.
  assert (Hsome : forall i, i < 29 -> is_Some (landmarks !! i)).
  { intros i Hi. apply lookup_lt_is_Some_2. lia. }
  destruct (Hsome Pose.LEFT_SHOULDER) as [? ->]; [vm_compute; lia|].
  destruct (Hsome Pose.RIGHT_SHOULDER) as [? ->]; [vm_compute; lia|].
  destruct (Hsome Pose.LEFT_HIP) as [? ->]; [vm_compute; lia|].
  destruct (Hsome Pose.RIGHT_HIP) as [? ->]; [vm_compute; lia|].
  destruct (Hsome Pose.LEFT_ELBOW) as [? ->]; [vm_compute; lia|].
  destruct (Hsome Pose.RIGHT_ELBOW) as [? ->]; [vm_compute; lia|].
  destruct (Hsome Pose.LEFT_WRIST) as [? ->]; [vm_compute; lia|].
  destruct (Hsome Pose.RIGHT_WRIST) as [? ->]; [vm_compute; lia|].
  destruct (Hsome Pose.LEFT_KNEE) as [? ->]; [vm_compute; lia|].
  destruct (Hsome Pose.RIGHT_KNEE) as [? ->]; [vm_compute; lia|].
  destruct (Hsome Pose.LEFT_ANKLE) as [? ->]; [vm_compute; lia|].
  destruct (Hsome Pose.RIGHT_ANKLE) as [? ->]; [vm_compute; lia|].
  simpl. eauto.
Qed.

Lemma isPoseValid_length (landmarks : list Pose.PoseLandmark) :
  Pose.isPoseValid landmarks = true -> 25 <= List.length landmarks.
Proof.
  unfold Pose.isPoseValid. cbn [forallb]. intros H.
  repeat (apply andb_true_iff in H as [? H]).
  destruct (landmarks !! Pose.RIGHT_HIP) as [l|] eqn:Hl; [|discriminate].
  apply lookup_lt_Some in Hl. unfold Pose.RIGHT_HIP in Hl. lia.
Qed.

(** X11. [createSkeleton3D] returns a skeleton exactly for a frame of at
    least 29 landmarks (it reads up to the right ankle, index 28) and throws
    on every shorter one, whatever the canvas size. The gate [isPoseValid]
    only guarantees 25: it looks at shoulders and hips and not at the elbows,
    wrists, knees and ankles the builder also reads. *)
Theorem createSkeleton3D_succeeds_iff (landmarks : list Pose.PoseLandmark)
    (w h : float) :
  (is_Some (createSkeleton3D setFromUnitVectors setFromQuaternion landmarks w h)
   <-> 29 <= List.length landmarks)
  /\ (Pose.isPoseValid landmarks = true -> 25 <= List.length landmarks)
  /\ (Pose.isPoseValid (take 25 landmarks) = Pose.isPoseValid landmarks
      /\ createSkeleton3D setFromUnitVectors setFromQuaternion
           (take 25 landmarks) w h = None).
Proof.
  split; [|split; [apply isPoseValid_length|split]].
  - split.
    + intros Hs. destruct (decide (29 <= List.length landmarks)) as [|Hn]; [done|].
      rewrite createSkeleton3D_short in Hs by lia. by destruct Hs.
    + apply createSkeleton3D_long.
  - unfold Pose.isPoseValid. cbn [forallb].
    rewrite !lookup_take_lt by (vm_compute; lia). reflexivity.
  - apply createSkeleton3D_short. rewrite length_take. lia.
Qed.
End SkeletonErrors.

(** ** Placement of the shirt and the skirt, and the frame loop *)

Section PlacementMore.
Import Renderer.
Variable setFromUnitVectors : Vector3.t -> Vector3.t -> Skeleton.Quaternion.
Variable setFromQuaternion : Skeleton.Quaternion -> Skeleton.Euler.

(** What the pinning loop leaves, for every garment type. *)
Lemma pinTopRow_lookup (type : GarmentType) (skeleton : Skeleton.Skeleton3D)
    (mesh : Mesh) (physics : Cloth.SimpleClothPhysics) :
  let physics' := pinTopRow type skeleton mesh physics in
  Cloth.constraints physics' = Cloth.constraints physics
  /\ Cloth.getVertexCount physics' = Cloth.getVertexCount physics
  /\ (forall j, gridWidth type <= j ->
        Cloth.vertices physics' !! j = Cloth.vertices physics !! j)
  /\ (forall i v0, i < gridWidth type -> Cloth.vertices physics !! i = Some v0 ->
        Cloth.vertices physics' !! i
        = Some (Cloth.mkVertex (pinPosition type skeleton mesh i)
                  (Cloth.previousPosition v0) (Cloth.velocity v0) true
                  (Cloth.mass v0))).
Proof.
  unfold pinTopRow.
  destruct (pin_loop (pinPosition type skeleton mesh) physics
              (gridWidth type `min` Cloth.getVertexCount physics))
    as (Hc & Hl & Hge & Hlt).
  split; [exact Hc|]. split; [exact Hl|]. split.
  - intros j Hj. apply Hge. lia.
  - intros i v0 Hi Hv0. apply Hlt; [|exact Hv0].
    apply lookup_lt_Some in Hv0. unfold Cloth.getVertexCount. lia.
Qed.

(** X12. Placing the shirt: the mesh origin is the midpoint of the spine
    position (the shoulder center) and the hip center, lowered by 8% of the
    torso height, at depth 0.1; the scale is (shoulder width * 1.55, torso
    height * 1.55, 1). Each of the first 13 vertices the cloth has is pinned
    at x interpolated between the two shoulders at [i / 12], at 0.1 above the
    spine position and depth 0.1, keeping its previous position; later
    vertices and the constraints are not touched. *)
Theorem shirt_placement (skeleton : Skeleton.Skeleton3D) (mesh : Mesh)
    (physics : Cloth.SimpleClothPhysics) (i : nat) (v0 : Cloth.ClothVertex) :
  i < 13 -> Cloth.vertices physics !! i = Some v0 ->
  let result := alignToSkeleton shirt skeleton mesh physics in
  position result.1
    = Vector3.mk (Vector3.x (Placement.torsoCenter skeleton))
        (Vector3.y (Placement.torsoCenter skeleton)
         - Placement.torsoHeight skeleton * 0.08)%float
        0.1%float
  /\ scale result.1
     = Vector3.mk (Placement.shoulderWidth skeleton * 1.55)%float
         (Placement.torsoHeight skeleton * 1.55)%float 1%float
  /\ Cloth.vertices result.2 !! i
     = Some (Cloth.mkVertex (Placement.shoulderLinePin skeleton i)
               (Cloth.previousPosition v0) (Cloth.velocity v0) true
               (Cloth.mass v0))
  /\ (forall j, 13 <= j -> Cloth.vertices result.2 !! j = Cloth.vertices physics !! j)
  /\ Cloth.constraints result.2 = Cloth.constraints physics.
Proof.
  intros Hi Hv0 result. subst result. unfold alignToSkeleton. cbn [fst snd].
  destruct (pinTopRow_lookup shirt skeleton (place shirt skeleton mesh) physics)
    as (Hc & _ & Hge & Hlt).
  split; [reflexivity|]. split; [reflexivity|].
  split; [|split; [exact Hge|exact Hc]].
  rewrite (Hlt i v0 Hi Hv0). reflexivity.
Qed.

(** X13. Placing the skirt: the mesh origin is the hip center at depth 0.1
    (not lowered), the scale is hip width * 1.6 in x and y. Each of the first
    15 vertices the cloth has is pinned at x interpolated between the two
    hips at [i / 14], at the height of the left hip and depth 0.1; later
    vertices and the constraints are not touched. *)
Theorem skirt_placement (skeleton : Skeleton.Skeleton3D) (mesh : Mesh)
    (physics : Cloth.SimpleClothPhysics) (i : nat) (v0 : Cloth.ClothVertex) :
  i < 15 -> Cloth.vertices physics !! i = Some v0 ->
  let result := alignToSkeleton skirt skeleton mesh physics in
  position result.1
    = Vector3.mk (Vector3.x (hipCenter skeleton)) (Vector3.y (hipCenter skeleton))
        0.1%float
  /\ scale result.1
     = Vector3.mk (hipWidth skeleton * 1.6)%float (hipWidth skeleton * 1.6)%float
         1%float
  /\ Cloth.vertices result.2 !! i
     = Some (Cloth.mkVertex (Placement.skirtPin skeleton i)
               (Cloth.previousPosition v0) (Cloth.velocity v0) true
               (Cloth.mass v0))
  /\ (forall j, 15 <= j -> Cloth.vertices result.2 !! j = Cloth.vertices physics !! j)
  /\ Cloth.constraints result.2 = Cloth.constraints physics.
Proof.
  intros Hi Hv0 result. subst result. unfold alignToSkeleton. cbn [fst snd].
  destruct (pinTopRow_lookup skirt skeleton (place skirt skeleton mesh) physics)
    as (Hc & _ & Hge & Hlt).
  split; [reflexivity|]. split; [reflexivity|].
  split; [|split; [exact Hge|exact Hc]].
  rewrite (Hlt i v0 Hi Hv0). reflexivity.
Qed.

(** X14. [updateFromSkeleton] has three outcomes: without a mesh or
    without a physics object it does nothing; with both and a frame of fewer
    than 29 landmarks it throws and leaves both as they were; with both and a
    longer frame it returns normally, keeps the number of vertices and the
    constraints of the cloth, and writes no vertex from [gridWidth] on. *)
Theorem updateFromSkeleton_outcomes (type : GarmentType) (w h : float)
    (landmarks : list Pose.PoseLandmark) (refs : Refs) :
  let run := updateFromSkeleton setFromUnitVectors setFromQuaternion type w h
               landmarks refs in
  match garmentMesh refs, physics refs with
  | Some mesh, Some phys =>
      if decide (List.length landmarks < 29) then run = Throw refs
      else exists mesh' phys',
             run = Normal (mkRefs (Some mesh') (Some phys'))
             /\ Cloth.getVertexCount phys' = Cloth.getVertexCount phys
             /\ Cloth.constraints phys' = Cloth.constraints phys
             /\ forall j, gridWidth type <= j ->
                  Cloth.vertices phys' !! j = Cloth.vertices phys !! j
  | _, _ => run = Normal refs
  end.
Proof.
  intros run. subst run. unfold updateFromSkeleton.
  destruct (garmentMesh refs) as [mesh|]; [|done].
  destruct (physics refs) as [phys|]; [|done].
  case_decide as Hlen.
  - by rewrite createSkeleton3D_short.
  - destruct (createSkeleton3D_long setFromUnitVectors setFromQuaternion
                landmarks w h) as [sk ->]; [lia|].
    unfold alignToSkeleton.
    destruct (pinTopRow_lookup type sk (place type sk mesh) phys)
      as (Hc & Hn & Hge & _).
    eexists _, _. split; [reflexivity|]. by repeat split.
Qed.

(** X15. Anchors hold between frames: after the renderer has aligned the
    garment to a skeleton, any number of [update()] calls (and pins of other
    vertices) leaves each pinned vertex of the top row exactly at the anchor
    the renderer computed for it. *)
Theorem anchors_hold_between_frames (type : GarmentType)
    (skeleton : Skeleton.Skeleton3D) (mesh : Mesh)
    (physics : Cloth.SimpleClothPhysics) (cs : list Cloth.call) (i : nat) :
  i < gridWidth type -> i < Cloth.getVertexCount physics ->
  forallb (fun c => negb (Cloth.repins i c)) cs = true ->
  let result := alignToSkeleton type skeleton mesh physics in
  exists v,
    Cloth.vertices (Cloth.performAll cs result.2) !! i = Some v
    /\ Cloth.pinned v = true
    /\ Cloth.position v = pinPosition type skeleton result.1 i.
Proof.
  intros Hi Hn Hcs result. subst result. unfold alignToSkeleton. cbn [fst snd].
  destruct (lookup_lt_is_Some_2 _ _ Hn) as [v0 Hv0].
  destruct (pinTopRow_lookup type skeleton (place type skeleton mesh) physics)
    as (_ & _ & _ & Hlt).
  specialize (Hlt i v0 Hi Hv0).
  destruct (performAll_keeps_pinned cs i _ _ Hcs (conj Hlt eq_refl)) as [Hk Hp].
  eexists. split; [exact Hk|]. by split.
Qed.

(** X16. A frame in which one of the four landmarks the gate looks at
    (shoulders and hips) is missing, has no visibility value, or has one
    that is not above 0.5 is dropped: mesh and cloth stay as they are, and
    nothing is thrown. The same holds when the detector reports no
    landmarks. *)
Theorem low_visibility_frame_is_dropped (type : GarmentType)
    (landmarks : list Pose.PoseLandmark) (refs : Refs) (index : nat) :
  index ∈ Placement.required ->
  match landmarks !! index with
  | Some landmark =>
      Num.gtb (default 0%float (Pose.visibility landmark)) 0.5 = false
  | None => True
  end ->
  Frames.onResults setFromUnitVectors setFromQuaternion type (Some landmarks) refs
    = Normal refs
  /\ Frames.onResults setFromUnitVectors setFromQuaternion type None refs
     = Normal refs.
Proof.
  intros Hin Hlow. split; [|reflexivity].
  unfold Frames.onResults.
  assert (Hinvalid : Pose.isPoseValid landmarks = false).
  { unfold Pose.isPoseValid. apply not_true_is_false. intros Hall.
    rewrite forallb_forall in Hall.
    specialize (Hall index ltac:(by apply list_elem_of_In)).
    destruct (landmarks !! index) as [l|]; congruence. }
  by rewrite Hinvalid.
Qed.
End PlacementMore.

Section AnimateFacts.
Variable Math_fround : float -> float.

(** X17. One round of the render loop on a cloth whose constraints are all
    in range: a pinned vertex is drawn at its anchor, that is, the position
    buffer holds the rounded coordinates of the position it was pinned at,
    and the vertex is still pinned there in the cloth. *)
Theorem animate_draws_anchor (mesh : Renderer.Mesh)
    (physics : Cloth.SimpleClothPhysics) (positions : list float)
    (i : nat) (v : Cloth.ClothVertex) :
  Forall (ClothShape.in_range (Cloth.getVertexCount physics))
    (Cloth.constraints physics) ->
  Cloth.pinned_at i v (Cloth.vertices physics) ->
  i < List.length positions / 3 ->
  exists physics' positions',
    Frames.animate Math_fround (Renderer.mkRefs (Some mesh) (Some physics))
      positions
    = Normal (Renderer.mkRefs (Some mesh) (Some physics'), positions')
    /\ Cloth.pinned_at i v (Cloth.vertices physics')
    /\ List.length positions' = List.length positions
    /\ take 3 (drop (3 * i) positions') = ClothShape.stored Math_fround v.
Proof.
  intros Hrange Hpin Hi. unfold Frames.animate.
  cbn [Renderer.garmentMesh Renderer.physics].
  pose proof (update_keeps_pinned (1 / 60)%float i v physics Hpin) as Hpin'.
  destruct (proj2 (update_completes_helper (1 / 60)%float physics) Hrange)
    as [physics' Hup].
  rewrite Hup in *. simpl in Hpin'.
  exists physics', (Cloth.applyToGeometry Math_fround physics' positions).
  split; [reflexivity|]. split; [exact Hpin'|].
  destruct Hpin' as [Hv _].
  exact (applyToGeometry_stored Math_fround physics' positions i v Hv Hi).
Qed.
End AnimateFacts.

(** ** The extraction service: which address is fetched *)

Section SelectionFacts.
Import Extract.
Variable fetch : string -> list (string * string) -> FetchResult.
Variable JSON_parse : string -> option JSON.
Variable origin : string -> option string.
Variable btoa : string -> string.

Lemma scanPatterns_firstValid (url html : string) (patterns : list Regex.re) :
  scanPatterns origin url html patterns
  = Some (default url (Selection.firstValid html patterns)).
Proof.
  induction patterns as [|pattern rest IH]; simpl; [reflexivity|].
  destruct (candidate pattern html) as [c|] eqn:Hc.
  - destruct (isValidImageUrl c) eqn:Hv.
    + by rewrite (tryPattern_valid_candidate origin url html pattern c Hc Hv).
    + by rewrite (tryPattern_candidate origin url html pattern c Hc), Hv.
  - by rewrite (tryPattern_no_candidate origin url html pattern Hc).
Qed.

Lemma withScheme_valid (c : string) :
  isValidImageUrl c = true -> isValidImageUrl (withScheme c) = true.
Proof.
  intros Hv. unfold withScheme.
  destruct (Str.startsWith c "//") eqn:Hs; [|exact Hv].
  by apply protocol_relative_stays_valid.
Qed.

Lemma firstValid_valid (html : string) (patterns : list Regex.re) (u : string) :
  Selection.firstValid html patterns = Some u -> isValidImageUrl u = true.
Proof.
  induction patterns as [|pattern rest IH]; simpl; [discriminate|].
  destruct (candidate pattern html) as [c|]; [|exact IH].
  destruct (isValidImageUrl c) eqn:Hv; [|exact IH].
  intros [= <-]. by apply withScheme_valid.
Qed.

Lemma tryJsonLd_valid (jsonScript u : string) :
  tryJsonLd JSON_parse jsonScript = Some u -> isValidImageUrl u = true.
Proof.
  unfold tryJsonLd. destruct (JSON_parse _) as [data|]; [|discriminate].
  destruct (extractImageFromJson data) as [[| | |img| |]|]; try discriminate.
  destruct (negb (String.eqb img "") && isValidImageUrl img) eqn:H; [|discriminate].
  intros [= <-]. by apply andb_true_iff in H as [_ H].
Qed.

Lemma scanJsonLd_valid (url : string) (scripts : list string) :
  scanJsonLd JSON_parse url scripts = url
  \/ isValidImageUrl (scanJsonLd JSON_parse url scripts) = true.
Proof.
  induction scripts as [|jsonScript rest IH]; simpl; [by left|].
  destruct (tryJsonLd JSON_parse jsonScript) as [u|] eqn:Hu; [|exact IH].
  right. by eapply tryJsonLd_valid.
Qed.

(** X18. The loop over the image patterns never throws and never computes
    the origin of the page: whatever [new URL(url).origin] would give or
    throw, it ends with the address of the first pattern, in list order,
    whose candidate passes the validation (with "https:" in front of a
    protocol-relative one), and with [url] if there is none. The second
    validation in the loop never rejects. *)
Theorem scanPatterns_first_valid_candidate (origin' : string -> option string)
    (url html : string) (patterns : list Regex.re) :
  scanPatterns origin url html patterns
    = Some (default url (Selection.firstValid html patterns))
  /\ scanPatterns origin' url html patterns = scanPatterns origin url html patterns.
Proof.
  split; [apply scanPatterns_firstValid|].
  induction patterns as [|pattern rest IH]; simpl; [reflexivity|].
  destruct (candidate pattern html) as [c|] eqn:Hc.
  - destruct (isValidImageUrl c) eqn:Hv.
    + by rewrite !(tryPattern_valid_candidate _ url html pattern c Hc Hv).
    + by rewrite !(tryPattern_candidate _ url html pattern c Hc), Hv.
  - by rewrite !(tryPattern_no_candidate _ url html pattern Hc).
Qed.

Lemma selectImageUrl_cases (url : string) :
  selectImageUrl fetch JSON_parse origin url = url
  \/ isValidImageUrl (selectImageUrl fetch JSON_parse origin url) = true.
Proof.
  unfold selectImageUrl.
  destruct (Regex.test imageExtension url); [by left|].
  destruct (fetch url pageHeaders) as [|page]; [by left|].
  destruct (ok page); [|by left].
  unfold imageFromHtml. rewrite scanPatterns_firstValid.
  destruct (Selection.firstValid (body page) imagePatterns) as [u|] eqn:Hu; simpl.
  - destruct (String.eqb u url); [apply scanJsonLd_valid|].
    right. by eapply firstValid_valid.
  - rewrite String.eqb_refl. apply scanJsonLd_valid.
Qed.

(** X19. Whatever the page says, the address fetched as the image is either
    the requested URL itself or a string that passed [isValidImageUrl]; in
    the second case it starts with http://, https:// or // and contains none
    of the characters <, >, or curly braces. *)
Theorem selectImageUrl_is_url_or_valid (url : string) :
  let imageUrl := selectImageUrl fetch JSON_parse origin url in
  imageUrl = url
  \/ (isValidImageUrl imageUrl = true
      /\ (Str.startsWith imageUrl "http://"
          || Str.startsWith imageUrl "https://"
          || Str.startsWith imageUrl "//") = true
      /\ forallb (fun ch => negb (Str.includes imageUrl ch)) ["<"; ">"; "{"; "}"]
         = true).
Proof.
  intros imageUrl. subst imageUrl.
  destruct (selectImageUrl_cases url) as [H|H]; [by left|]. right.
  split; [exact H|]. revert H.
  generalize (selectImageUrl fetch JSON_parse origin url). intros u.
  unfold isValidImageUrl, invalidPatterns.
  destruct (String.eqb u ""); [discriminate|].
  destruct (Str.startsWith u "http://"), (Str.startsWith u "https://"),
    (Str.startsWith u "//"); cbn [negb andb orb]; try discriminate;
    cbn [existsb forallb];
    destruct (Str.includes u "<"), (Str.includes u ">"), (Str.includes u "{"),
      (Str.includes u "}"); cbn [negb andb orb]; try discriminate; done.
Qed.

(** X20. Falling back to the requested URL: it is the address fetched when
    the page cannot be fetched, when the page answers with a status that is
    not 2xx, and when the page has neither a pattern with a valid candidate
    nor a JSON-LD script. *)
Theorem selectImageUrl_falls_back (url : string) :
  Regex.test imageExtension url = false ->
  match fetch url pageHeaders with
  | Rejected _ => True
  | Resolved page =>
      ok page = false
      \/ (Selection.firstValid (body page) imagePatterns = None
          /\ jsonLdBlocks (body page) = [])
  end ->
  selectImageUrl fetch JSON_parse origin url = url.
Proof.
  intros Hdirect Hpage. unfold selectImageUrl. rewrite Hdirect.
  destruct (fetch url pageHeaders) as [|page]; [reflexivity|].
  destruct Hpage as [->|[Hnone Hblocks]]; [reflexivity|].
  destruct (ok page); [|reflexivity].
  unfold imageFromHtml. rewrite scanPatterns_firstValid, Hnone. simpl.
  by rewrite String.eqb_refl, Hblocks.
Qed.

Lemma extractImageFromJson_object (fields : list (string * JSON)) :
  extractImageFromJson (JObject fields)
  = match fromImage (field "image" fields) with
    | Some r => r
    | None =>
        match field "@graph" fields with
        | Some (JArray items) =>
            Selection.firstTruthy (extractImageFromJson <$> items)
        | _ => None
        end
    end.
Proof.
  cbn [extractImageFromJson].
  destruct (fromImage (field "image" fields)); [reflexivity|].
  induction fields as [|[k v] fields IH]; [reflexivity|].
  cbn [field]. destruct (String.eqb k "@graph"); [|exact IH].
  destruct v as [| | | |items|]; try reflexivity.
  induction items as [|item rest IHi]; [reflexivity|].
  cbn [fmap list_fmap Selection.firstTruthy].
  destruct (extractImageFromJson item) as [img|]; [|exact IHi].
  destruct (truthy img); [reflexivity|exact IHi].
Qed.

(** X24. The search through [@graph]: for an object whose [image] field
    settles nothing, the items of [@graph] are searched in order, items that
    give no image or an empty one are passed over, and the image of the
    first item that has one is returned, however deeply that item nests its
    own [@graph]. *)
Theorem graph_is_searched_in_order (fields : list (string * JSON))
    (before : list JSON) (item : JSON) (after : list JSON) (img : JSON) :
  fromImage (field "image" fields) = None ->
  field "@graph" fields = Some (JArray (before ++ item :: after)) ->
  Forall (fun it => Selection.passedOver (extractImageFromJson it)) before ->
  extractImageFromJson item = Some img ->
  truthy img = true ->
  extractImageFromJson (JObject fields) = Some img
  /\ forall outer : list (string * JSON),
       fromImage (field "image" outer) = None ->
       field "@graph" outer = Some (JArray [JObject fields]) ->
       extractImageFromJson (JObject outer) = Some img.
Proof.
  intros Himage Hgraph Hbefore Hitem Htruthy.
  assert (Hin : extractImageFromJson (JObject fields) = Some img).
  { rewrite extractImageFromJson_object, Himage, Hgraph. clear Hgraph.
    induction Hbefore as [|it before Hit _ IH];
      cbn [app fmap list_fmap Selection.firstTruthy].
    - by rewrite Hitem, Htruthy.
    - unfold Selection.passedOver in Hit.
      destruct (extractImageFromJson it) as [r|]; [|exact IH].
      by rewrite Hit. }
  split; [exact Hin|].
  intros outer Ho Hg.
  rewrite extractImageFromJson_object, Ho, Hg.
  cbn [fmap list_fmap Selection.firstTruthy].
  by rewrite Hin, Htruthy.
Qed.


(** X22. A direct image URL is fetched without looking at any page: the
    response depends on the network only through the answer to the one
    request for [url] with the image headers, and not on the JSON parser or
    on the origin function. *)
Theorem direct_image_skips_the_page
    (fetch' : string -> list (string * string) -> FetchResult)
    (JSON_parse' : string -> option JSON) (origin' : string -> option string)
    (url : string) :
  Regex.test imageExtension url = true ->
  fetch' url (imageHeaders url) = fetch url (imageHeaders url) ->
  selectImageUrl fetch JSON_parse origin url = url
  /\ serve fetch' JSON_parse' origin' btoa (mkRequest "POST" (Body (Some url)))
     = serve fetch JSON_parse origin btoa (mkRequest "POST" (Body (Some url))).
Proof.
  intros Hdirect Hsame.
  assert (Hsel : forall f p o, selectImageUrl f p o url = url).
  { intros f p o. unfold selectImageUrl. by rewrite Hdirect. }
  split; [apply Hsel|].
  unfold serve. cbn [method json].
  destruct (String.eqb "POST" "OPTIONS"); [reflexivity|].
  destruct (String.eqb url ""); [reflexivity|].
  by rewrite !Hsel, Hsame.
Qed.

(** X23. The handler always answers with a structured response: the status
    is 200, 400 or 500; a preflight request gets 200 without a body; every
    other request gets a body in which [success] is true exactly for status
    200, a successful body carries a data URL and no error, and a failed one
    carries an error and no image. A request without a URL, or with an empty
    one, is answered 400 before anything is fetched. *)
Theorem serve_response_shape (req : Request) :
  let r := serve fetch JSON_parse origin btoa req in
  (http_status r = 200 \/ http_status r = 400 \/ http_status r = 500)
  /\ (if String.eqb (method req) "OPTIONS"
      then r = mkHttp 200 None
      else exists b,
        http_body r = Some b
        /\ (success b = true <-> http_status r = 200)
        /\ (if success b
            then error b = None
                 /\ exists rest,
                      image_base64 b = Some (String.append "data:" rest)
            else image_base64 b = None /\ is_Some (error b))
        /\ match json req with
           | Body (Some url) =>
               url = ""%string -> r = mkHttp 400 (Some (failure "URL is required"))
           | Body None => r = mkHttp 400 (Some (failure "URL is required"))
           | BadJson message => r = mkHttp 500 (Some (failure message))
           end).
Proof.
  intros r. subst r. unfold serve.
  destruct (String.eqb (method req) "OPTIONS"); [by split; [left|]|].
  destruct (json req) as [message|[url|]];
    [|destruct (String.eqb_spec url "") as [->|Hne];
      [|destruct (fetch _ (imageHeaders url)) as [message|image];
        [|destruct (ok image); cbn [negb]]]|];
    (split; [simpl; tauto|]);
    (eexists; split; [reflexivity|]); simpl;
    repeat split; try done; eauto.
Qed.
End SelectionFacts.

(** ** The further properties on the sample inputs *)

Lemma calls_keep_shape_witness :
  let cs := [Cloth.CallPin 1 (Vector3.mk 2 2 0); Cloth.CallUpdate 0.016;
             Cloth.CallUnpin 1; Cloth.CallUpdate 0.016] in
  Cloth.constraints (Cloth.performAll cs Samples.triangleCloth)
    = Cloth.constraints Samples.triangleCloth
  /\ Cloth.getVertexCount (Cloth.performAll cs Samples.triangleCloth) = 3
  /\ exists v', Cloth.vertices (Cloth.performAll cs Samples.triangleCloth) !! 1
                = Some v'
                /\ Cloth.mass v' = 1%float.
Proof.
  intros cs.
  apply (calls_keep_shape cs Samples.triangleCloth 1
           (Cloth.mkVertex (Vector3.mk 1 0 0) (Vector3.mk 1 0 0) Vector3.zero
              false 1)).
  reflexivity.
Defined.

Lemma fully_pinned_is_fixed_witness :
  Cloth.vertices (state_of (Cloth.update 0.016 Samples.pinnedTriangle))
  = Cloth.vertices Samples.pinnedTriangle.
Proof.
  apply (fully_pinned_is_fixed 0.016 Samples.pinnedTriangle).
  repeat constructor.
Defined.



Lemma construct_then_apply_witness :
  Cloth.applyToGeometry Samples.exact Samples.triangleCloth
    (Geometry.attr_position Samples.triangle)
  = Geometry.attr_position Samples.triangle.
Proof.
  apply (construct_then_apply Samples.exact Samples.triangle
           Samples.triangleCloth).
  - vm_compute. reflexivity.
  - exists 3. reflexivity.
  - repeat constructor.
Defined.

Lemma shirt_placement_witness :
  let result :=
    Renderer.alignToSkeleton shirt Samples.standingSkeleton Samples.restMesh
      Samples.triangleCloth in
  exists v, Cloth.vertices result.2 !! 1 = Some v
            /\ Cloth.pinned v = true
            /\ Cloth.position v
               = Placement.shoulderLinePin Samples.standingSkeleton 1
            /\ Cloth.previousPosition v = Vector3.mk 1 0 0.
Proof.
  destruct (shirt_placement Samples.standingSkeleton Samples.restMesh
              Samples.triangleCloth 1
              (Cloth.mkVertex (Vector3.mk 1 0 0) (Vector3.mk 1 0 0)
                 Vector3.zero false 1))
    as (_ & _ & Hv & _ & _).
  - lia.
  - reflexivity.
  - intros result. eexists. split; [exact Hv|]. repeat split.
Defined.

Lemma skirt_placement_witness :
  let result :=
    Renderer.alignToSkeleton skirt Samples.standingSkeleton Samples.restMesh
      Samples.triangleCloth in
  exists v, Cloth.vertices result.2 !! 2 = Some v
            /\ Cloth.pinned v = true
            /\ Cloth.position v = Placement.skirtPin Samples.standingSkeleton 2
            /\ Cloth.previousPosition v = Vector3.mk 0 1 0.
Proof.
  destruct (skirt_placement Samples.standingSkeleton Samples.restMesh
              Samples.triangleCloth 2
              (Cloth.mkVertex (Vector3.mk 0 1 0) (Vector3.mk 0 1 0)
                 Vector3.zero false 1))
    as (_ & _ & Hv & _ & _).
  - lia.
  - reflexivity.
  - intros result. eexists. split; [exact Hv|]. repeat split.
Defined.

Lemma anchors_hold_between_frames_witness :
  let result :=
    Renderer.alignToSkeleton pants Samples.standingSkeleton Samples.restMesh
      Samples.triangleCloth in
  let cs := [Cloth.CallUpdate 0.016; Cloth.CallPin 1 (Vector3.mk 2 2 0);
             Cloth.CallUpdate 0.016; Cloth.CallUnpin 1] in
  exists v,
    Cloth.vertices (Cloth.performAll cs result.2) !! 0 = Some v
    /\ Cloth.pinned v = true
    /\ Cloth.position v
       = Renderer.pinPosition pants Samples.standingSkeleton result.1 0.
Proof.
  intros result cs.
  apply (anchors_hold_between_frames pants Samples.standingSkeleton
           Samples.restMesh Samples.triangleCloth cs 0).
  - unfold Renderer.gridWidth. lia.
  - unfold Cloth.getVertexCount. simpl. lia.
  - reflexivity.
Defined.

Lemma low_visibility_frame_is_dropped_witness :
  let refs := Renderer.mkRefs (Some Samples.restMesh) (Some Samples.triangleCloth) in
  Frames.onResults Samples.noQuaternion Samples.noEuler shirt
    (Some Samples.shoulderHidden) refs = Normal refs
  /\ Frames.onResults Samples.noQuaternion Samples.noEuler shirt None refs
     = Normal refs.
Proof.
  intros refs.
  apply (low_visibility_frame_is_dropped Samples.noQuaternion Samples.noEuler
           shirt Samples.shoulderHidden refs Pose.LEFT_SHOULDER).
  - apply list_elem_of_here.
  - vm_compute. reflexivity.
Defined.

Lemma animate_draws_anchor_witness :
  exists physics' positions',
    Frames.animate Samples.exact
      (Renderer.mkRefs (Some Samples.restMesh) (Some Samples.anchoredTriangle))
      (Geometry.attr_position Samples.triangle)
    = Normal (Renderer.mkRefs (Some Samples.restMesh) (Some physics'), positions')
    /\ Cloth.pinned_at 0
         (Cloth.mkVertex (Vector3.mk 0 0 0) (Vector3.mk 0 0 0) Vector3.zero
            true 1)
         (Cloth.vertices physics')
    /\ List.length positions' = 9
    /\ take 3 (drop (3 * 0) positions') = [0; 0; 0]%float.
Proof.
  apply (animate_draws_anchor Samples.exact Samples.restMesh
           Samples.anchoredTriangle (Geometry.attr_position Samples.triangle) 0
           (Cloth.mkVertex (Vector3.mk 0 0 0) (Vector3.mk 0 0 0) Vector3.zero
              true 1)).
  - repeat constructor; vm_compute; lia.
  - split; reflexivity.
  - vm_compute. lia.
Defined.

Lemma selectImageUrl_falls_back_witness :
  Extract.selectImageUrl
    (Samples.network Samples.shopUrl Samples.rootRelativePage)
    Samples.parse Samples.originOf Samples.shopUrl
  = Samples.shopUrl.
Proof.
  apply (selectImageUrl_falls_back
           (Samples.network Samples.shopUrl Samples.rootRelativePage)
           Samples.parse Samples.originOf Samples.shopUrl).
  - vm_compute. reflexivity.
  - right. split; vm_compute; reflexivity.
Defined.


Lemma direct_image_skips_the_page_witness :
  let url := "https://img.example.com/p.png"%string in
  Extract.selectImageUrl (Samples.network Samples.shopUrl Samples.ogPage)
    Samples.parse Samples.originOf url = url
  /\ Extract.serve (Samples.network Samples.viewerUrl Samples.viewerPage)
       Samples.parseGraph (fun _ => None) Samples.encode
       (Extract.mkRequest "POST" (Extract.Body (Some url)))
     = Extract.serve (Samples.network Samples.shopUrl Samples.ogPage)
         Samples.parse Samples.originOf Samples.encode
         (Extract.mkRequest "POST" (Extract.Body (Some url))).
Proof.
  intros url.
  apply (direct_image_skips_the_page
           (Samples.network Samples.shopUrl Samples.ogPage)
           Samples.parse Samples.originOf Samples.encode
           (Samples.network Samples.viewerUrl Samples.viewerPage)
           Samples.parseGraph (fun _ => None) url).
  - vm_compute. reflexivity.
  - vm_compute. reflexivity.
Defined.

Lemma graph_is_searched_in_order_witness :
  Extract.extractImageFromJson (Extract.JObject Samples.graphFields)
    = Some (Extract.JString "//cdn.example.com/other.png")
  /\ forall outer : list (string * Extract.JSON),
       Extract.fromImage (Extract.field "image" outer) = None ->
       Extract.field "@graph" outer
         = Some (Extract.JArray [Extract.JObject Samples.graphFields]) ->
       Extract.extractImageFromJson (Extract.JObject outer)
         = Some (Extract.JString "//cdn.example.com/other.png").
Proof.
  apply (graph_is_searched_in_order Samples.graphFields
           [Extract.JObject [("@type"%string, Extract.JString "WebSite")]]
           (Extract.JObject
              [("image"%string, Extract.JString "//cdn.example.com/other.png")])
           []
           (Extract.JString "//cdn.example.com/other.png")).
  - reflexivity.
  - reflexivity.
  - repeat constructor.
  - reflexivity.
  - reflexivity.
Defined.
